(** * Campus Event Hub: access control, accounts and registrations

    A shallow embedding of the JavaScript sources of the Campus Event Hub
    backend: the user service ([services/userService.js]), the event service
    ([services/eventService.js]), the authentication router, the tolerant
    authentication middleware, the role middleware and ownership check of the
    role-based access control notes, and the update, delete and registration
    handlers of the server.

    JavaScript objects are finite maps from property names to values, the
    document store is a record of collections, and the services run in a
    small state-and-exception monad: a thrown error keeps the effects that
    happened before it, as an [await]ed rejection does. *)

From Stdlib Require Import ZArith Ascii String.
From stdpp Require Import base option list gmap strings fin_maps countable.

Open Scope Z_scope.

(** ** JavaScript values and objects *)

(** The values that flow through the modelled code.  Numbers are integers;
    [VDate] is a [Date] by its epoch milliseconds, [VId] a BSON ObjectId by
    its 96-bit number and [VObject] any other object or array, known only by
    its reference. *)
Inductive Value : Type :=
  | VUndef
  | VNull
  | VBool (b : bool)
  | VNum (n : Z)
  | VStr (s : string)
  | VDate (ms : Z)
  | VId (oid : N)
  | VObject (ref : nat).

#[global] Instance Value_eq_dec : EqDecision Value.
Proof. solve_decision. Defined.

(** A plain object: own enumerable properties.  A key bound to [VUndef] is
    a property that exists and holds [undefined]. *)
Abbreviation Doc := (gmap string Value).

(** [obj.k]: a missing property reads as [undefined]. *)
Definition get (k : string) (o : Doc) : Value := default VUndef (o !! k).

(** ToBoolean. *)
Definition truthy (v : Value) : bool :=
  match v with
  | VUndef | VNull => false
  | VBool b => b
  | VNum n => negb (n =? 0)
  | VStr s => negb (String.eqb s "")
  | VDate _ | VId _ | VObject _ => true
  end.

(** [a || b] on values. *)
Definition js_or (a b : Value) : Value := if truthy a then a else b.

(** [a === b].  Primitives compare by value.  Objects compare by reference,
    and in every comparison of the modelled code the two operands come from
    different sources (a literal or a freshly parsed token against a stored
    document), so two objects are never the same reference. *)
Definition strict_eq (a b : Value) : bool :=
  match a, b with
  | VUndef, VUndef => true
  | VNull, VNull => true
  | VBool x, VBool y => Bool.eqb x y
  | VNum x, VNum y => x =? y
  | VStr x, VStr y => String.eqb x y
  | _, _ => false
  end.

(** [arr.includes(v)] for an array of string literals. *)
Definition includes (arr : list string) (v : Value) : bool :=
  existsb (fun r => strict_eq (VStr r) v) arr.

(** [arr.join(sep)]. *)
Fixpoint join (sep : string) (arr : list string) : string :=
  match arr with
  | [] => ""
  | [x] => x
  | x :: rest => x +:+ sep +:+ join sep rest
  end.

(** [s.startsWith(p)]. *)
Definition startsWith (p s : string) : bool := String.prefix p s.

(** [s.split(' ')]: the pieces between single spaces. *)
Fixpoint split_space_aux (cur : string) (s : string) : list string :=
  match s with
  | EmptyString => [String.rev cur]
  | String c rest =>
      if Ascii.eqb c Ascii.Space
      then String.rev cur :: split_space_aux "" rest
      else split_space_aux (String c cur) rest
  end.

Definition split_space (s : string) : list string := split_space_aux "" s.

(** ** ObjectId *)

Definition hex_digit (c : ascii) : option N :=
  let n := Ascii.N_of_ascii c in
  if ((48 <=? n) && (n <=? 57))%N then Some (n - 48)%N
  else if ((97 <=? n) && (n <=? 102))%N then Some (n - 87)%N
  else if ((65 <=? n) && (n <=? 70))%N then Some (n - 55)%N
  else None.

Fixpoint parse_hex (acc : N) (s : string) : option N :=
  match s with
  | EmptyString => Some acc
  | String c rest =>
      match hex_digit c with
      | Some d => parse_hex (16 * acc + d)%N rest
      | None => None
      end
  end.

(** [ObjectId.isValid(s)] on a string: 24 hexadecimal characters. *)
Definition ObjectId_isValid (s : string) : bool :=
  (String.length s =? 24)%nat && bool_decide (is_Some (parse_hex 0 s)).

(** [new ObjectId(s)] for a string that [ObjectId_isValid] accepts. *)
Definition ObjectId_of (s : string) : Value :=
  match parse_hex 0 s with
  | Some n => VId n
  | None => VUndef
  end.

Definition hex_char (d : N) : ascii :=
  if (d <? 10)%N then Ascii.ascii_of_N (48 + d) else Ascii.ascii_of_N (87 + d).

Fixpoint hex_digits (len : nat) (n : N) (acc : string) : string :=
  match len with
  | O => acc
  | S len' => hex_digits len' (n / 16)%N (String (hex_char (n mod 16)%N) acc)
  end.

(** [oid.toHexString()]: 24 lower-case hexadecimal digits. *)
Definition toHexString (n : N) : string := hex_digits 24 n "".

(** ** JSON and BSON images of a value *)

(** The JavaScript runtime and the libraries the sources call into.  They
    are collaborators of the program, not part of it: the development is
    stated for every implementation of this interface. *)
Class Runtime : Type := {
  (** [date.toISOString()] *)
  toISOString : Z -> string;
  (** [new Date(v).getTime()]; [None] is an invalid date *)
  Date_parse : Value -> option Z;
  (** the local midnight that starts the day of an instant:
      [d.setHours(0, 0, 0, 0)] *)
  startOfDay : Z -> Z;
  (** [bcrypt.hash(data, SALT_ROUNDS)] on a string *)
  bcrypt_hash : string -> string;
  (** [bcrypt.compare(data, hash)] on two strings *)
  bcrypt_compare : string -> string -> bool;
  (** the HMAC-SHA256 signature of a token payload under a secret *)
  hmac : string -> Doc -> string;
  (** the compact serialisation of a signed token, and its parser *)
  encodeJws : Doc * string -> string;
  decodeJws : string -> option (Doc * string);
  (** [process.env.JWT_SECRET || 'campus_event_hub_secret_key'] *)
  JWT_SECRET : string
}.

Section Images.
Context `{!Runtime}.

(** [JSON.parse(JSON.stringify(v))] on a property value: an ObjectId
    becomes its hexadecimal string and a date its ISO string; [None] is a
    property that [JSON.stringify] leaves out. *)
Definition jsonValue (v : Value) : option Value :=
  match v with
  | VUndef => None
  | VId n => Some (VStr (toHexString n))
  | VDate ms => Some (VStr (toISOString ms))
  | _ => Some v
  end.

(** [JSON.parse(JSON.stringify(o))] on a plain object. *)
Definition jsonClone (o : Doc) : Doc := omap jsonValue o.

(** What the BSON serialiser stores for a property value: [undefined] is
    written as null (the driver's default, [ignoreUndefined] off). *)
Definition bsonValue (v : Value) : Value :=
  match v with
  | VUndef => VNull
  | _ => v
  end.

Definition bson (o : Doc) : Doc := bsonValue <$> o.
End Images.

(** ** Errors *)

(** What the services throw.  [AppError] carries a message and a status
    code; [DatabaseError] is its subclass with status 500, so it is an
    [AppError] for [instanceof].  [JsError] is any other thrown value (a
    library error, a [TypeError]) by its [name], its [message] and its
    [code] ([undefined] when it has none): it has no [statusCode]. *)
Inductive Exn : Type :=
  | AppError (message : string) (statusCode : Z)
  | JsError (name : string) (message : string) (code : Value).

Definition DatabaseError (message : string) : Exn := AppError message 500.

Definition instanceofAppError (e : Exn) : bool :=
  match e with
  | AppError _ _ => true
  | JsError _ _ _ => false
  end.

Definition exn_message (e : Exn) : string :=
  match e with
  | AppError m _ => m
  | JsError _ m _ => m
  end.

#[global] Instance Exn_eq_dec : EqDecision Exn.
Proof. solve_decision. Defined.

(** ** The world the services act on *)

Inductive Level : Type := LInfo | LWarn | LError.

(** One outbound message handed to the mail transport. *)
Record Email : Type := mkEmail {
  mail_to : Value;
  (** which message it is; subject and HTML body are this template filled
      in with the event's title, date, time and location *)
  mail_template : string;
  mail_event : Doc
}.

(** The mail transport: not initialised, or a transport whose [verify] and
    [sendMail] succeed or fail for a given message. *)
Inductive Transport : Type :=
  | NoTransporter
  | Transporter (delivers : Email -> bool).

Record World : Type := mkWorld {
  users : list Doc;
  events : list Doc;
  registrations : list Doc;
  feedback : list Doc;
  (** the in-memory cache: key to cached JSON image *)
  cache : gmap string Doc;
  (** the next ObjectId the driver generates *)
  next_oid : N;
  (** winston and console output, oldest first *)
  log : list (Level * string);
  (** messages the transport accepted, oldest first *)
  outbox : list Email;
  transporter : Transport
}.

(** The domain state of the application: its four collections. *)
Definition domain (w : World) : list Doc * list Doc * list Doc * list Doc :=
  (users w, events w, registrations w, feedback w).

Definition set_users (f : list Doc -> list Doc) (w : World) : World :=
  mkWorld (f (users w)) (events w) (registrations w) (feedback w)
          (cache w) (next_oid w) (log w) (outbox w) (transporter w).
Definition set_events (f : list Doc -> list Doc) (w : World) : World :=
  mkWorld (users w) (f (events w)) (registrations w) (feedback w)
          (cache w) (next_oid w) (log w) (outbox w) (transporter w).
Definition set_registrations (f : list Doc -> list Doc) (w : World) : World :=
  mkWorld (users w) (events w) (f (registrations w)) (feedback w)
          (cache w) (next_oid w) (log w) (outbox w) (transporter w).
Definition set_feedback (f : list Doc -> list Doc) (w : World) : World :=
  mkWorld (users w) (events w) (registrations w) (f (feedback w))
          (cache w) (next_oid w) (log w) (outbox w) (transporter w).
Definition set_cache (f : gmap string Doc -> gmap string Doc) (w : World) : World :=
  mkWorld (users w) (events w) (registrations w) (feedback w)
          (f (cache w)) (next_oid w) (log w) (outbox w) (transporter w).
Definition set_next_oid (n : N) (w : World) : World :=
  mkWorld (users w) (events w) (registrations w) (feedback w)
          (cache w) n (log w) (outbox w) (transporter w).
Definition set_log (f : list (Level * string) -> list (Level * string)) (w : World) : World :=
  mkWorld (users w) (events w) (registrations w) (feedback w)
          (cache w) (next_oid w) (f (log w)) (outbox w) (transporter w).
Definition set_outbox (f : list Email -> list Email) (w : World) : World :=
  mkWorld (users w) (events w) (registrations w) (feedback w)
          (cache w) (next_oid w) (log w) (f (outbox w)) (transporter w).

(** ** The service monad: state, and exceptions that keep the state *)

Inductive Res (A : Type) : Type :=
  | Ok (a : A)
  | Throw (e : Exn).
Arguments Ok {A} a.
Arguments Throw {A} e.

#[global] Instance Res_fmap : FMap Res :=
  fun A B f r => match r with Ok a => Ok (f a) | Throw e => Throw e end.

Definition M (A : Type) : Type := World -> Res A * World.

Definition ret {A} (a : A) : M A := fun w => (Ok a, w).
Definition throw {A} (e : Exn) : M A := fun w => (Throw e, w).
Definition bind {A B} (m : M A) (k : A -> M B) : M B :=
  fun w =>
    match m w with
    | (Ok a, w') => k a w'
    | (Throw e, w') => (Throw e, w')
    end.
(** [try { m } catch (error) { h error }] *)
Definition try_catch {A} (m : M A) (h : Exn -> M A) : M A :=
  fun w =>
    match m w with
    | (Ok a, w') => (Ok a, w')
    | (Throw e, w') => h e w'
    end.
Definition gets {A} (f : World -> A) : M A := fun w => (Ok (f w), w).
Definition modify (f : World -> World) : M unit := fun w => (Ok tt, f w).

Declare Scope js_scope.
Delimit Scope js_scope with js.
Notation "x <- m ;; k" := (bind m (fun x => k))
  (at level 100, m at next level, right associativity) : js_scope.
Notation "m ;;; k" := (bind m (fun _ => k))
  (at level 100, right associativity) : js_scope.
Open Scope js_scope.

(** [if (c) throw e;] *)
Definition throw_if (c : bool) (e : Exn) : M unit :=
  if c then throw e else ret tt.

(** [logger.info], [logger.warn], [logger.error] and [console.error]. *)
Definition logger (lvl : Level) (msg : string) : M unit :=
  modify (set_log (fun l => l ++ [(lvl, msg)])).

(** ** The document store (MongoDB driver) *)

Module Mongo.

(** The collections of the database the services use. *)
Inductive Collection : Type :=
  | usersCollection
  | eventsCollection
  | registrationsCollection
  | feedbackCollection.

(** The documents of a collection, in insertion order. *)
Definition docs (c : Collection) (w : World) : list Doc :=
  match c with
  | usersCollection => users w
  | eventsCollection => events w
  | registrationsCollection => registrations w
  | feedbackCollection => feedback w
  end.

Definition over (c : Collection) (f : list Doc -> list Doc) (w : World) : World :=
  match c with
  | usersCollection => set_users f w
  | eventsCollection => set_events f w
  | registrationsCollection => set_registrations f w
  | feedbackCollection => set_feedback f w
  end.

(** An equality filter [{k1: v1, ...}]: every listed field of the document
    equals the given value, where a null (or undefined) filter value
    matches a field that is null or missing.  This is how the store reads a
    filter whose values are scalars against documents whose fields are
    scalars ([equalityOn] below); a filter value that is an object is an
    operator document ([{$ne: ...}]) or an array to the store, and a stored
    array is matched by its elements: neither is modelled. *)
Definition matches (q d : Doc) : bool :=
  bool_decide (map_Forall (fun k v => bsonValue (get k d) = bsonValue v) q).

(** A value that is no object and no array. *)
Definition scalar (v : Value) : bool :=
  match v with
  | VObject _ => false
  | _ => true
  end.

(** The store reads the filter [{k: v}] on the documents [l] as plain
    equality: [v] is a scalar, and so is the field [k] of every document. *)
Definition equalityOn (k : string) (v : Value) (l : list Doc) : bool :=
  scalar v && forallb (fun d => scalar (get k d)) l.

Definition findOne (c : Collection) (q : Doc) : M (option Doc) :=
  gets (fun w => List.find (matches q) (docs c w)).

(** [find(q).toArray()] *)
Definition find (c : Collection) (q : Doc) : M (list Doc) :=
  gets (fun w => List.filter (matches q) (docs c w)).

(** [insertOne(doc)]: the driver gives the document an [_id] when it has
    none, stores its BSON image and answers [insertedId].  A document that
    brings an [_id] of its own is stored under it; the duplicate-key error
    of the store for an [_id] that is already taken is not modelled, so
    what is stated of an insert is stated for documents without [_id] or
    for an insert that succeeded. *)
Definition insertOne (c : Collection) (d : Doc) : M Value :=
  fun w =>
    let '(id, w1) :=
      match get "_id" d with
      | VUndef | VNull => (VId (next_oid w), set_next_oid (next_oid w + 1)%N w)
      | v => (v, w)
      end in
    (Ok id, over c (fun l => l ++ [bson (<["_id" := id]> d)]) w1).

(** Apply [f] to the first document that satisfies [p]. *)
Fixpoint update_first (p : Doc -> bool) (f : Doc -> Doc) (l : list Doc) : list Doc :=
  match l with
  | [] => []
  | d :: rest => if p d then f d :: rest else d :: update_first p f rest
  end.

(** Drop the first document that satisfies [p]. *)
Fixpoint remove_first (p : Doc -> bool) (l : list Doc) : list Doc :=
  match l with
  | [] => []
  | d :: rest => if p d then rest else d :: remove_first p rest
  end.

Definition count_if (b : bool) : Z := if b then 1 else 0.



(** [updateOne(q, {$set: upd})]; answers [matchedCount].  The update
    writes the fields of [upd] by their names ([plainKeys]).  The errors
    of the store for an update that sets [_id], or that sets the [email]
    of a user to one the unique index on [users.email] already holds, are
    not modelled: what is stated of an update is stated for data without
    those fields. *)
Definition updateOne (c : Collection) (q upd : Doc) : M Z :=
  fun w =>
    (Ok (count_if (existsb (matches q) (docs c w))),
     over c (update_first (matches q) (fun d => bson upd ∪ d)) w).

(** [deleteOne(q)]; answers [deletedCount]. *)
Definition deleteOne (c : Collection) (q : Doc) : M Z :=
  fun w =>
    (Ok (count_if (existsb (matches q) (docs c w))),
     over c (remove_first (matches q)) w).

(** [deleteMany(q)]; answers [deletedCount]. *)
Definition deleteMany (c : Collection) (q : Doc) : M Z :=
  fun w =>
    (Ok (Z.of_nat (List.length (List.filter (matches q) (docs c w)))),
     over c (List.filter (fun d => negb (matches q d))) w).

End Mongo.

Arguments Mongo.insertOne : simpl never.

(** ** The cache ([utils/cache.js]) *)

(** The cache manager over the in-memory cache.  It is connected from
    construction until shutdown, so the disconnected branches are not
    reached while requests are served; the expiry timers fire between
    operations and are not part of one. *)
Module Cache.
Section WithRuntime.
Context `{!Runtime}.

(** [cache.get(key)]: the parsed value, or null. *)
Definition get (key : string) : M (option Doc) :=
  gets (fun w => cache w !! key).

(** [cache.set(key, value, expiration)]: stores [JSON.stringify(value)]. *)
Definition set (key : string) (value : Doc) : M unit :=
  modify (set_cache (fun c => <[key := jsonClone value]> c)).

Definition del (key : string) : M unit :=
  modify (set_cache (fun c => delete key c)).

Definition flush : M unit :=
  modify (set_cache (fun _ => ∅)).
End WithRuntime.
End Cache.

(** ** Outbound email ([utils/email.js]) *)

Module EmailService.

(** [sendEmailNotification(to, subject, htmlContent)]: without a
    transporter it warns and returns; a failure of the transport (in
    [verify] or in [sendMail]) is logged and thrown again.  The preview
    line that is logged outside production is left out. *)
Definition sendEmailNotification (m : Email) : M unit :=
  try_catch
    (t <- gets transporter ;;
     match t with
     | NoTransporter => logger LWarn "Email transporter not initialized"
     | Transporter delivers =>
         if delivers m
         then (modify (set_outbox (fun o => o ++ [m])) ;;;
               logger LInfo "Email sent successfully")
         else throw (JsError "Error" "mail transport failure" VUndef)
     end)
    (fun error => logger LError "Error sending email:" ;;; throw error).

(** [sendRegistrationConfirmation(studentEmail, event)] *)
Definition sendRegistrationConfirmation (studentEmail : Value) (event : Doc) : M unit :=
  try_catch
    (sendEmailNotification (mkEmail studentEmail "Registration Confirmed" event) ;;;
     logger LInfo "Registration confirmation email sent")
    (fun error =>
       logger LError "Error sending registration confirmation email:" ;;;
       throw error).

End EmailService.

(** ** The token library (jsonwebtoken) *)

Module Jwt.
Section WithRuntime.
Context `{!Runtime}.

(** Why [verify] throws. *)
Inductive DecodeFailure : Type := Malformed | SignatureInvalid | Expired.

(** The clock of the library: whole seconds. *)
Definition seconds (now : Z) : Z := now / 1000.

(** [jwt.sign(payload, secret, { expiresIn: '24h' })] at clock [now]
    (milliseconds): [iat] is the current second, [exp] lies 24 hours
    later, and the JSON image of the payload is signed. *)
Definition sign (payload : Doc) (secret : string) (now : Z) : string :=
  let iat := seconds now in
  let claims := jsonClone (<["exp" := VNum (iat + 86400)]> (<["iat" := VNum iat]> payload)) in
  encodeJws (claims, hmac secret claims).

(** [jwt.verify(token, secret)] at clock [now]: the token is parsed,
    its signature checked, then its expiry; the parsed payload is the
    result. *)
Definition verify (token : string) (secret : string) (now : Z) : DecodeFailure + Doc :=
  match decodeJws token with
  | None => inl Malformed
  | Some (claims, signature) =>
      if String.eqb signature (hmac secret claims)
      then match claims !! "exp" with
           | None => inr claims
           | Some (VNum exp) =>
               if exp <=? seconds now then inl Expired else inr claims
           | Some _ => inl Malformed
           end
      else inl SignatureInvalid
  end.
End WithRuntime.
End Jwt.

(** ** Shared pieces of the services *)

(** An identifier as the routes and the store hand it to the services: a
    string or an ObjectId. *)
Definition idText (v : Value) : bool :=
  match v with
  | VStr _ | VId _ => true
  | _ => false
  end.

(** [ObjectId.isValid(v)] on an identifier ([idText]): a string is checked
    for its shape and an ObjectId is valid.  The library also accepts a
    number, as the seed of a fresh identifier; that case is not modelled,
    and what is stated of a refused identifier is stated for strings. *)
Definition ObjectId_isValid_value (v : Value) : bool :=
  match v with
  | VStr s => ObjectId_isValid s
  | VId _ => true
  | _ => false
  end.

(** [new ObjectId(v)] for a valid [v]. *)
Definition ObjectId_new (v : Value) : Value :=
  match v with
  | VStr s => ObjectId_of s
  | _ => v
  end.

(** The text of an identifier inside a template literal. *)
Definition idString (v : Value) : string :=
  match v with
  | VStr s => s
  | VId n => toHexString n
  | _ => ""
  end.

(** The common [catch] clause of the services:
    [if (error instanceof AppError) throw error; logger.error(...);
     throw new DatabaseError(...)]. *)
Definition rethrow_app {A} (logged failure : string) (error : Exn) : M A :=
  if instanceofAppError error then throw error
  else (logger LError logged ;;; throw (DatabaseError failure)).

(** ** The user service ([services/userService.js]) *)

Module UserService.
Section WithRuntime.
Context `{!Runtime}.

(** [bcrypt.hash(data, SALT_ROUNDS)]: rejects what is not a string. *)
Definition bcryptHash (data : Value) : M string :=
  match data with
  | VStr s => ret (bcrypt_hash s)
  | _ => throw (JsError "Error" "data must be a string or Buffer" VUndef)
  end.

(** [bcrypt.compare(data, hash)]: rejects what is not a string. *)
Definition bcryptCompare (data hash : Value) : M bool :=
  match data, hash with
  | VStr d, VStr h => ret (bcrypt_compare d h)
  | _, _ => throw (JsError "Error" "data and hash must be strings" VUndef)
  end.

(** [const { password, ...userWithoutPassword } = user] *)
Definition withoutPassword (user : Doc) : Doc := delete "password" user.

(** [register(userData)] at clock [now]. *)
Definition register (userData : Doc) (now : Z) : M Doc :=
  try_catch
    (existingUser <- Mongo.findOne Mongo.usersCollection
                       {[ "email" := get "email" userData ]} ;;
     throw_if (bool_decide (is_Some existingUser))
              (AppError "User with this email already exists" 409) ;;;
     hashedPassword <- bcryptHash (get "password" userData) ;;
     let user : Doc :=
       <["name" := get "name" userData]>
       (<["email" := get "email" userData]>
       (<["password" := VStr hashedPassword]>
       (<["role" := js_or (get "role" userData) (VStr "student")]>
       (<["studentId" := if strict_eq (get "role" userData) (VStr "student")
                         then get "studentId" userData else VNull]>
       (<["createdAt" := VDate now]>
       (<["updatedAt" := VDate now]> ∅)))))) in
     insertedId <- Mongo.insertOne Mongo.usersCollection user ;;
     let userWithoutPassword := withoutPassword (<["_id" := insertedId]> user) in
     logger LInfo "User registered successfully" ;;;
     ret (<["_id" := insertedId]> userWithoutPassword))
    (rethrow_app "Error registering user:" "Failed to register user").

(** [login(email, password)] at clock [now]: the token and the user
    without the password. *)
Definition login (email password : Value) (now : Z) : M (string * Doc) :=
  try_catch
    (found <- Mongo.findOne Mongo.usersCollection {[ "email" := email ]} ;;
     match found with
     | None => throw (AppError "Invalid credentials" 401)
     | Some user =>
         isPasswordValid <- bcryptCompare password (get "password" user) ;;
         throw_if (negb isPasswordValid) (AppError "Invalid credentials" 401) ;;;
         let token :=
           Jwt.sign (<["id" := get "_id" user]>
                     (<["email" := get "email" user]>
                     (<["role" := get "role" user]> ∅)))
                    JWT_SECRET now in
         let userWithoutPassword := withoutPassword user in
         logger LInfo "User logged in successfully" ;;;
         ret (token, userWithoutPassword)
     end)
    (rethrow_app "Error logging in user:" "Failed to login user").

(** [getUserById(userId)] *)
Definition getUserById (userId : Value) : M Doc :=
  try_catch
    (throw_if (negb (ObjectId_isValid_value userId)) (AppError "Invalid user ID" 400) ;;;
     found <- Mongo.findOne Mongo.usersCollection {[ "_id" := ObjectId_new userId ]} ;;
     match found with
     | None => throw (AppError "User not found" 404)
     | Some user => ret (withoutPassword user)
     end)
    (rethrow_app "Error fetching user:" "Failed to fetch user").

(** [getUserByEmail(email)] *)
Definition getUserByEmail (email : Value) : M Doc :=
  try_catch
    (found <- Mongo.findOne Mongo.usersCollection {[ "email" := email ]} ;;
     match found with
     | None => throw (AppError "User not found" 404)
     | Some user => ret (withoutPassword user)
     end)
    (rethrow_app "Error fetching user by email:" "Failed to fetch user").

(** [getAllUsers(filters)] *)
Definition getAllUsers (filters : Doc) : M (list Doc) :=
  try_catch
    (let query : Doc :=
       if truthy (get "role" filters) then {[ "role" := get "role" filters ]} else ∅ in
     found <- Mongo.find Mongo.usersCollection query ;;
     ret (withoutPassword <$> found))
    (fun error =>
       logger LError "Error fetching users:" ;;;
       throw (DatabaseError "Failed to fetch users")).


(** [deleteUser(userId)]; answers [deletedCount]. *)
Definition deleteUser (userId : Value) : M Z :=
  try_catch
    (throw_if (negb (ObjectId_isValid_value userId)) (AppError "Invalid user ID" 400) ;;;
     deletedCount <- Mongo.deleteOne Mongo.usersCollection
                       {[ "_id" := ObjectId_new userId ]} ;;
     throw_if (deletedCount =? 0) (AppError "User not found" 404) ;;;
     logger LInfo "User deleted successfully" ;;;
     ret deletedCount)
    (rethrow_app "Error deleting user:" "Failed to delete user").

(** [verifyToken(token)] at clock [now] *)
Definition verifyToken (token : string) (now : Z) : M Doc :=
  match Jwt.verify token JWT_SECRET now with
  | inr decoded => ret decoded
  | inl _ => throw (AppError "Invalid or expired token" 401)
  end.
End WithRuntime.
End UserService.

(** ** The event service ([services/eventService.js]) *)

Module EventService.
Section WithRuntime.
Context `{!Runtime}.

(** [getEventById(eventId)] *)
Definition getEventById (eventId : Value) : M Doc :=
  try_catch
    (throw_if (negb (ObjectId_isValid_value eventId)) (AppError "Invalid event ID" 400) ;;;
     let cacheKey := "event_" +:+ idString eventId in
     cached <- Cache.get cacheKey ;;
     match cached with
     | Some event => ret event
     | None =>
         found <- Mongo.findOne Mongo.eventsCollection {[ "_id" := ObjectId_new eventId ]} ;;
         match found with
         | None => throw (AppError "Event not found" 404)
         | Some event => Cache.set cacheKey event ;;; ret event
         end
     end)
    (rethrow_app "Error fetching event:" "Failed to fetch event").

(** [updateEvent(eventId, eventData)] at clock [now]; answers the
    driver's [matchedCount]. *)
Definition updateEvent (eventId : Value) (eventData : Doc) (now : Z) : M Z :=
  try_catch
    (throw_if (negb (ObjectId_isValid_value eventId)) (AppError "Invalid event ID" 400) ;;;
     matchedCount <- Mongo.updateOne Mongo.eventsCollection
                       {[ "_id" := ObjectId_new eventId ]}
                       (<["updatedAt" := VDate now]> eventData) ;;
     throw_if (matchedCount =? 0) (AppError "Event not found" 404) ;;;
     Cache.del ("event_" +:+ idString eventId) ;;;
     Cache.flush ;;;
     logger LInfo "Event updated successfully" ;;;
     ret matchedCount)
    (rethrow_app "Error updating event:" "Failed to update event").

(** [deleteEvent(eventId)]; answers the driver's [deletedCount]. *)
Definition deleteEvent (eventId : Value) : M Z :=
  try_catch
    (throw_if (negb (ObjectId_isValid_value eventId)) (AppError "Invalid event ID" 400) ;;;
     deletedCount <- Mongo.deleteOne Mongo.eventsCollection
                       {[ "_id" := ObjectId_new eventId ]} ;;
     throw_if (deletedCount =? 0) (AppError "Event not found" 404) ;;;
     Cache.del ("event_" +:+ idString eventId) ;;;
     Cache.flush ;;;
     logger LInfo "Event deleted successfully" ;;;
     ret deletedCount)
    (rethrow_app "Error deleting event:" "Failed to delete event").

(** [createEvent(eventData)] at clock [now]: stamps the event, stores it
    and flushes the cache; every failure is reported as a database error. *)
Definition createEvent (eventData : Doc) (now : Z) : M Doc :=
  try_catch
    (let event : Doc :=
       <["updatedAt" := VDate now]> (<["createdAt" := VDate now]> eventData) in
     insertedId <- Mongo.insertOne Mongo.eventsCollection event ;;
     Cache.flush ;;;
     logger LInfo "Event created successfully" ;;;
     ret (<["_id" := insertedId]> event))
    (fun error =>
       logger LError "Error creating event:" ;;;
       throw (DatabaseError "Failed to create event")).

(** [updateRegistrationPaymentStatus(registrationId, paymentStatus,
    paymentMethod)] at clock [now]; answers [matchedCount]. *)
Definition updateRegistrationPaymentStatus (registrationId paymentStatus paymentMethod : Value)
    (now : Z) : M Z :=
  try_catch
    (throw_if (negb (ObjectId_isValid_value registrationId))
              (AppError "Invalid registration ID" 400) ;;;
     matchedCount <- Mongo.updateOne Mongo.registrationsCollection
                       {[ "_id" := ObjectId_new registrationId ]}
                       (<["paymentStatus" := paymentStatus]>
                        (<["paymentMethod" := paymentMethod]>
                        (<["updatedAt" := VDate now]> ∅))) ;;
     throw_if (matchedCount =? 0) (AppError "Registration not found" 404) ;;;
     logger LInfo "Registration payment status updated successfully" ;;;
     ret matchedCount)
    (rethrow_app "Error updating registration payment status:"
                 "Failed to update registration payment status").

(** The confirmation block inside [registerForEvent]:
    [try { event = await this.getEventById(...);
           await sendRegistrationConfirmation(...) }
     catch (emailError) { logger.error(...) }]. *)
Definition sendConfirmation (registrationData : Doc) : M unit :=
  try_catch
    (event <- getEventById (get "eventId" registrationData) ;;
     EmailService.sendRegistrationConfirmation
       (get "studentEmail" registrationData) event)
    (fun emailError =>
       logger LError "Error sending registration confirmation email:").

(** [registerForEvent(registrationData)] at clock [now] *)
Definition registerForEvent (registrationData : Doc) (now : Z) : M Doc :=
  try_catch
    (existingRegistration <-
       Mongo.findOne Mongo.registrationsCollection
         (<["eventId" := get "eventId" registrationData]>
          {[ "studentEmail" := get "studentEmail" registrationData ]}) ;;
     throw_if (bool_decide (is_Some existingRegistration))
              (AppError "You have already registered for this event" 400) ;;;
     let registration : Doc := <["registeredAt" := VDate now]> registrationData in
     insertedId <- Mongo.insertOne Mongo.registrationsCollection registration ;;
     sendConfirmation registrationData ;;;
     logger LInfo "Event registration created" ;;;
     ret (<["_id" := insertedId]> registration))
    (rethrow_app "Error creating event registration:" "Failed to register for event").


(** [submitFeedback(feedbackData)] at clock [now] *)
Definition submitFeedback (feedbackData : Doc) (now : Z) : M Doc :=
  try_catch
    (let feedback : Doc := <["submittedAt" := VDate now]> feedbackData in
     insertedId <- Mongo.insertOne Mongo.feedbackCollection feedback ;;
     logger LInfo "Event feedback submitted" ;;;
     ret (<["_id" := insertedId]> feedback))
    (fun error =>
       logger LError "Error submitting event feedback:" ;;;
       throw (DatabaseError "Failed to submit feedback")).

(** [getEventFeedback(eventId)] *)
Definition getEventFeedback (eventId : Value) : M (list Doc) :=
  try_catch
    (Mongo.find Mongo.feedbackCollection {[ "eventId" := eventId ]})
    (fun error =>
       logger LError "Error fetching event feedback:" ;;;
       throw (DatabaseError "Failed to fetch event feedback")).
End WithRuntime.
End EventService.

(** ** Requests, responses and middleware (Express) *)

Record Request : Type := mkRequest {
  path : string;
  (** [req.headers['authorization']] *)
  authorization : option string;
  (** [req.params] *)
  params : gmap string string;
  (** [req.body] *)
  body : Doc;
  (** [req.user]: [None] is undefined or null *)
  user : option Doc;
  (** [res.locals.user] of the response under construction *)
  locals_user : option Doc
}.

Definition with_user (u : option Doc) (req : Request) : Request :=
  mkRequest (path req) (authorization req) (params req) (body req) u (locals_user req).

Definition with_users (u : option Doc) (req : Request) : Request :=
  mkRequest (path req) (authorization req) (params req) (body req) u u.

Definition param (k : string) (req : Request) : string :=
  default "" (params req !! k).

Inductive Payload : Type :=
  (** [res.json({...fields, user})]: scalar fields and, when present, a
      nested user object *)
  | Json (fields : Doc) (nested_user : option Doc)
  (** [res.render(view, { message, ... })] *)
  | Render (view : string) (message : string)
  (** [res.redirect(location)] *)
  | Redirect (location : string).

Record Response : Type := mkResponse {
  status : Z;
  payload : Payload
}.

#[global] Instance Payload_eq_dec : EqDecision Payload.
Proof. solve_decision. Defined.
#[global] Instance Response_eq_dec : EqDecision Response.
Proof. solve_decision. Defined.

Definition json_message (code : Z) (message : string) : Response :=
  mkResponse code (Json {[ "message" := VStr message ]} None).
Definition render_error (code : Z) (message : string) : Response :=
  mkResponse code (Render "error" message).
Definition redirect (location : string) : Response :=
  mkResponse 302 (Redirect location).

(** What a middleware does with a request: hand it on with [next()], or
    end it with a response. *)
Inductive Flow : Type :=
  | Next (req : Request)
  | Respond (res : Response).

(** [authHeader && authHeader.split(' ')[1]]; [None] is undefined. *)
Definition bearerToken (authHeader : option string) : option string :=
  match authHeader with
  | None => None
  | Some h => if String.eqb h "" then Some "" else split_space h !! 1%nat
  end.

(** The token when it is truthy: [if (token)]. *)
Definition present (token : option string) : option string :=
  match token with
  | Some t => if String.eqb t "" then None else Some t
  | None => None
  end.

Definition guest : Doc := {[ "role" := VStr "guest" ]}.

(** *** The tolerant authentication middleware ([isAuthenticated]) *)

Module AuthMiddleware.
Section WithRuntime.
Context `{!Runtime}.

Definition isAuthenticated (req : Request) (now : Z) : M Flow :=
  match present (bearerToken (authorization req)) with
  | Some token =>
      try_catch
        (decoded <- UserService.verifyToken token now ;;
         ret (Next (with_users (Some decoded) req)))
        (fun error => ret (Next (with_users (Some guest) req)))
  | None => ret (Next (with_users (Some guest) req))
  end.
End WithRuntime.
End AuthMiddleware.

(** *** The role-based access control notes: middleware and ownership *)

Module Rbac.
Section WithRuntime.
Context `{!Runtime}.

(** [authenticateToken] of the notes: a missing or rejected token
    leaves [req.user] null and the request goes on. *)
Definition authenticateToken (req : Request) (now : Z) : Flow :=
  match present (bearerToken (authorization req)) with
  | None => Next (with_user None req)
  | Some token =>
      match Jwt.verify token JWT_SECRET now with
      | inl err => Next (with_user None req)
      | inr decoded => Next (with_user (Some decoded) req)
      end
  end.
End WithRuntime.

Definition isApi (req : Request) : bool := startsWith "/api/" (path req).

(** The three refusals of the access policy, as the responses the code
    sends. *)
Definition AuthenticationRequired (req : Request) : Response :=
  if isApi req then json_message 401 "Authentication required"
  else render_error 401 "Authentication required to access this page".

Definition InsufficientRole (roles : list string) (req : Request) : Response :=
  if isApi req then json_message 403 "Insufficient permissions"
  else render_error 403
         ("Access denied. This action requires " +:+ join " or " roles +:+ " permissions.").

Definition OwnershipViolation : Response :=
  render_error 403 "Access denied. You can only edit your own events.".

(** [requireRole(roles)] *)
Definition requireRole (roles : list string) (req : Request) : Flow :=
  let req := match user req with
             | None => with_user (Some guest) req
             | Some _ => req
             end in
  let u := default guest (user req) in
  if strict_eq (get "role" u) (VStr "guest") then
    if negb (includes roles (VStr "guest")) then Respond (AuthenticationRequired req)
    else Next req
  else if negb (includes roles (get "role" u)) then Respond (InsufficientRole roles req)
  else Next req.

(** The ownership check at the head of an edit, update or delete handler:
    [if (req.user.role !== 'admin' && event.organizer !== req.user.email)
       return res.status(403).render('error', ...)]. *)
Definition ownershipDenied (u event : Doc) : bool :=
  negb (strict_eq (get "role" u) (VStr "admin"))
  && negb (strict_eq (get "organizer" event) (get "email" u)).

(** The documented chain in front of an action: [requireRole(roles)], and
    for an action on an event the ownership check against that event. *)
Definition accessChain (roles : list string) (event : option Doc) (req : Request) : Flow :=
  match requireRole roles req with
  | Respond res => Respond res
  | Next req' =>
      match event with
      | None => Next req'
      | Some ev =>
          if ownershipDenied (default guest (user req')) ev
          then Respond OwnershipViolation
          else Next req'
      end
  end.

(** The ownership test of the RBAC test script
    ([testOwnershipVerification]). *)
Definition testOwnership (u testEvent : Doc) : bool :=
  if strict_eq (get "role" u) (VStr "admin") then true
  else strict_eq (get "email" u) (get "organizer" testEvent).
End Rbac.

(** *** The RBAC test script: its two tables *)

Module RbacTest.

(** [testCases] of [testRoleChecking]: user role, required roles, expected
    result. *)
Definition testCases : list (string * list string * bool) :=
  [ ("student", ["student"], true);
    ("student", ["organizer"], false);
    ("student", ["admin"], false);
    ("student", ["student"; "organizer"], true);
    ("student", ["organizer"; "admin"], false);
    ("organizer", ["organizer"], true);
    ("organizer", ["admin"], false);
    ("organizer", ["student"], false);
    ("organizer", ["organizer"; "admin"], true);
    ("organizer", ["student"; "admin"], false);
    ("admin", ["admin"], true);
    ("admin", ["organizer"], false);
    ("admin", ["student"], false);
    ("admin", ["organizer"; "admin"], true);
    ("admin", ["student"; "organizer"], false);
    ("admin", ["student"; "organizer"; "admin"], true);
    ("guest", ["guest"], true);
    ("guest", ["student"], false);
    ("guest", ["organizer"], false);
    ("guest", ["admin"], false);
    ("guest", ["student"; "organizer"], false) ].

(** The check of one row: [requiredRoles.includes(userRole)] against the
    expected result. *)
Definition rolePasses (row : string * list string * bool) : bool :=
  Bool.eqb (includes row.1.2 (VStr row.1.1)) row.2.

Definition testEvent : Doc :=
  <["_id" := VStr "event123"]>
  (<["title" := VStr "Test Event"]>
  (<["organizer" := VStr "organizer@example.com"]> ∅)).

Definition testUser (email role : string) : Doc :=
  <["email" := VStr email]> (<["role" := VStr role]> ∅).

(** [ownershipTests] of [testOwnershipVerification]: user and expected
    result (each user is listed for 'edit' and for 'delete'). *)
Definition ownershipTests : list (Doc * bool) :=
  [ (testUser "organizer@example.com" "organizer", true);
    (testUser "organizer@example.com" "organizer", true);
    (testUser "other@example.com" "organizer", false);
    (testUser "other@example.com" "organizer", false);
    (testUser "admin@example.com" "admin", true);
    (testUser "admin@example.com" "admin", true);
    (testUser "student@example.com" "student", false);
    (testUser "student@example.com" "student", false) ].

Definition ownershipPasses (row : Doc * bool) : bool :=
  Bool.eqb (Rbac.testOwnership row.1 testEvent) row.2.

End RbacTest.

(** ** The authentication router ([routes/authRoutes.js]) *)

Module AuthRoutes.
Section WithRuntime.
Context `{!Runtime}.

(** The [catch] clause of the router's handlers. *)
Definition onError (error : Exn) : M Response :=
  match error with
  | AppError message statusCode =>
      if statusCode =? 0 then ret (json_message 500 "Internal server error")
      else ret (json_message statusCode message)
  | JsError _ _ _ => ret (json_message 500 "Internal server error")
  end.

(** [router.post('/login', ...)] *)
Definition postLogin (req : Request) (now : Z) : M Response :=
  try_catch
    (let email := get "email" (body req) in
     let password := get "password" (body req) in
     if negb (truthy email) || negb (truthy password)
     then ret (json_message 400 "Email and password are required")
     else
       result <- UserService.login email password now ;;
       ret (mkResponse 200 (Json {[ "token" := VStr result.1 ]} (Some result.2))))
    onError.

Definition validRoles : list string := ["student"; "organizer"].

(** The [userData] object the registration route prepares from the
    request body. *)
Definition userDataOf (b : Doc) : Doc :=
  <["name" := get "name" b]>
  (<["email" := get "email" b]>
  (<["password" := get "password" b]>
  (<["role" := js_or (get "role" b) (VStr "student")]>
  (<["studentId" := if strict_eq (get "role" b) (VStr "student")
                    then get "studentId" b else VUndef]> ∅)))).

(** [router.post('/register', ...)] *)
Definition postRegister (req : Request) (now : Z) : M Response :=
  try_catch
    (let name := get "name" (body req) in
     let email := get "email" (body req) in
     let password := get "password" (body req) in
     let role := get "role" (body req) in
     let studentId := get "studentId" (body req) in
     if negb (truthy name) || negb (truthy email) || negb (truthy password)
     then ret (json_message 400 "Name, email, and password are required")
     else if truthy role && negb (includes validRoles role)
     then ret (json_message 400 "Invalid role. Must be student or organizer")
     else if strict_eq role (VStr "student") && negb (truthy studentId)
     then ret (json_message 400 "Student ID is required for student accounts")
     else
       let userData := userDataOf (body req) in
       registered <- UserService.register userData now ;;
       ret (mkResponse 201
              (Json {[ "message" := VStr "User registered successfully" ]}
                    (Some registered))))
    onError.

(** The router's own [authenticateToken]: it answers 401 without a
    token and 403 for a token that does not verify. *)
Definition authenticateToken (req : Request) (now : Z) : M Flow :=
  match present (bearerToken (authorization req)) with
  | None => ret (Respond (json_message 401 "Access token required"))
  | Some token =>
      try_catch
        (decoded <- UserService.verifyToken token now ;;
         ret (Next (with_user (Some decoded) req)))
        (fun error => ret (Respond (json_message 403 "Invalid or expired token")))
  end.

(** [router.get('/profile', authenticateToken, ...)] *)
Definition getProfile (req : Request) (now : Z) : M Response :=
  flow <- authenticateToken req now ;;
  match flow with
  | Respond res => ret res
  | Next req' =>
      try_catch
        (found <- UserService.getUserById (get "id" (default ∅ (user req'))) ;;
         ret (mkResponse 200 (Json ∅ (Some found))))
        onError
  end.
End WithRuntime.
End AuthRoutes.

(** ** The server's action routes ([server.js]) *)

Module Server.
Section WithRuntime.
Context `{!Runtime}.

(** [console.error(error)] *)
Definition console_error (error : Exn) : M unit :=
  logger LError (exn_message error).

(** [app.post('/organizer/update-event/:eventId', ...)] *)
Definition postUpdateEvent (req : Request) (now : Z) : M Response :=
  try_catch
    (let eventId := VStr (param "eventId" req) in
     let b := body req in
     EventService.updateEvent eventId
       (<["title" := get "title" b]>
        (<["description" := get "description" b]>
        (<["date" := get "date" b]>
        (<["time" := get "time" b]>
        (<["location" := get "location" b]>
        (<["updatedAt" := VDate now]> ∅))))))
       now ;;;
     ret (redirect "/organizer/my-events"))
    (fun error =>
       console_error error ;;;
       ret (render_error 500 "Error updating event")).

(** [app.post('/organizer/delete-event/:eventId', ...)] *)
Definition postDeleteEvent (req : Request) : M Response :=
  try_catch
    (let eventId := VStr (param "eventId" req) in
     EventService.deleteEvent eventId ;;;
     Mongo.deleteMany Mongo.registrationsCollection {[ "eventId" := eventId ]} ;;;
     Mongo.deleteMany Mongo.feedbackCollection {[ "eventId" := eventId ]} ;;;
     ret (redirect "/organizer/my-events"))
    (fun error =>
       console_error error ;;;
       ret (render_error 500 "Error deleting event")).

(** [eventDate < today], false when the event's date does not parse. *)
Definition datePassed (event : Doc) (now : Z) : bool :=
  match Date_parse (get "date" event) with
  | Some eventDate => eventDate <? startOfDay now
  | None => false
  end.

(** [app.post('/register', ...)] *)
Definition postRegister (req : Request) (now : Z) : M Response :=
  try_catch
    (let b := body req in
     event <- EventService.getEventById (get "eventId" b) ;;
     if datePassed event now
     then ret (render_error 400 "Cannot register for past events")
     else
       EventService.registerForEvent
         (<["studentEmail" := get "email" b]>
          (<["eventId" := get "eventId" b]>
          (<["studentName" := get "name" b]>
          (<["studentId" := get "studentId" b]>
          (<["registeredAt" := VDate now]> ∅)))))
         now ;;;
       ret (redirect "/events?registered=true"))
    (fun error =>
       console_error error ;;;
       if String.eqb (exn_message error) "You have already registered for this event"
       then ret (render_error 400 "Duplicate Registration")
       else ret (render_error 500 "Error registering for event")).

(** [app.post('/organizer/create-event', ...)] *)
Definition postCreateEvent (req : Request) (now : Z) : M Response :=
  try_catch
    (let b := body req in
     EventService.createEvent
       (<["title" := get "title" b]>
        (<["description" := get "description" b]>
        (<["date" := get "date" b]>
        (<["time" := get "time" b]>
        (<["location" := get "location" b]>
        (<["organizer" := js_or (get "organizer" b) (VStr "guest@example.com")]>
        (<["createdBy" := VStr "guest@example.com"]> ∅)))))))
       now ;;;
     ret (redirect "/organizer"))
    (fun error =>
       console_error error ;;;
       ret (render_error 500 "Error creating event")).

(** [app.post('/student/cancel-registration/:registrationId', ...)] *)
Definition postCancelRegistration (req : Request) : M Response :=
  try_catch
    (let registrationId := param "registrationId" req in
     if negb (ObjectId_isValid registrationId)
     then ret (render_error 400 "Invalid registration ID")
     else
       deletedCount <- Mongo.deleteOne Mongo.registrationsCollection
                         {[ "_id" := ObjectId_of registrationId ]} ;;
       if deletedCount =? 0
       then ret (render_error 404 "Registration not found")
       else ret (redirect "/student/registrations?cancelled=true"))
    (fun error =>
       console_error error ;;;
       ret (render_error 500 "Error cancelling registration")).

(** [app.get('/api/event-details/:eventId', ...)]: the answer for a found
    event is [res.json] of seven of its fields, that is their JSON image
    (a field that is [undefined] is left out, an ObjectId goes out as its
    hexadecimal string); the [if (!event)] branch with its 404 stands
    after a call that throws for a missing event. *)
Definition getEventDetails (req : Request) : M Response :=
  try_catch
    (event <- EventService.getEventById (VStr (param "eventId" req)) ;;
     ret (mkResponse 200
            (Json (jsonClone
                     (<["id" := get "_id" event]>
                      (<["title" := get "title" event]>
                      (<["description" := get "description" event]>
                      (<["date" := get "date" event]>
                      (<["time" := get "time" event]>
                      (<["location" := get "location" event]>
                      (<["organizer" := get "organizer" event]> ∅))))))))
                  None)))
    (fun error =>
       console_error error ;;;
       ret (mkResponse 500 (Json {[ "error" := VStr "Error fetching event details" ]} None))).
End WithRuntime.
End Server.

(** ** The error middleware ([utils/errorHandler.js]) *)

Module ErrorHandler.

(** A thrown value as the error middleware looks at it. *)
Record Thrown : Type := mkThrown {
  (** [err instanceof AppError] *)
  isAppError : bool;
  name : string;
  message : string;
  statusCode : Z;
  (** [err.code], as the driver sets it on a write error *)
  code : Value;
  (** [err.isOperational] as a condition *)
  isOperational : bool
}.

(** [new AppError(message, statusCode)]: operational unless said otherwise. *)
Definition newAppError (message : string) (statusCode : Z) : Thrown :=
  mkThrown true "Error" message statusCode VUndef true.

Definition ValidationError (message : string) : Thrown :=
  mkThrown true "ValidationError" message 400 VUndef true.
Definition AuthenticationError (message : string) : Thrown :=
  mkThrown true "AuthenticationError" message 401 VUndef true.
Definition AuthorizationError (message : string) : Thrown :=
  mkThrown true "AuthorizationError" message 403 VUndef true.
Definition NotFoundError (message : string) : Thrown :=
  mkThrown true "NotFoundError" message 404 VUndef true.
Definition DatabaseError (message : string) : Thrown :=
  mkThrown true "DatabaseError" message 500 VUndef true.

(** Any other thrown error: a plain [Error] with a name, a message and
    possibly a code. *)
Definition otherError (name message : string) (code : Value) : Thrown :=
  mkThrown false name message 0 code false.

(** The status and message [handleErrors] settles on before it looks at
    the environment. *)
Definition classify (err : Thrown) : Z * string :=
  if isAppError err then (statusCode err, message err)
  else if String.eqb (name err) "ValidationError" then (400, message err)
  else if String.eqb (name err) "CastError" then (400, "Invalid ID format")
  else if strict_eq (code err) (VNum 11000) then (400, "Duplicate field value entered")
  else if String.eqb (name err) "JsonWebTokenError" then (401, "Invalid token")
  else if String.eqb (name err) "TokenExpiredError" then (401, "Token expired")
  else (500, "Internal Server Error").

Section WithRuntime.
Context `{!Runtime}.

(** [handleErrors(err, req, res, next)] at clock [now]; [production] is
    [process.env.NODE_ENV === 'production']. *)
Definition handleErrors (production : bool) (err : Thrown) (now : Z) : M Response :=
  logger LError (message err) ;;;
  let '(statusCode, message) := classify err in
  let message :=
    if production && negb (isOperational err) then "Something went wrong" else message in
  ret (mkResponse statusCode
         (Json (<["success" := VBool false]>
                (<["message" := VStr message]>
                (<["timestamp" := VStr (toISOString now)]> ∅)))
               None)).

(** [handle404] followed by the error middleware: a request no route
    matched. *)
Definition handle404 (production : bool) (req : Request) (now : Z) : M Response :=
  handleErrors production
    (NotFoundError ("Cannot find " +:+ path req +:+ " on this server")) now.

(** How a thrown value looks to the middleware: an [AppError] of the
    services is operational and carries its status; any other error is
    known by its name, message and code. *)
Definition thrownOf (e : Exn) : Thrown :=
  match e with
  | AppError m c => newAppError m c
  | JsError n m k => otherError n m k
  end.

(** [catchAsync(fn)]: what the handler throws goes to the error
    middleware. *)
Definition catchAsync (production : bool) (fn : M Response) (now : Z) : M Response :=
  try_catch fn (fun error => handleErrors production (thrownOf error) now).
End WithRuntime.
End ErrorHandler.

(** ** The in-memory cache and its manager, with timers ([utils/cache.js]) *)

Module MemoryCache.

(** [TIMEOUT_MAX] of the runtime's timers. *)
Definition TIMEOUT_MAX : Z := 2147483647.

(** The delay [setTimeout] really uses: a delay outside [1, TIMEOUT_MAX]
    is set to 1. *)
Definition timerDelay (ms : Z) : Z :=
  if (1 <=? ms) && (ms <=? TIMEOUT_MAX) then ms else 1.

(** [InMemoryCache]: the cached values and, per key, the pending expiry
    timer, held by the instant at which it is due. *)
Record InMemoryCache : Type := mkInMemoryCache {
  store : gmap string Doc;
  timers : gmap string Z
}.

Definition empty : InMemoryCache := mkInMemoryCache ∅ ∅.

(** [set(key, value, expiration)] at clock [now]: a pending timer of the
    key is cleared, the value stored and a new timer started. *)
Definition set (key : string) (value : Doc) (expiration : Z) (now : Z)
    (c : InMemoryCache) : bool * InMemoryCache :=
  (true, mkInMemoryCache (<[key := value]> (store c))
                         (<[key := now + timerDelay (expiration * 1000)]> (timers c))).

(** [get(key)]: the value, or null. *)
Definition get (key : string) (c : InMemoryCache) : option Doc := store c !! key.

(** [del(key)]: clears the timer; answers whether the key was cached. *)
Definition del (key : string) (c : InMemoryCache) : bool * InMemoryCache :=
  (bool_decide (is_Some (store c !! key)),
   mkInMemoryCache (delete key (store c)) (delete key (timers c))).

Definition flush (c : InMemoryCache) : bool * InMemoryCache := (true, empty).

Definition size (c : InMemoryCache) : nat := base.size (store c).

(** The callback of the timer of [key]. *)
Definition expire (key : string) (c : InMemoryCache) : InMemoryCache :=
  mkInMemoryCache (delete key (store c)) (delete key (timers c)).

(** The event loop at instant [now]: every timer that is due runs. *)
Definition pending (now : Z) (timer : option Z) : bool :=
  match timer with
  | Some due => now <? due
  | None => true
  end.

Definition runTimers (now : Z) (c : InMemoryCache) : InMemoryCache :=
  mkInMemoryCache
    (filter (fun kv => Is_true (pending now (timers c !! kv.1))) (store c))
    (filter (fun kv => Is_true (pending now (Some kv.2))) (timers c)).

(** [CacheManager]: the client, the connection flag, and the warnings it
    has logged. *)
Record CacheManager : Type := mkCacheManager {
  client : InMemoryCache;
  isConnected : bool;
  warnings : list string
}.

(** [new CacheManager()] *)
Definition newManager : CacheManager := mkCacheManager empty true [].

Definition warn (msg : string) (m : CacheManager) : CacheManager :=
  mkCacheManager (client m) (isConnected m) (warnings m ++ [msg]).

Section WithRuntime.
Context `{!Runtime}.

(** [cache.set(key, value, expiration)] at clock [now]: stores
    [JSON.stringify(value)]. *)
Definition managerSet (key : string) (value : Doc) (expiration : Z) (now : Z)
    (m : CacheManager) : bool * CacheManager :=
  if negb (isConnected m) then (false, warn "Cache not connected, skipping cache set" m)
  else
    let '(result, c) := set key (jsonClone value) expiration now (client m) in
    (result, mkCacheManager c (isConnected m) (warnings m)).
End WithRuntime.

(** [cache.get(key)]: the parsed value, or null. *)
Definition managerGet (key : string) (m : CacheManager) : option Doc * CacheManager :=
  if negb (isConnected m) then (None, warn "Cache not connected, skipping cache get" m)
  else (get key (client m), m).

Definition managerDel (key : string) (m : CacheManager) : bool * CacheManager :=
  if negb (isConnected m) then (false, warn "Cache not connected, skipping cache delete" m)
  else
    let '(result, c) := del key (client m) in
    (result, mkCacheManager c (isConnected m) (warnings m)).

Definition managerFlush (m : CacheManager) : bool * CacheManager :=
  if negb (isConnected m) then (false, warn "Cache not connected, skipping cache flush" m)
  else
    let '(result, c) := flush (client m) in
    (result, mkCacheManager c (isConnected m) (warnings m)).

(** [cache.connect()] and [cache.disconnect()] *)
Definition connect (m : CacheManager) : CacheManager :=
  mkCacheManager (client m) true (warnings m).

Definition disconnect (m : CacheManager) : CacheManager :=
  mkCacheManager (flush (client m)).2 false (warnings m).

(** The event loop at instant [now], under the manager. *)
Definition managerRunTimers (now : Z) (m : CacheManager) : CacheManager :=
  mkCacheManager (runTimers now (client m)) (isConnected m) (warnings m).

End MemoryCache.

(** ** The access policy in the words of the specification *)

Module Spec.

Inductive DenyKind : Type :=
  AuthenticationRequired | InsufficientRole | OwnershipViolation.

Inductive Decision : Type :=
  | ALLOW
  | DENY (kind : DenyKind).

(** The HTTP status a refusal maps to at the boundary. *)
Definition http (k : DenyKind) : Z :=
  match k with
  | AuthenticationRequired => 401
  | InsufficientRole => 403
  | OwnershipViolation => 403
  end.

Record Ownership : Type := mkOwnership {
  resourceOwnerEmail : Value;
  bypassRoles : list string
}.

(** The decision procedure of the specification, in its order: the guest
    rule, the role gate, then the ownership clause. *)
Definition evaluate (effectiveRequester : Doc) (requiredRoles : list string)
    (ownership : option Ownership) : Decision :=
  if strict_eq (get "role" effectiveRequester) (VStr "guest") then
    if includes requiredRoles (VStr "guest") then ALLOW
    else DENY AuthenticationRequired
  else if negb (includes requiredRoles (get "role" effectiveRequester)) then
    DENY InsufficientRole
  else
    match ownership with
    | None => ALLOW
    | Some o =>
        if includes (bypassRoles o) (get "role" effectiveRequester) then ALLOW
        else if strict_eq (get "email" effectiveRequester) (resourceOwnerEmail o) then ALLOW
        else DENY OwnershipViolation
    end.
End Spec.

(** The decision a flow of the documented chain stands for: handing the
    request on is ALLOW, and each refusal is told by the response the code
    sends for it. *)
Definition decisionOf (flow : Flow) : option Spec.Decision :=
  match flow with
  | Next _ => Some Spec.ALLOW
  | Respond res =>
      if status res =? 401 then Some (Spec.DENY Spec.AuthenticationRequired)
      else if bool_decide (res = Rbac.OwnershipViolation)
      then Some (Spec.DENY Spec.OwnershipViolation)
      else if status res =? 403 then Some (Spec.DENY Spec.InsufficientRole)
      else None
  end.

(** The ownership clause the code evaluates: the event's recorded organizer
    as owner, and the administrator as the one bypass role. *)
Definition ownershipOf (event : Doc) : Spec.Ownership :=
  Spec.mkOwnership (get "organizer" event) ["admin"].

(** The requester the policy sees: [req.user], or the guest when there is
    none. *)
Definition effectiveRequester (req : Request) : Doc := default guest (user req).

(** What reading a property of a decoded token gives for a signed value:
    its JSON image, and [undefined] when JSON leaves the property out. *)
Definition jsonImage `{!Runtime} (v : Value) : Value := default VUndef (jsonValue v).

(** The state that does not belong to the mail transport or the log: the
    collections, the cache and the identifier supply. *)
Definition core (w : World) :
    list Doc * list Doc * list Doc * list Doc * gmap string Doc * N :=
  (users w, events w, registrations w, feedback w, cache w, next_oid w).

Definition set_transporter (t : Transport) (w : World) : World :=
  mkWorld (users w) (events w) (registrations w) (feedback w)
          (cache w) (next_oid w) (log w) (outbox w) t.

(** ** Predicates of the statements *)

(** When the bearer token is missing or is refused by the token library. *)
Definition tokenUnusable `{!Runtime} (req : Request) (now : Z) : Prop :=
  present (bearerToken (authorization req)) = None
  ∨ ∃ token failure,
      present (bearerToken (authorization req)) = Some token
      ∧ Jwt.verify token JWT_SECRET now = inl failure.

(** The object has no [password] property. *)
Definition hidesPassword (u : Doc) : Prop := u !! "password" = None.

(** A response shows no [password] property, at the top or in its user. *)
Definition responseHidesPassword (res : Response) : Prop :=
  match payload res with
  | Json fields nested =>
      fields !! "password" = None ∧ ∀ u, nested = Some u → hidesPassword u
  | _ => True
  end.




(** The string has no space character. *)
Fixpoint spaceFree (s : string) : bool :=
  match s with
  | EmptyString => true
  | String c rest => negb (Ascii.eqb c Ascii.Space) && spaceFree rest
  end.

(** The instant, in milliseconds, at which a token signed at [now]
    expires. *)
Definition expiryOf (now : Z) : Z := (Jwt.seconds now + 86400) * 1000.

(** The values of a field across a collection, as the store compares
    them (null and missing alike). *)
Definition fieldOf (k : string) (l : list Doc) : list Value :=
  (fun d => bsonValue (get k d)) <$> l.

(** No two users share an email. *)
Definition uniqueEmails (w : World) : Prop := NoDup (fieldOf "email" (users w)).

(** No two documents of the list share an [_id]. *)
Definition uniqueIds (l : list Doc) : Prop := NoDup (fieldOf "_id" l).

(** ** A concrete runtime and sample data *)

(** The statements below hold for every runtime.  To run the model on
    concrete requests one runtime is fixed here: a tagged password hash, a
    keyed tag for the signature, and a token text that spells the binary
    digits of the countable code of the signed pair. *)

Definition Value_to_sum (v : Value) : unit + unit + bool + Z + string + Z + N + nat :=
  match v with
  | VUndef => inl (inl (inl (inl (inl (inl (inl tt))))))
  | VNull => inl (inl (inl (inl (inl (inl (inr tt))))))
  | VBool b => inl (inl (inl (inl (inl (inr b)))))
  | VNum n => inl (inl (inl (inl (inr n))))
  | VStr s => inl (inl (inl (inr s)))
  | VDate ms => inl (inl (inr ms))
  | VId n => inl (inr n)
  | VObject r => inr r
  end.

Definition Value_of_sum (x : unit + unit + bool + Z + string + Z + N + nat) : Value :=
  match x with
  | inl (inl (inl (inl (inl (inl (inl _)))))) => VUndef
  | inl (inl (inl (inl (inl (inl (inr _)))))) => VNull
  | inl (inl (inl (inl (inl (inr b))))) => VBool b
  | inl (inl (inl (inl (inr n)))) => VNum n
  | inl (inl (inl (inr s))) => VStr s
  | inl (inl (inr ms)) => VDate ms
  | inl (inr n) => VId n
  | inr r => VObject r
  end.

#[global] Program Instance Value_countable : Countable Value :=
  inj_countable' Value_to_sum Value_of_sum _.
Next Obligation. by intros []. Qed.

Fixpoint binary_of_positive (p : positive) : string :=
  match p with
  | xH => ""
  | xO q => String "0" (binary_of_positive q)
  | xI q => String "1" (binary_of_positive q)
  end.

Fixpoint positive_of_binary (s : string) : option positive :=
  match s with
  | EmptyString => Some xH
  | String c rest =>
      if Ascii.eqb c "0" then xO <$> positive_of_binary rest
      else if Ascii.eqb c "1" then xI <$> positive_of_binary rest
      else None
  end.

(** The decimal number a string of digits writes. *)
Fixpoint decimal (acc : Z) (s : string) : option Z :=
  match s with
  | EmptyString => Some acc
  | String c rest =>
      let n := Z.of_nat (nat_of_ascii c) - 48 in
      if (0 <=? n) && (n <=? 9) then decimal (acc * 10 + n) rest else None
  end.

(** The days from 1970-01-01 to a day of the Gregorian calendar. *)
Definition daysFromCivil (y m d : Z) : Z :=
  let y := if m <=? 2 then y - 1 else y in
  let era := y / 400 in
  let yoe := y - era * 400 in
  let doy := (153 * (if 2 <? m then m - 3 else m + 9) + 2) / 5 + d - 1 in
  let doe := yoe * 365 + yoe / 4 - yoe / 100 + doy in
  era * 146097 + doe - 719468.

(** The instant a date string [YYYY-MM-DD] names: its midnight, UTC. *)
Definition isoDate (s : string) : option Z :=
  if (String.length s =? 10)%nat
     && String.eqb (substring 4 1 s) "-" && String.eqb (substring 7 1 s) "-"
  then
    y ← decimal 0 (substring 0 4 s);
    m ← decimal 0 (substring 5 2 s);
    d ← decimal 0 (substring 8 2 s);
    if (1 <=? m) && (m <=? 12) && (1 <=? d) && (d <=? 31)
    then Some (daysFromCivil y m d * 86400000) else None
  else None.

Definition sampleRuntime : Runtime := {|
  toISOString := fun ms => "1970-01-01T00:00:00.000Z";
  Date_parse := fun v =>
    match v with
    | VNum n | VDate n => Some n
    | VStr s => isoDate s
    | _ => None
    end;
  startOfDay := fun now => now - now mod 86400000;
  bcrypt_hash := fun data => "$2b$10$" +:+ data;
  bcrypt_compare := fun data hash => String.eqb ("$2b$10$" +:+ data) hash;
  hmac := fun secret claims => secret +:+ ":" +:+ binary_of_positive (encode claims);
  encodeJws := fun j => binary_of_positive (encode j);
  decodeJws := fun s => positive_of_binary s ≫= decode;
  JWT_SECRET := "campus_event_hub_secret_key"
|}.

Definition emptyWorld : World :=
  mkWorld [] [] [] [] ∅ 100 [] [] NoTransporter.

(** An event owned by the organizer with email [alice@campus.edu]. *)
Definition sampleEvent : Doc :=
  <["_id" := VId 1]>
  (<["title" := VStr "Robotics Fair"]>
  (<["date" := VStr "2030-05-01"]>
  (<["organizer" := VStr "alice@campus.edu"]> ∅))).

Definition sampleEventId : string := "000000000000000000000001".

(** A stored account. *)
Definition sampleUser : Doc :=
  <["_id" := VId 7]>
  (<["name" := VStr "Alice"]>
  (<["email" := VStr "alice@campus.edu"]>
  (<["password" := VStr "$2b$10$secret"]>
  (<["role" := VStr "organizer"]> ∅)))).

Definition sampleWorld : World :=
  mkWorld [sampleUser] [sampleEvent] [] [] ∅ 100 [] [] NoTransporter.

(** An organizer who does not own the sample event. *)
Definition otherOrganizer : Doc :=
  <["email" := VStr "bob@campus.edu"]> {[ "role" := VStr "organizer" ]}.

(** A request that carries no credentials at all. *)
Definition anonymousUpdate : Request :=
  mkRequest "/organizer/update-event/000000000000000000000001" None
            {[ "eventId" := sampleEventId ]}
            {[ "title" := VStr "Cancelled" ]} None None.

(** A profile request without any credentials. *)
Definition anonymousProfile : Request :=
  mkRequest "/profile" None ∅ ∅ None None.

(** A profile request whose bearer token is not a token. *)
Definition garbledProfile : Request :=
  mkRequest "/profile" (Some "Bearer not-a-token") ∅ ∅ None None.

(** A registration for the sample event with a transport that fails. *)
Definition sampleRegistration : Doc :=
  <["eventId" := VStr sampleEventId]>
  (<["studentEmail" := VStr "carol@campus.edu"]>
  (<["studentName" := VStr "Carol"]> ∅)).

Definition failingMail : World :=
  set_transporter (Transporter (fun _ => false)) sampleWorld.

(** The token the sample account is given at instant 0, and a request
    that carries it. *)
Definition sampleToken : string :=
  @Jwt.sign sampleRuntime
    (<["id" := get "_id" sampleUser]>
     (<["email" := get "email" sampleUser]>
     (<["role" := get "role" sampleUser]> ∅)))
    (@JWT_SECRET sampleRuntime) 0.

Definition sampleSession : Request :=
  mkRequest "/organizer/my-events" (Some ("Bearer" +:+ " " +:+ sampleToken)) ∅ ∅ None None.

(** * Properties *)

(** Unfold the monad of the services. *)
Ltac run :=
  unfold try_catch, bind, ret, throw, throw_if, gets, modify, logger, rethrow_app in *;
  simpl in *.

(** ** Values and arrays *)

Lemma strict_eq_VStr_r (v : Value) (s : string) :
  strict_eq v (VStr s) = true ↔ v = VStr s.
Proof.
  destruct v; simpl; try (split; [discriminate | discriminate]).
  rewrite String.eqb_eq. split; [intros ->; reflexivity | intros [= ->]; reflexivity].
Qed.

Lemma strict_eq_sym (a b : Value) : strict_eq a b = strict_eq b a.
Proof.
  destruct a, b; simpl; try reflexivity;
    [by destruct b, b0 | apply Z.eqb_sym | apply String.eqb_sym].
Qed.

Lemma strict_eq_VStr_l (v : Value) (s : string) :
  strict_eq (VStr s) v = true ↔ v = VStr s.
Proof. rewrite strict_eq_sym. apply strict_eq_VStr_r. Qed.

Lemma strict_eq_VStr_false (v : Value) (s : string) :
  strict_eq v (VStr s) = false ↔ v ≠ VStr s.
Proof.
  rewrite <- strict_eq_VStr_r. destruct (strict_eq v (VStr s)); split; congruence.
Qed.

Lemma includes_spec (arr : list string) (v : Value) :
  includes arr v = true ↔ ∃ r, r ∈ arr ∧ v = VStr r.
Proof.
  unfold includes. rewrite existsb_exists. split.
  - intros (r & Hin & Heq). exists r. split; [by apply list_elem_of_In |].
    by apply strict_eq_VStr_l.
  - intros (r & Hin & ->). exists r. split; [by apply list_elem_of_In |].
    by apply strict_eq_VStr_l.
Qed.

Lemma includes_literal (arr : list string) (r : string) :
  includes arr (VStr r) = true ↔ r ∈ arr.
Proof.
  rewrite includes_spec. split.
  - by intros (r' & Hin & [= ->]).
  - intros Hin. by exists r.
Qed.

Lemma includes_literal_false (arr : list string) (r : string) :
  includes arr (VStr r) = false ↔ r ∉ arr.
Proof.
  rewrite <- includes_literal. destruct (includes arr (VStr r)); split; congruence.
Qed.

(** ** The role middleware *)

Lemma with_user_same (req : Request) (u : Doc) :
  user req = Some u → with_user (Some u) req = req.
Proof. destruct req; simpl. by intros ->. Qed.

Lemma requireRole_normalizes (roles : list string) (req req' : Request) :
  Rbac.requireRole roles req = Next req' →
  req' = with_user (Some (effectiveRequester req)) req.
Proof.
  unfold Rbac.requireRole, effectiveRequester.
  destruct (user req) as [u|] eqn:Hu; simpl.
  - rewrite Hu; simpl. rewrite (with_user_same _ _ Hu).
    repeat case_match; congruence.
  - repeat case_match; congruence.
Qed.

Lemma denials_differ (roles : list string) (req : Request) :
  Rbac.InsufficientRole roles req ≠ Rbac.OwnershipViolation
  ∧ Rbac.AuthenticationRequired req ≠ Rbac.OwnershipViolation
  ∧ Rbac.AuthenticationRequired req ≠ Rbac.InsufficientRole roles req.
Proof.
  unfold Rbac.InsufficientRole, Rbac.AuthenticationRequired, Rbac.OwnershipViolation.
  destruct (Rbac.isApi req); repeat split; discriminate.
Qed.

Lemma decisionOf_denials (roles : list string) (req : Request) :
  decisionOf (Respond (Rbac.AuthenticationRequired req))
    = Some (Spec.DENY Spec.AuthenticationRequired)
  ∧ decisionOf (Respond (Rbac.InsufficientRole roles req))
    = Some (Spec.DENY Spec.InsufficientRole)
  ∧ decisionOf (Respond Rbac.OwnershipViolation)
    = Some (Spec.DENY Spec.OwnershipViolation).
Proof.
  repeat split.
  - unfold Rbac.AuthenticationRequired. by destruct (Rbac.isApi req).
  - pose proof (denials_differ roles req) as (Hne & _ & _).
    unfold decisionOf. rewrite bool_decide_eq_false_2 by done.
    unfold Rbac.InsufficientRole. by destruct (Rbac.isApi req).
Qed.

(** The role middleware computes the first two rules of the specified
    decision procedure. *)
Lemma requireRole_refines (roles : list string) (req : Request) :
  decisionOf (Rbac.requireRole roles req)
  = Some (Spec.evaluate (effectiveRequester req) roles None).
Proof.
  pose proof (decisionOf_denials roles req) as (H401 & H403 & _).
  unfold Rbac.requireRole, Spec.evaluate, effectiveRequester.
  destruct (user req) as [u|] eqn:Hu; simpl; rewrite ?Hu; simpl.
  - destruct (strict_eq (get "role" u) (VStr "guest")).
    + destruct (includes roles (VStr "guest")); simpl; [done | exact H401].
    + destruct (includes roles (get "role" u)); simpl; [done | exact H403].
  - change (strict_eq (get "role" guest) (VStr "guest")) with true. simpl.
    destruct (includes roles (VStr "guest")); simpl; [done | exact H401].
Qed.

(** C3.  For every set of required roles, the role middleware applied to a
    request whose effective requester is the guest hands the request on
    (ALLOW) exactly when ["guest"] is among the required roles, and
    otherwise answers with the authentication-required refusal, status 401.
    The guest rule comes first: a guest outside the required roles gets this
    refusal and not the insufficient-role one, and the outcome is the
    decision of the specified procedure. *)
Theorem guest_rule (roles : list string) (req : Request) :
  get "role" (effectiveRequester req) = VStr "guest" →
  (Rbac.requireRole roles req = Next (with_user (Some (effectiveRequester req)) req)
     ↔ "guest" ∈ roles)
  ∧ ("guest" ∉ roles →
       Rbac.requireRole roles req = Respond (Rbac.AuthenticationRequired req)
       ∧ status (Rbac.AuthenticationRequired req) = 401
       ∧ Rbac.requireRole roles req ≠ Respond (Rbac.InsufficientRole roles req))
  ∧ decisionOf (Rbac.requireRole roles req)
      = Some (if decide ("guest" ∈ roles) then Spec.ALLOW
              else Spec.DENY Spec.AuthenticationRequired)
  ∧ decisionOf (Rbac.accessChain roles None req)
      = Some (Spec.evaluate (effectiveRequester req) roles None).
Proof.
  intros Hguest.
  assert (Hrr : Rbac.requireRole roles req
                = if includes roles (VStr "guest")
                  then Next (with_user (Some (effectiveRequester req)) req)
                  else Respond (Rbac.AuthenticationRequired req)).
  { unfold Rbac.requireRole, effectiveRequester in *.
    destruct (user req) as [u|] eqn:Hu; simpl in *; rewrite ?Hu; simpl.
    - rewrite (with_user_same _ _ Hu).
      apply strict_eq_VStr_r in Hguest. rewrite Hguest.
      by destruct (includes roles (VStr "guest")).
    - change (strict_eq (get "role" guest) (VStr "guest")) with true. simpl.
      by destruct (includes roles (VStr "guest")). }
  split; [split | split; [intros Hout; split; [| split] | split]].
  - rewrite Hrr. intros H. apply includes_literal.
    by destruct (includes roles (VStr "guest")).
  - intros Hin. apply includes_literal in Hin. by rewrite Hrr, Hin.
  - apply includes_literal_false in Hout. by rewrite Hrr, Hout.
  - unfold Rbac.AuthenticationRequired. by destruct (Rbac.isApi req).
  - apply includes_literal_false in Hout. rewrite Hrr, Hout.
    pose proof (denials_differ roles req) as (_ & _ & Hne). congruence.
  - rewrite Hrr. pose proof (decisionOf_denials roles req) as (H401 & _).
    destruct (decide ("guest" ∈ roles)) as [Hin|Hin].
    + apply includes_literal in Hin. by rewrite Hin.
    + apply includes_literal_false in Hin. by rewrite Hin.
  - unfold Rbac.accessChain.
    rewrite <- requireRole_refines. by destruct (Rbac.requireRole roles req).
Qed.

(** The guest rule at a request without credentials and a student-only
    action. *)
Lemma guest_rule_witness :
  get "role" (effectiveRequester anonymousUpdate) = VStr "guest"
  ∧ Rbac.requireRole ["student"] anonymousUpdate
    = Respond (Rbac.AuthenticationRequired anonymousUpdate).
Proof.
  split; [reflexivity |].
  apply (guest_rule ["student"] anonymousUpdate); [reflexivity |].
  apply includes_literal_false. reflexivity.
Defined.

(** ** The role gate and the ownership gate *)

Lemma requireRole_some (roles : list string) (req : Request) (u : Doc) :
  user req = Some u →
  get "role" u ≠ VStr "guest" →
  Rbac.requireRole roles req
  = if includes roles (get "role" u) then Next req
    else Respond (Rbac.InsufficientRole roles req).
Proof.
  intros Hu Hrole. apply strict_eq_VStr_false in Hrole.
  unfold Rbac.requireRole. rewrite Hu. simpl. rewrite Hu. simpl. rewrite Hrole.
  by destruct (includes roles (get "role" u)).
Qed.

Lemma accessChain_some (roles : list string) (ev : Doc) (req : Request) (u : Doc) :
  user req = Some u →
  get "role" u ≠ VStr "guest" →
  Rbac.accessChain roles (Some ev) req
  = if includes roles (get "role" u)
    then if Rbac.ownershipDenied u ev then Respond Rbac.OwnershipViolation else Next req
    else Respond (Rbac.InsufficientRole roles req).
Proof.
  intros Hu Hrole. unfold Rbac.accessChain.
  rewrite (requireRole_some _ _ _ Hu Hrole).
  destruct (includes roles (get "role" u)); [| done]. by rewrite Hu.
Qed.

Lemma ownershipDenied_spec (u ev : Doc) :
  Rbac.ownershipDenied u ev
  = negb (includes ["admin"] (get "role" u)
          || strict_eq (get "email" u) (get "organizer" ev)).
Proof.
  unfold Rbac.ownershipDenied, includes. cbn [existsb].
  rewrite (strict_eq_sym (VStr "admin")), (strict_eq_sym (get "organizer" ev)).
  rewrite orb_false_r. by rewrite negb_orb.
Qed.

(** The documented chain in front of an action on an event computes the
    specified decision procedure, with the administrator as bypass role. *)
Lemma accessChain_refines (roles : list string) (ev : Doc) (req : Request) (u : Doc) :
  user req = Some u →
  get "role" u ≠ VStr "guest" →
  decisionOf (Rbac.accessChain roles (Some ev) req)
  = Some (Spec.evaluate u roles (Some (ownershipOf ev))).
Proof.
  intros Hu Hrole. rewrite (accessChain_some _ _ _ _ Hu Hrole).
  pose proof (decisionOf_denials roles req) as (_ & H403 & Hown).
  unfold Spec.evaluate, ownershipOf.
  cbn [Spec.bypassRoles Spec.resourceOwnerEmail].
  apply strict_eq_VStr_false in Hrole. rewrite Hrole.
  destruct (includes roles (get "role" u)); cbn [negb]; [| exact H403].
  rewrite ownershipDenied_spec.
  destruct (includes ["admin"] (get "role" u)); cbn [orb negb]; [done |].
  destruct (strict_eq (get "email" u) (get "organizer" ev)); cbn [negb];
    [done | exact Hown].
Qed.

(** C4.  A requester who is not the guest and whose role is not among the
    required roles is refused with the insufficient-role response, status
    403, whatever ownership clause comes with the action (none, or any
    event).  The two gates are independent and both must pass: the chain
    hands a request on only when the role middleware did and the ownership
    check did not refuse, and a requester with a required role who does not
    own the event gets the ownership refusal, not the insufficient-role
    one. *)
Theorem role_gate (roles : list string) (event : option Doc) (req : Request) (u : Doc) :
  user req = Some u →
  get "role" u ≠ VStr "guest" →
  includes roles (get "role" u) = false →
  Rbac.accessChain roles event req = Respond (Rbac.InsufficientRole roles req)
  ∧ status (Rbac.InsufficientRole roles req) = 403
  ∧ decisionOf (Rbac.accessChain roles event req) = Some (Spec.DENY Spec.InsufficientRole)
  ∧ (∀ ownership, Spec.evaluate u roles ownership = Spec.DENY Spec.InsufficientRole)
  ∧ (∀ ev r r', Rbac.accessChain roles (Some ev) r = Next r' →
       Rbac.requireRole roles r = Next r'
       ∧ Rbac.ownershipDenied (effectiveRequester r') ev = false)
  ∧ (∀ ev r v, user r = Some v → get "role" v ≠ VStr "guest" →
       includes roles (get "role" v) = true →
       Rbac.ownershipDenied v ev = true →
       Rbac.accessChain roles (Some ev) r = Respond Rbac.OwnershipViolation
       ∧ Rbac.OwnershipViolation ≠ Rbac.InsufficientRole roles r).
Proof.
  intros Hu Hrole Hout.
  assert (Hchain : Rbac.accessChain roles event req
                   = Respond (Rbac.InsufficientRole roles req)).
  { unfold Rbac.accessChain.
    by rewrite (requireRole_some _ _ _ Hu Hrole), Hout. }
  split; [exact Hchain |].
  split; [unfold Rbac.InsufficientRole; by destruct (Rbac.isApi req) |].
  split; [rewrite Hchain; apply (decisionOf_denials roles req) |].
  split.
  { intros ownership. unfold Spec.evaluate.
    apply strict_eq_VStr_false in Hrole. by rewrite Hrole, Hout. }
  split.
  - intros ev r r'. unfold Rbac.accessChain, effectiveRequester.
    destruct (Rbac.requireRole roles r) as [r0|res]; [| discriminate].
    destruct (Rbac.ownershipDenied (default guest (user r0)) ev) eqn:Hden;
      [discriminate |].
    intros [= <-]. by rewrite Hden.
  - intros ev r v Hv Hrv Hin Hden.
    rewrite (accessChain_some _ _ _ _ Hv Hrv), Hin, Hden.
    split; [done |]. pose proof (denials_differ roles r) as (Hne & _). congruence.
Qed.

(** A student's token on an action for organizers and administrators. *)
Lemma role_gate_witness :
  user (with_user (Some {[ "role" := VStr "student" ]}) anonymousUpdate)
  = Some {[ "role" := VStr "student" ]}
  ∧ get "role" ({[ "role" := VStr "student" ]} : Doc) ≠ VStr "guest"
  ∧ includes ["organizer"; "admin"] (get "role" ({[ "role" := VStr "student" ]} : Doc)) = false
  ∧ Rbac.accessChain ["organizer"; "admin"] (Some sampleEvent)
      (with_user (Some {[ "role" := VStr "student" ]}) anonymousUpdate)
    = Respond (Rbac.InsufficientRole ["organizer"; "admin"]
                 (with_user (Some {[ "role" := VStr "student" ]}) anonymousUpdate)).
Proof.
  split; [reflexivity |]. split; [discriminate |]. split; [reflexivity |].
  apply (role_gate ["organizer"; "admin"] (Some sampleEvent)
           (with_user (Some {[ "role" := VStr "student" ]}) anonymousUpdate)
           {[ "role" := VStr "student" ]});
    [reflexivity | discriminate | reflexivity].
Defined.

(** C2.  For a requester who is not the guest and passed the role gate, on
    an action with an ownership clause: an administrator is handed on
    whatever the event's organizer is; anyone else is handed on exactly when
    the email of the requester and the recorded organizer of the event are
    the same string, and is otherwise refused with the ownership response,
    status 403.  The outcome is the specified decision with the
    administrator as bypass role, it agrees with the ownership test of the
    RBAC test script, and it does not depend on the requester's [id]. *)
Theorem ownership_gate (roles : list string) (ev : Doc) (req : Request) (u : Doc) :
  user req = Some u →
  get "role" u ≠ VStr "guest" →
  includes roles (get "role" u) = true →
  (get "role" u = VStr "admin" → Rbac.accessChain roles (Some ev) req = Next req)
  ∧ (get "role" u ≠ VStr "admin" →
     ∀ e o, get "email" u = VStr e → get "organizer" ev = VStr o →
       (e = o → Rbac.accessChain roles (Some ev) req = Next req)
       ∧ (e ≠ o →
            Rbac.accessChain roles (Some ev) req = Respond Rbac.OwnershipViolation
            ∧ status Rbac.OwnershipViolation = 403))
  ∧ decisionOf (Rbac.accessChain roles (Some ev) req)
    = Some (Spec.evaluate u roles (Some (ownershipOf ev)))
  ∧ Rbac.testOwnership u ev = negb (Rbac.ownershipDenied u ev)
  ∧ (∀ v, decisionOf (Rbac.accessChain roles (Some ev)
                        (with_user (Some (<["id" := v]> u)) req))
          = decisionOf (Rbac.accessChain roles (Some ev) req)).
Proof.
  intros Hu Hrole Hin.
  pose proof (accessChain_some roles ev req u Hu Hrole) as Hchain.
  rewrite Hin in Hchain.
  split; [| split; [| split; [| split]]].
  - intros Hadmin. rewrite Hchain. unfold Rbac.ownershipDenied.
    apply strict_eq_VStr_r in Hadmin. by rewrite Hadmin.
  - intros Hnot e o He Ho. rewrite Hchain. unfold Rbac.ownershipDenied.
    apply strict_eq_VStr_false in Hnot. rewrite Hnot, He, Ho. simpl.
    split.
    + intros ->. by rewrite String.eqb_refl.
    + intros Hne. apply String.eqb_neq in Hne.
      rewrite String.eqb_sym in Hne. by rewrite Hne.
  - by apply accessChain_refines.
  - unfold Rbac.testOwnership, Rbac.ownershipDenied.
    rewrite (strict_eq_sym (get "organizer" ev)).
    destruct (strict_eq (get "role" u) (VStr "admin")); simpl; [done |].
    by rewrite negb_involutive.
  - intros v.
    assert (Hr : get "role" (<["id" := v]> u) = get "role" u)
      by (unfold get; by rewrite lookup_insert_ne).
    assert (He : get "email" (<["id" := v]> u) = get "email" u)
      by (unfold get; by rewrite lookup_insert_ne).
    rewrite (accessChain_refines roles ev (with_user (Some (<["id" := v]> u)) req)
               (<["id" := v]> u)); [| done | by rewrite Hr].
    rewrite (accessChain_refines roles ev req u Hu Hrole).
    unfold Spec.evaluate. by rewrite Hr, He.
Qed.

(** Another organizer's token on the sample event: refused for ownership. *)
Lemma ownership_gate_witness :
  user (with_user (Some otherOrganizer) anonymousUpdate) = Some otherOrganizer
  ∧ get "role" otherOrganizer ≠ VStr "guest"
  ∧ includes ["organizer"; "admin"] (get "role" otherOrganizer) = true
  ∧ Rbac.accessChain ["organizer"; "admin"] (Some sampleEvent)
      (with_user (Some otherOrganizer) anonymousUpdate)
    = Respond Rbac.OwnershipViolation.
Proof.
  assert (Hrole : get "role" otherOrganizer = VStr "organizer") by reflexivity.
  split; [reflexivity |]. split; [rewrite Hrole; discriminate |].
  split; [reflexivity |].
  destruct (ownership_gate ["organizer"; "admin"] sampleEvent
              (with_user (Some otherOrganizer) anonymousUpdate) otherOrganizer)
    as (_ & Hother & _).
  - reflexivity.
  - rewrite Hrole. discriminate.
  - reflexivity.
  - apply (Hother ltac:(rewrite Hrole; discriminate)
             "bob@campus.edu" "alice@campus.edu" eq_refl eq_refl).
    discriminate.
Defined.

(** ** Tokens and the authentication middlewares *)

Lemma positive_of_binary_of_positive (p : positive) :
  positive_of_binary (binary_of_positive p) = Some p.
Proof. induction p as [p IH|p IH|]; simpl; [by rewrite IH | by rewrite IH | done]. Qed.

Lemma sampleRuntime_codec (j : Doc * string) :
  @decodeJws sampleRuntime (@encodeJws sampleRuntime j) = Some j.
Proof.
  simpl. rewrite positive_of_binary_of_positive. simpl. apply decode_encode.
Qed.

Section Tokens.
Context `{RT : !Runtime}.

Lemma jsonClone_lookup (o : Doc) (k : string) :
  jsonClone o !! k = o !! k ≫= jsonValue.
Proof. unfold jsonClone. apply lookup_omap. Qed.

Lemma get_jsonClone (o : Doc) (k : string) :
  get k (jsonClone o) = jsonImage (get k o).
Proof.
  unfold get, jsonImage. rewrite jsonClone_lookup.
  by destruct (o !! k).
Qed.

Lemma jsonImage_native (v : Value) :
  match v with VUndef | VNull | VBool _ | VNum _ | VStr _ | VObject _ => jsonImage v = v
  | VId n => jsonImage v = VStr (toHexString n)
  | VDate ms => jsonImage v = VStr (toISOString ms)
  end.
Proof. by destruct v. Qed.

Lemma seconds_before (t x : Z) : t < x * 1000 → Jwt.seconds t < x.
Proof. intros Hlt. unfold Jwt.seconds. apply Z.div_lt_upper_bound; lia. Qed.

(** The token library inverts itself before expiry: verifying what was
    signed gives the JSON image of the payload with its two time claims. *)
Lemma sign_verify (payload : Doc) (secret : string) (now t : Z) :
  (∀ j, decodeJws (encodeJws j) = Some j) →
  Jwt.seconds t < Jwt.seconds now + 86400 →
  Jwt.verify (Jwt.sign payload secret now) secret t
  = inr (jsonClone (<["exp" := VNum (Jwt.seconds now + 86400)]>
                    (<["iat" := VNum (Jwt.seconds now)]> payload))).
Proof.
  intros Hcodec Hlt. unfold Jwt.verify, Jwt.sign. rewrite Hcodec.
  rewrite String.eqb_refl, jsonClone_lookup, lookup_insert_eq. simpl.
  destruct (Z.leb_spec (Jwt.seconds now + 86400) (Jwt.seconds t)); [lia | done].
Qed.

(** At or after expiry the same token is refused as expired. *)
Lemma sign_verify_expired (payload : Doc) (secret : string) (now t : Z) :
  (∀ j, decodeJws (encodeJws j) = Some j) →
  Jwt.seconds now + 86400 ≤ Jwt.seconds t →
  Jwt.verify (Jwt.sign payload secret now) secret t = inl Jwt.Expired.
Proof.
  intros Hcodec Hle. unfold Jwt.verify, Jwt.sign. rewrite Hcodec.
  rewrite String.eqb_refl, jsonClone_lookup, lookup_insert_eq. simpl.
  destruct (Z.leb_spec (Jwt.seconds now + 86400) (Jwt.seconds t)); [done | lia].
Qed.

Lemma verifyToken_ok (token : string) (now : Z) (decoded : Doc) (w : World) :
  Jwt.verify token JWT_SECRET now = inr decoded →
  UserService.verifyToken token now w = (Ok decoded, w).
Proof. intros Hv. unfold UserService.verifyToken. by rewrite Hv. Qed.

Lemma verifyToken_fails (token : string) (now : Z) (f : Jwt.DecodeFailure) (w : World) :
  Jwt.verify token JWT_SECRET now = inl f →
  UserService.verifyToken token now w
  = (Throw (AppError "Invalid or expired token" 401), w).
Proof. intros Hv. unfold UserService.verifyToken. by rewrite Hv. Qed.

(** A successful login found a stored user with the given email, answers
    that user without the password, and signed its id, email and role. *)
Lemma login_ok (email password : Value) (now : Z) (w w' : World)
    (token : string) (out : Doc) :
  UserService.login email password now w = (Ok (token, out), w') →
  ∃ stored,
    List.find (Mongo.matches {[ "email" := email ]}) (users w) = Some stored
    ∧ out = UserService.withoutPassword stored
    ∧ token = Jwt.sign (<["id" := get "_id" stored]>
                        (<["email" := get "email" stored]>
                        (<["role" := get "role" stored]> ∅)))
                       JWT_SECRET now.
Proof.
  unfold UserService.login, Mongo.findOne, UserService.bcryptCompare. run.
  destruct (List.find _ (users w)) as [stored|] eqn:Hfind; [| discriminate].
  intros Hrun. exists stored. split; [done |].
  destruct password; simpl in Hrun; try discriminate.
  destruct (get "password" stored); simpl in Hrun; try discriminate.
  destruct (bcrypt_compare s s0); simpl in Hrun; [| discriminate].
  by injection Hrun as <- <- _.
Qed.

(** [login] succeeds for a stored user whose hash the password matches. *)
Lemma login_succeeds (email : Value) (password hash : string) (now : Z) (w : World)
    (stored : Doc) :
  List.find (Mongo.matches {[ "email" := email ]}) (users w) = Some stored →
  get "password" stored = VStr hash →
  bcrypt_compare password hash = true →
  UserService.login email (VStr password) now w
  = (Ok (Jwt.sign (<["id" := get "_id" stored]>
                   (<["email" := get "email" stored]>
                   (<["role" := get "role" stored]> ∅)))
                  JWT_SECRET now,
         UserService.withoutPassword stored),
     set_log (fun l => l ++ [(LInfo, "User logged in successfully")]) w).
Proof.
  intros Hfind Hpw Hok.
  unfold UserService.login, Mongo.findOne, UserService.bcryptCompare. run.
  by rewrite Hfind, Hpw, Hok.
Qed.

End Tokens.

Section TokenRoundTrip.
Context `{RT : !Runtime}.

(** C5.  For every stored user that [login] finds by the email and whose
    hash the password matches, [login] issues a token, and that token
    verifies at every instant strictly before its expiry, 24 hours after
    the second of issue.  The decoded assertion carries exactly what was
    issued for that user: the id, email and role of the stored user (in
    their JSON form: an ObjectId as its hexadecimal string), with the issue
    and expiry seconds, and nothing else.  The serialisation of the token
    is the library's; it is taken to parse back what it printed. *)
Theorem token_roundtrip (email : Value) (password hash : string) (now t : Z)
    (w : World) (stored : Doc) :
  (∀ j, decodeJws (encodeJws j) = Some j) →
  Mongo.equalityOn "email" email (users w) = true →
  List.find (Mongo.matches {[ "email" := email ]}) (users w) = Some stored →
  get "password" stored = VStr hash →
  bcrypt_compare password hash = true →
  t < (Jwt.seconds now + 86400) * 1000 →
  ∃ token out w' decoded,
    UserService.login email (VStr password) now w = (Ok (token, out), w')
    ∧ (∀ w0, UserService.verifyToken token t w0 = (Ok decoded, w0))
    ∧ get "id" decoded = jsonImage (get "_id" stored)
    ∧ get "email" decoded = jsonImage (get "email" stored)
    ∧ get "role" decoded = jsonImage (get "role" stored)
    ∧ get "iat" decoded = VNum (Jwt.seconds now)
    ∧ get "exp" decoded = VNum (Jwt.seconds now + 86400)
    ∧ dom decoded ⊆ {[ "id"; "email"; "role"; "iat"; "exp" ]}.
Proof.
  intros Hcodec _ Hfind Hpw Hok Ht.
  eexists _, _, _, _.
  split; [exact (login_succeeds email password hash now w stored Hfind Hpw Hok) |].
  split.
  { intros w0. apply verifyToken_ok. apply sign_verify; [exact Hcodec |].
    by apply seconds_before. }
  rewrite !get_jsonClone.
  unfold get at 1 3 5 7 9. simplify_map_eq.
  do 5 (split; [reflexivity |]).
  intros k. rewrite elem_of_dom. unfold jsonClone. rewrite lookup_omap.
  intros [v Hv]. destruct (decide (k = "exp")) as [->|]; [set_solver |].
  destruct (decide (k = "iat")) as [->|]; [set_solver |].
  destruct (decide (k = "id")) as [->|]; [set_solver |].
  destruct (decide (k = "email")) as [->|]; [set_solver |].
  destruct (decide (k = "role")) as [->|]; [set_solver |].
  by simplify_map_eq.
Qed.

End TokenRoundTrip.

(** The round trip at the sample account: a login at instant 0 and a
    verification one millisecond before the 24 hours are over give back
    the id, the email and the role of the stored account. *)
Lemma token_roundtrip_witness :
  ∃ token out w' decoded,
    @UserService.login sampleRuntime (VStr "alice@campus.edu") (VStr "secret") 0 sampleWorld
    = (Ok (token, out), w')
    ∧ @UserService.verifyToken sampleRuntime token 86399999 sampleWorld
      = (Ok decoded, sampleWorld)
    ∧ get "id" decoded = VStr "000000000000000000000007"
    ∧ get "email" decoded = VStr "alice@campus.edu"
    ∧ get "role" decoded = VStr "organizer".
Proof.
  destruct (@token_roundtrip sampleRuntime (VStr "alice@campus.edu") "secret"
              "$2b$10$secret" 0 86399999 sampleWorld sampleUser
              sampleRuntime_codec eq_refl eq_refl eq_refl eq_refl eq_refl)
    as (token & out & w' & decoded & Hlogin & Hverify & Hid & Hemail & Hrole & _).
  exists token, out, w', decoded.
  split; [exact Hlogin |]. split; [apply Hverify |].
  split; [rewrite Hid; reflexivity |].
  split; [rewrite Hemail; reflexivity |]. rewrite Hrole. reflexivity.
Defined.

Section Normalization.
Context `{RT : !Runtime}.

Lemma isAuthenticated_next (req : Request) (now : Z) (w : World) :
  ∃ req', AuthMiddleware.isAuthenticated req now w = (Ok (Next req'), w).
Proof.
  unfold AuthMiddleware.isAuthenticated, UserService.verifyToken.
  destruct (present _) as [token|]; [| by eexists].
  destruct (Jwt.verify token JWT_SECRET now); run; by eexists.
Qed.

(** C6, as the code has it.  With the bearer token missing, or present but
    refused by the token library for any of its reasons, the tolerant
    middleware [isAuthenticated] makes the guest the requester and hands the
    request on, touching nothing; it hands on every request.  The
    [authenticateToken] of the access-control notes leaves [req.user] null
    there and hands on, and the role middleware then takes the guest as
    requester.  The authentication router's own [authenticateToken] is
    strict instead: it answers 401 when the token is missing and 403 when
    it is refused. *)
Theorem tolerant_normalization (req : Request) (now : Z) (w : World) :
  tokenUnusable req now →
  AuthMiddleware.isAuthenticated req now w = (Ok (Next (with_users (Some guest) req)), w)
  ∧ effectiveRequester (with_users (Some guest) req) = guest
  ∧ (∀ r n w0, ∃ r', AuthMiddleware.isAuthenticated r n w0 = (Ok (Next r'), w0))
  ∧ Rbac.authenticateToken req now = Next (with_user None req)
  ∧ effectiveRequester (with_user None req) = guest
  ∧ (present (bearerToken (authorization req)) = None →
       AuthRoutes.authenticateToken req now w
       = (Ok (Respond (json_message 401 "Access token required")), w))
  ∧ (present (bearerToken (authorization req)) ≠ None →
       AuthRoutes.authenticateToken req now w
       = (Ok (Respond (json_message 403 "Invalid or expired token")), w)).
Proof.
  intros Hbad.
  unfold AuthMiddleware.isAuthenticated, Rbac.authenticateToken,
    AuthRoutes.authenticateToken, UserService.verifyToken.
  destruct Hbad as [Hnone | (token & failure & Hsome & Hfail)].
  - rewrite Hnone. repeat split; try done.
    intros r n w0. apply isAuthenticated_next.
  - rewrite Hsome, Hfail. run. repeat split; try done.
    intros r n w0. apply isAuthenticated_next.
Qed.

End Normalization.

(** The tolerant middleware on a request without credentials. *)
Lemma tolerant_normalization_witness :
  @tokenUnusable sampleRuntime anonymousProfile 0
  ∧ @AuthMiddleware.isAuthenticated sampleRuntime anonymousProfile 0 sampleWorld
    = (Ok (Next (with_users (Some guest) anonymousProfile)), sampleWorld).
Proof.
  assert (Hbad : @tokenUnusable sampleRuntime anonymousProfile 0) by (left; reflexivity).
  split; [exact Hbad |].
  apply (@tolerant_normalization sampleRuntime anonymousProfile 0 sampleWorld Hbad).
Defined.

(** C6 as stated fails on the authentication router: its
    [authenticateToken] rejects a request without a token with 401, and a
    request with a token that does not decode with 403, instead of going on
    with the guest. *)
Lemma strict_router_rejects :
  bearerToken (authorization anonymousProfile) = None
  ∧ @AuthRoutes.authenticateToken sampleRuntime anonymousProfile 0 sampleWorld
    = (Ok (Respond (json_message 401 "Access token required")), sampleWorld)
  ∧ bearerToken (authorization garbledProfile) = Some "not-a-token"
  ∧ @Jwt.verify sampleRuntime "not-a-token" (@JWT_SECRET sampleRuntime) 0 = inl Jwt.Malformed
  ∧ @AuthRoutes.authenticateToken sampleRuntime garbledProfile 0 sampleWorld
    = (Ok (Respond (json_message 403 "Invalid or expired token")), sampleWorld).
Proof. repeat split; vm_compute; reflexivity. Qed.

(** ** Read paths of the user service *)

Section ReadPaths.
Context `{RT : !Runtime}.

Lemma withoutPassword_hides (u : Doc) : hidesPassword (UserService.withoutPassword u).
Proof. apply lookup_delete_eq. Qed.

Lemma json_message_hides (code : Z) (message : string) :
  responseHidesPassword (json_message code message).
Proof. split; [done | intros u; discriminate]. Qed.

Lemma onError_hides (error : Exn) (w w' : World) (res : Response) :
  AuthRoutes.onError error w = (Ok res, w') → responseHidesPassword res.
Proof.
  unfold AuthRoutes.onError. destruct error as [m c|m]; [destruct (c =? 0) |];
    run; intros [= <- _]; apply json_message_hides.
Qed.

Lemma insertOne_ok (c : Mongo.Collection) (d : Doc) (w : World) :
  ∃ id w1,
    Mongo.insertOne c d w = (Ok id, Mongo.over c (fun l => l ++ [bson (<["_id" := id]> d)]) w1)
    ∧ core w1 = (users w, events w, registrations w, feedback w, cache w,
                 if bool_decide (bsonValue (get "_id" d) = VNull)
                 then (next_oid w + 1)%N else next_oid w)
    ∧ log w1 = log w ∧ outbox w1 = outbox w ∧ transporter w1 = transporter w
    ∧ id = (if bool_decide (bsonValue (get "_id" d) = VNull)
            then VId (next_oid w) else get "_id" d).
Proof.
  unfold Mongo.insertOne. destruct (get "_id" d); eexists _, _; done.
Qed.

Lemma register_hides (userData : Doc) (now : Z) (w w' : World) (u : Doc) :
  UserService.register userData now w = (Ok u, w') → hidesPassword u.
Proof.
  unfold UserService.register, Mongo.findOne, UserService.bcryptHash. run.
  destruct (List.find _ (users w)); simpl; [discriminate |].
  destruct (get "password" userData); simpl; try discriminate.
  match goal with
  | |- context [Mongo.insertOne ?c ?d ?w0] =>
      destruct (insertOne_ok c d w0) as (id & w1 & -> & _)
  end.
  intros [= <- _]. unfold hidesPassword.
  rewrite lookup_insert_ne by done. apply withoutPassword_hides.
Qed.

Lemma login_hides (email password : Value) (now : Z) (w w' : World)
    (token : string) (u : Doc) :
  UserService.login email password now w = (Ok (token, u), w') → hidesPassword u.
Proof.
  intros Hrun. destruct (login_ok _ _ _ _ _ _ _ Hrun) as (stored & _ & -> & _).
  apply withoutPassword_hides.
Qed.

Lemma getUserById_hides (userId : Value) (w w' : World) (u : Doc) :
  UserService.getUserById userId w = (Ok u, w') → hidesPassword u.
Proof.
  unfold UserService.getUserById, Mongo.findOne. run.
  destruct (ObjectId_isValid_value userId); simpl; [| discriminate].
  destruct (List.find _ (users w)); simpl; [| discriminate].
  intros [= <- _]. apply withoutPassword_hides.
Qed.

Lemma getUserByEmail_hides (email : Value) (w w' : World) (u : Doc) :
  UserService.getUserByEmail email w = (Ok u, w') → hidesPassword u.
Proof.
  unfold UserService.getUserByEmail, Mongo.findOne. run.
  destruct (List.find _ (users w)); simpl; [| discriminate].
  intros [= <- _]. apply withoutPassword_hides.
Qed.

Lemma getAllUsers_hides (filters : Doc) (w w' : World) (us : list Doc) :
  UserService.getAllUsers filters w = (Ok us, w') → Forall hidesPassword us.
Proof.
  unfold UserService.getAllUsers, Mongo.find. run.
  intros [= <- _]. apply Forall_fmap, Forall_forall.
  intros u _. apply withoutPassword_hides.
Qed.

(** The registration route, case by case. *)
Lemma postRegister_cases (req : Request) (now : Z) (w : World) :
  AuthRoutes.postRegister req now w
  = let b := body req in
    if negb (truthy (get "name" b)) || negb (truthy (get "email" b))
       || negb (truthy (get "password" b))
    then (Ok (json_message 400 "Name, email, and password are required"), w)
    else if truthy (get "role" b) && negb (includes AuthRoutes.validRoles (get "role" b))
    then (Ok (json_message 400 "Invalid role. Must be student or organizer"), w)
    else if strict_eq (get "role" b) (VStr "student") && negb (truthy (get "studentId" b))
    then (Ok (json_message 400 "Student ID is required for student accounts"), w)
    else match UserService.register (AuthRoutes.userDataOf b) now w with
         | (Ok registered, w') =>
             (Ok (mkResponse 201
                    (Json {[ "message" := VStr "User registered successfully" ]}
                          (Some registered))), w')
         | (Throw error, w') => AuthRoutes.onError error w'
         end.
Proof.
  unfold AuthRoutes.postRegister, try_catch, bind, ret. cbv zeta.
  repeat case_match; simplify_eq; done.
Qed.

(** The login route, case by case. *)
Lemma postLogin_cases (req : Request) (now : Z) (w : World) :
  AuthRoutes.postLogin req now w
  = let b := body req in
    if negb (truthy (get "email" b)) || negb (truthy (get "password" b))
    then (Ok (json_message 400 "Email and password are required"), w)
    else match UserService.login (get "email" b) (get "password" b) now w with
         | (Ok result, w') =>
             (Ok (mkResponse 200 (Json {[ "token" := VStr result.1 ]} (Some result.2))), w')
         | (Throw error, w') => AuthRoutes.onError error w'
         end.
Proof.
  unfold AuthRoutes.postLogin, try_catch, bind, ret. cbv zeta.
  repeat case_match; simplify_eq; done.
Qed.

(** C7.  No read path returns the password hash: the user that [register],
    [login], [getUserById] and [getUserByEmail] answer, and every user in
    the list of [getAllUsers], has no [password] property, and neither have
    the responses of the registration, login and profile routes. *)
Theorem password_never_returned :
  (∀ userData now w u w',
      UserService.register userData now w = (Ok u, w') → hidesPassword u)
  ∧ (∀ email password now w token u w',
      UserService.login email password now w = (Ok (token, u), w') → hidesPassword u)
  ∧ (∀ userId w u w',
      UserService.getUserById userId w = (Ok u, w') → hidesPassword u)
  ∧ (∀ email w u w',
      UserService.getUserByEmail email w = (Ok u, w') → hidesPassword u)
  ∧ (∀ filters w us w',
      UserService.getAllUsers filters w = (Ok us, w') → Forall hidesPassword us)
  ∧ (∀ req now w res w',
      AuthRoutes.postRegister req now w = (Ok res, w') → responseHidesPassword res)
  ∧ (∀ req now w res w',
      AuthRoutes.postLogin req now w = (Ok res, w') → responseHidesPassword res)
  ∧ (∀ req now w res w',
      AuthRoutes.getProfile req now w = (Ok res, w') → responseHidesPassword res).
Proof.
  split; [intros; by eapply register_hides |].
  split; [intros; by eapply login_hides |].
  split; [intros; by eapply getUserById_hides |].
  split; [intros; by eapply getUserByEmail_hides |].
  split; [intros; by eapply getAllUsers_hides |].
  split; [| split].
  - intros req now w res w'. rewrite postRegister_cases. cbv zeta.
    repeat case_match; try (intros [= <- _]; apply json_message_hides).
    + intros [= <- _]. split; [done |]. intros u [= <-]. by eapply register_hides.
    + intros Herr. by eapply onError_hides.
  - intros req now w res w'. rewrite postLogin_cases. cbv zeta.
    repeat case_match; try (intros [= <- _]; apply json_message_hides).
    + intros [= <- _]. split; [done |]. intros u [= <-].
      destruct a as [token out]. by eapply login_hides.
    + intros Herr. by eapply onError_hides.
  - intros req now w res w'. unfold AuthRoutes.getProfile, AuthRoutes.authenticateToken.
    unfold bind at 1.
    destruct (present _) as [token|]; [| unfold ret; intros [= <- _]; apply json_message_hides].
    unfold try_catch at 1, bind at 1.
    destruct (UserService.verifyToken token now w) as [[decoded|e] w1];
      unfold ret; [| intros [= <- _]; apply json_message_hides].
    unfold try_catch, bind.
    destruct (UserService.getUserById _ w1) as [[found|e] w2] eqn:Hget.
    + intros [= <- _]. split; [done |]. intros u [= <-]. by eapply getUserById_hides.
    + intros Herr. by eapply onError_hides.
Qed.

End ReadPaths.

(** ** Registering for an event *)

Section Registration.
Context `{RT : !Runtime}.



Lemma set_cache_id (w : World) : set_cache (fun c => c) w = w.
Proof. by destruct w. Qed.

(** [getEventById] changes at most the cache. *)
Lemma getEventById_effect (eventId : Value) (w : World) :
  ∃ f, (EventService.getEventById eventId w).2 = set_cache f w.
Proof.
  unfold EventService.getEventById, Mongo.findOne, Cache.get, Cache.set. run.
  destruct (ObjectId_isValid_value eventId); simpl;
    [| exists (fun c => c); by rewrite set_cache_id].
  destruct (cache w !! _); simpl; [exists (fun c => c); by rewrite set_cache_id |].
  destruct (List.find _ (events w)); simpl.
  - by eexists.
  - exists (fun c => c). by rewrite set_cache_id.
Qed.

(** Sending the confirmation touches the log and the outbox only. *)
Lemma sendRegistrationConfirmation_effect (to : Value) (event : Doc) (w : World) :
  core (EmailService.sendRegistrationConfirmation to event w).2 = core w
  ∧ transporter (EmailService.sendRegistrationConfirmation to event w).2 = transporter w.
Proof.
  unfold EmailService.sendRegistrationConfirmation, EmailService.sendEmailNotification.
  run. destruct (transporter w) as [|delivers] eqn:Ht; simpl; [done |].
  destruct (delivers _); simpl; done.
Qed.

(** The confirmation block never throws, and leaves the collections and
    the identifier supply alone. *)
Lemma sendConfirmation_effect (rd : Doc) (w : World) :
  ∃ w' f,
    EventService.sendConfirmation rd w = (Ok tt, w')
    ∧ core w' = core (set_cache f w)
    ∧ transporter w' = transporter w.
Proof.
  unfold EventService.sendConfirmation, try_catch, bind.
  destruct (getEventById_effect (get "eventId" rd) w) as (f & Hf).
  destruct (EventService.getEventById _ w) as [[event|e] w1]; simpl in Hf; subst w1.
  - pose proof (sendRegistrationConfirmation_effect (get "studentEmail" rd) event
                  (set_cache f w)) as (Hcore & Htr).
    destruct (EmailService.sendRegistrationConfirmation _ event _) as [[[]|e] w2];
      simpl in *.
    + by exists w2, f.
    + eexists _, f. split; [reflexivity |]. split; [| done].
      rewrite <- Hcore. done.
  - eexists _, f. split; [reflexivity |]. done.
Qed.

End Registration.

Section RegistrationOnce.
Context `{RT : !Runtime}.


End RegistrationOnce.


(** ** Isolation of the notification *)

Section Isolation.
Context `{RT : !Runtime}.




















End Isolation.

Section Notification.
Context `{RT : !Runtime}.



End Notification.

(** ** Accounts created through the registration route *)

Section Accounts.
Context `{RT : !Runtime}.

Lemma get_bson (k : string) (d : Doc) (v : Value) :
  d !! k = Some v → get k (bson d) = bsonValue v.
Proof. intros Hk. unfold get, bson. by rewrite lookup_fmap, Hk. Qed.

Lemma js_or_student (v : Value) :
  truthy (js_or v (VStr "student")) = true
  ∧ js_or (js_or v (VStr "student")) (VStr "student") = js_or v (VStr "student").
Proof. unfold js_or. destruct (truthy v) eqn:Hv; by rewrite ?Hv. Qed.

(** [register], case by case: the email is taken (409), the password is
    not a string (the hashing fails, reported as a database error), or one
    account is appended to the users. *)
Lemma register_cases (userData : Doc) (now : Z) (w : World) :
  UserService.register userData now w
    = (Throw (AppError "User with this email already exists" 409), w)
  ∨ (∃ w', UserService.register userData now w
             = (Throw (DatabaseError "Failed to register user"), w')
           ∧ domain w' = domain w)
  ∨ (∃ u account w',
       UserService.register userData now w = (Ok u, w')
       ∧ users w' = users w ++ [account]
       ∧ get "role" account = js_or (get "role" userData) (VStr "student")
       ∧ events w' = events w ∧ registrations w' = registrations w
       ∧ feedback w' = feedback w).
Proof.
  unfold UserService.register, Mongo.findOne, UserService.bcryptHash. run.
  destruct (List.find _ (users w)); simpl; [by left |].
  destruct (get "password" userData) eqn:Hpw; simpl;
    try (right; left; eexists; split; [reflexivity | done]).
  right. right.
  match goal with
  | |- context [Mongo.insertOne ?c ?d ?w0] =>
      destruct (insertOne_ok c d w0) as (id & w1 & -> & Hcore & _)
  end.
  injection Hcore as Hu He Hr Hf _ _.
  eexists _, _, _. split; [reflexivity |]. simpl.
  rewrite Hu, He, Hr, Hf. repeat split; try done.
  erewrite get_bson; [| by simplify_map_eq].
  destruct (js_or_student (get "role" userData)) as [Htruthy _].
  by destruct (js_or (get "role" userData) (VStr "student")).
Qed.

Lemma onError_status (e : Exn) (w : World) :
  ∃ res, AuthRoutes.onError e w = (Ok res, w)
         ∧ status res = match e with
                        | AppError _ c => if c =? 0 then 500 else c
                        | JsError _ _ _ => 500
                        end.
Proof.
  unfold AuthRoutes.onError. destruct e as [m c|m]; [destruct (c =? 0) |];
    eexists; split; reflexivity.
Qed.

Lemma includes_validRoles (v : Value) :
  includes AuthRoutes.validRoles v = true ↔ v = VStr "student" ∨ v = VStr "organizer".
Proof.
  rewrite includes_spec. unfold AuthRoutes.validRoles. split.
  - intros (r & Hin & ->).
    apply elem_of_cons in Hin as [-> | Hin]; [by left |].
    apply list_elem_of_singleton in Hin as ->. by right.
  - intros [-> | ->]; eexists; (split; [| reflexivity]).
    + apply elem_of_cons. by left.
    + apply elem_of_cons. right. by apply list_elem_of_singleton.
Qed.

(** What the registration route guarantees about roles.  The route
    always answers.  An account it creates has role ['student'] or
    ['organizer'], ['student'] when the request names no role, and is
    created only with the answer 201.  A request that names any other
    role, ['admin'] included, is answered 400 and changes nothing, and so
    is a request that names the role ['student'] without a student id.
    (A request that names no role is not asked for a student id: see
    [register_default_role].) *)
Theorem registration_roles (req : Request) (now : Z) (w : World) :
  ∃ res w',
    AuthRoutes.postRegister req now w = (Ok res, w')
    ∧ (domain w' = domain w ∧ status res ≠ 201
       ∨ ∃ account,
           users w' = users w ++ [account] ∧ status res = 201
           ∧ (get "role" account = VStr "student" ∨ get "role" account = VStr "organizer")
           ∧ (truthy (get "role" (body req)) = false →
                get "role" account = VStr "student")
           ∧ events w' = events w ∧ registrations w' = registrations w
           ∧ feedback w' = feedback w)
    ∧ (truthy (get "role" (body req)) = true →
       includes AuthRoutes.validRoles (get "role" (body req)) = false →
       status res = 400 ∧ w' = w)
    ∧ (get "role" (body req) = VStr "admin" → status res = 400 ∧ w' = w)
    ∧ (get "role" (body req) = VStr "student" →
       truthy (get "studentId" (body req)) = false →
       status res = 400 ∧ w' = w).
Proof.
  rewrite postRegister_cases. cbv zeta.
  destruct (negb (truthy (get "name" (body req))) || _ || _) eqn:Hmissing.
  { eexists _, _. split; [reflexivity |]. simpl. split; [left; done |]. done. }
  destruct (truthy (get "role" (body req)) && _) eqn:Hrole.
  { eexists _, _. split; [reflexivity |]. simpl. split; [left; done |]. done. }
  destruct (strict_eq (get "role" (body req)) (VStr "student") && _) eqn:Hstudent.
  { eexists _, _. split; [reflexivity |]. simpl. split; [left; done |]. done. }
  assert (Hvalid : truthy (get "role" (body req)) = true →
                   includes AuthRoutes.validRoles (get "role" (body req)) = true).
  { intros Ht. rewrite Ht in Hrole. by apply negb_false_iff in Hrole. }
  assert (Hsid : get "role" (body req) = VStr "student" →
                 truthy (get "studentId" (body req)) = true).
  { intros Hr. rewrite Hr in Hstudent. by apply negb_false_iff in Hstudent. }
  assert (Hrest :
    (truthy (get "role" (body req)) = true →
     includes AuthRoutes.validRoles (get "role" (body req)) = false → False)
    ∧ (get "role" (body req) = VStr "admin" → False)
    ∧ (get "role" (body req) = VStr "student" →
       truthy (get "studentId" (body req)) = false → False)).
  { split; [| split].
    - intros Ht Hno. rewrite (Hvalid Ht) in Hno. discriminate.
    - intros Hr. specialize (Hvalid ltac:(by rewrite Hr)).
      apply includes_validRoles in Hvalid. rewrite Hr in Hvalid.
      destruct Hvalid; discriminate.
    - intros Hr Hno. rewrite (Hsid Hr) in Hno. discriminate. }
  destruct Hrest as (Hr1 & Hr2 & Hr3).
  destruct (register_cases (AuthRoutes.userDataOf (body req)) now w)
    as [-> | [(w' & -> & Hdom) | (u & account & w' & -> & Husers & Hacc & He & Hr & Hf)]].
  - eexists _, _. split; [reflexivity |]. simpl. split; [left; done |].
    repeat split; intros; exfalso; eauto.
  - eexists _, _. split; [reflexivity |]. simpl. split; [left; done |].
    repeat split; intros; exfalso; eauto.
  - eexists _, _. split; [reflexivity |]. simpl. split.
    + right. exists account. split; [done |]. split; [done |].
      assert (Hrole' : get "role" (AuthRoutes.userDataOf (body req))
                       = js_or (get "role" (body req)) (VStr "student")).
      { unfold AuthRoutes.userDataOf, get at 1. by simplify_map_eq. }
      rewrite Hacc, Hrole'.
      destruct (js_or_student (get "role" (body req))) as [_ ->].
      unfold js_or. destruct (truthy (get "role" (body req))) eqn:Ht.
      * split; [by apply includes_validRoles, Hvalid |]. by split.
      * split; [by left |]. by split.
    + repeat split; intros; exfalso; eauto.
Qed.

End Accounts.

(** ** Refusals and the server's action routes *)

Section Refusals.
Context `{RT : !Runtime}.

Lemma requireRole_refusal (roles : list string) (req : Request) (res : Response) :
  Rbac.requireRole roles req = Respond res →
  res = Rbac.AuthenticationRequired req ∨ res = Rbac.InsufficientRole roles req.
Proof.
  unfold Rbac.requireRole.
  assert (Hpath : ∀ u, Rbac.AuthenticationRequired (with_user u req)
                       = Rbac.AuthenticationRequired req) by done.
  assert (Hpath' : ∀ u, Rbac.InsufficientRole roles (with_user u req)
                        = Rbac.InsufficientRole roles req) by done.
  destruct (user req); repeat case_match; intros [= <-]; rewrite ?Hpath, ?Hpath'; auto.
Qed.

Lemma accessChain_refusal (roles : list string) (event : option Doc) (req : Request)
    (res : Response) :
  Rbac.accessChain roles event req = Respond res →
  res = Rbac.AuthenticationRequired req
  ∨ res = Rbac.InsufficientRole roles req
  ∨ res = Rbac.OwnershipViolation.
Proof.
  unfold Rbac.accessChain.
  destruct (Rbac.requireRole roles req) as [req'|res'] eqn:Hrr.
  - destruct event as [ev|]; [| discriminate].
    destruct (Rbac.ownershipDenied _ ev); [| discriminate].
    intros [= <-]. auto.
  - intros [= <-]. destruct (requireRole_refusal _ _ _ Hrr); auto.
Qed.

(** The update and delete routes of the server read the route parameter and
    the body of the request, and nothing about who sent it. *)
Lemma public_routes_ignore_requester (r1 r2 : Request) (now : Z) (w : World) :
  params r1 = params r2 → body r1 = body r2 →
  Server.postUpdateEvent r1 now w = Server.postUpdateEvent r2 now w
  ∧ Server.postDeleteEvent r1 w = Server.postDeleteEvent r2 w.
Proof.
  intros Hp Hb. unfold Server.postUpdateEvent, Server.postDeleteEvent, param.
  by rewrite Hp, Hb.
Qed.

End Refusals.

(** C1 as stated fails on the server: for a request without credentials
    the access policy of the update and delete actions decides DENY, and
    the routes update and delete the event all the same. *)
Lemma public_routes_mutate_on_deny :
  Spec.evaluate (effectiveRequester anonymousUpdate) ["organizer"; "admin"]
    (Some (ownershipOf sampleEvent))
  = Spec.DENY Spec.AuthenticationRequired
  ∧ decisionOf (Rbac.accessChain ["organizer"; "admin"] (Some sampleEvent) anonymousUpdate)
    = Some (Spec.DENY Spec.AuthenticationRequired)
  ∧ (Server.postUpdateEvent anonymousUpdate 5 sampleWorld).1
    = Ok (redirect "/organizer/my-events")
  ∧ get "title" <$> events sampleWorld = [VStr "Robotics Fair"]
  ∧ get "title" <$> events (Server.postUpdateEvent anonymousUpdate 5 sampleWorld).2
    = [VStr "Cancelled"]
  ∧ (Server.postDeleteEvent anonymousUpdate sampleWorld).1
    = Ok (redirect "/organizer/my-events")
  ∧ events (Server.postDeleteEvent anonymousUpdate sampleWorld).2 = [].
Proof. repeat split; vm_compute; reflexivity. Qed.

(** ** The model on sample requests *)

Example split_space_bearer :
  split_space "Bearer abc.def.ghi" = ["Bearer"; "abc.def.ghi"]
  ∧ split_space "Bearer" = ["Bearer"]
  ∧ split_space "Bearer " = ["Bearer"; ""]
  ∧ split_space "a  b" = ["a"; ""; "b"].
Proof. repeat split. Qed.

Example bearerToken_shapes :
  present (bearerToken None) = None
  ∧ present (bearerToken (Some "")) = None
  ∧ present (bearerToken (Some "Bearer")) = None
  ∧ present (bearerToken (Some "Bearer ")) = None
  ∧ present (bearerToken (Some "Bearer abc.def.ghi")) = Some "abc.def.ghi".
Proof. repeat split. Qed.

Example objectId_of_route_parameter :
  ObjectId_isValid sampleEventId = true
  ∧ ObjectId_of sampleEventId = VId 1
  ∧ ObjectId_isValid "robotics" = false
  ∧ toHexString 1 = sampleEventId.
Proof. repeat split. Qed.

Example join_roles :
  join " or " ["organizer"; "admin"] = "organizer or admin".
Proof. reflexivity. Qed.

(** The first registration is stored although the mail fails; the second
    one for the same event and email is refused. *)
Example register_twice :
  let first := @EventService.registerForEvent sampleRuntime sampleRegistration 9 failingMail in
  let second := @EventService.registerForEvent sampleRuntime sampleRegistration 10 first.2 in
  (get "_id" <$> first.1) = Ok (VId 100)
  ∧ List.length (registrations first.2) = 1%nat
  ∧ outbox first.2 = []
  ∧ log first.2
    = [(LError, "Error sending email:");
       (LError, "Error sending registration confirmation email:");
       (LError, "Error sending registration confirmation email:");
       (LInfo, "Event registration created")]
  ∧ second.1 = Throw (AppError "You have already registered for this event" 400)
  ∧ second.2 = first.2.
Proof.
  cbv zeta. split; [| split; [| split; [| split; [| split]]]];
    vm_compute; reflexivity.
Qed.

(** The registration route on a request that names the role admin. *)
Example register_admin_refused :
  @AuthRoutes.postRegister sampleRuntime
    (mkRequest "/api/auth/register" None ∅
       (<["name" := VStr "Mallory"]>
        (<["email" := VStr "mallory@campus.edu"]>
        (<["password" := VStr "pw"]>
        {[ "role" := VStr "admin" ]}))) None None)
    0 sampleWorld
  = (Ok (json_message 400 "Invalid role. Must be student or organizer"), sampleWorld).
Proof. vm_compute. reflexivity. Qed.

(** C10.  A student registration without a student id that the route
    does not reject.  A request that names no role and no student id is
    answered 201, and the account it creates is a student account (the
    role defaults to ['student']) whose student id is null; the same
    request naming the role ['student'] is answered 400 'Student ID is
    required for student accounts' and creates nothing.  The check for
    the student id looks at the role the request names, not at the role
    the account gets. *)
Example register_default_role :
  let fields : Doc :=
    <["name" := VStr "Dave"]>
      (<["email" := VStr "dave@campus.edu"]> {[ "password" := VStr "pw" ]}) in
  let out := @AuthRoutes.postRegister sampleRuntime
    (mkRequest "/api/auth/register" None ∅ fields None None) 0 sampleWorld in
  let named := @AuthRoutes.postRegister sampleRuntime
    (mkRequest "/api/auth/register" None ∅ (<["role" := VStr "student"]> fields) None None)
    0 sampleWorld in
  (status <$> out.1) = Ok 201
  ∧ (get "email" <$> users out.2) = [VStr "alice@campus.edu"; VStr "dave@campus.edu"]
  ∧ (get "role" <$> users out.2) = [VStr "organizer"; VStr "student"]
  ∧ (get "studentId" <$> users out.2) = [VUndef; VNull]
  ∧ named = (Ok (json_message 400 "Student ID is required for student accounts"),
             sampleWorld).
Proof. cbv zeta. split; [| split; [| split; [| split]]]; vm_compute; reflexivity. Qed.

(** * Further properties of the code *)

(** ** The bearer header *)

Lemma rev_app_append (s1 s2 s3 : string) :
  String.rev_app s1 s2 +:+ s3 = String.rev_app s1 (s2 +:+ s3).
Proof. revert s2. induction s1 as [|c s1 IH]; intros s2; simpl; [done |]. by rewrite IH. Qed.

Lemma split_space_aux_free (cur s : string) :
  spaceFree s = true → split_space_aux cur s = [String.rev cur +:+ s].
Proof.
  revert cur. induction s as [|c s IH]; intros cur Hfree; simpl in *.
  - f_equal. unfold String.rev. rewrite rev_app_append. done.
  - apply andb_true_iff in Hfree as [Hc Hs]. apply negb_true_iff in Hc.
    rewrite Hc, (IH _ Hs). f_equal.
    unfold String.rev. simpl. by rewrite !rev_app_append.
Qed.

Lemma split_space_aux_word (cur a b : string) :
  spaceFree a = true →
  split_space_aux cur (a +:+ String Ascii.Space b)
  = (String.rev cur +:+ a) :: split_space_aux "" b.
Proof.
  revert cur. induction a as [|c a IH]; intros cur Hfree; simpl in *.
  - f_equal. unfold String.rev. by rewrite rev_app_append.
  - apply andb_true_iff in Hfree as [Hc Ha]. apply negb_true_iff in Hc.
    rewrite Hc, (IH _ Ha). f_equal.
    unfold String.rev. simpl. by rewrite !rev_app_append.
Qed.

Lemma bearerToken_of_header (scheme token : string) :
  spaceFree scheme = true →
  spaceFree token = true →
  token ≠ "" →
  present (bearerToken (Some (scheme +:+ " " +:+ token))) = Some token.
Proof.
  intros Hscheme Htoken Hne.
  unfold bearerToken. change (" " +:+ token) with (String Ascii.Space token).
  assert (Hnonempty : String.eqb (scheme +:+ String Ascii.Space token) "" = false)
    by (by destruct scheme).
  rewrite Hnonempty. unfold split_space.
  rewrite (split_space_aux_word "" scheme token Hscheme).
  rewrite (split_space_aux_free "" token Htoken).
  assert (Hpresent : present (Some token) = Some token).
  { simpl. apply String.eqb_neq in Hne. by rewrite Hne. }
  exact Hpresent.
Qed.

(** X1.  The token the authentication middlewares read from an
    [Authorization] header is the second of its space-separated pieces.
    For a header made of a scheme word, one space and a non-empty token
    without spaces it is that token, whatever the scheme word is (the
    word is not compared with ["Bearer"]); and when more pieces follow,
    they are dropped. *)
Theorem bearer_header_token (scheme token more : string) :
  spaceFree scheme = true →
  spaceFree token = true →
  token ≠ "" →
  present (bearerToken (Some (scheme +:+ " " +:+ token))) = Some token
  ∧ present (bearerToken (Some (scheme +:+ " " +:+ token +:+ " " +:+ more))) = Some token.
Proof.
  intros Hscheme Htoken Hne.
  assert (Hnonempty : ∀ rest, String.eqb (scheme +:+ String Ascii.Space rest) "" = false).
  { intros rest. by destruct scheme. }
  assert (Hpresent : present (Some token) = Some token).
  { simpl. apply String.eqb_neq in Hne. by rewrite Hne. }
  split.
  - unfold bearerToken. change (" " +:+ token) with (String Ascii.Space token).
    rewrite Hnonempty. unfold split_space.
    rewrite (split_space_aux_word "" scheme token Hscheme).
    rewrite (split_space_aux_free "" token Htoken). exact Hpresent.
  - unfold bearerToken.
    change (" " +:+ token +:+ " " +:+ more)
      with (String Ascii.Space (token +:+ String Ascii.Space more)).
    rewrite Hnonempty. unfold split_space.
    rewrite (split_space_aux_word "" scheme _ Hscheme).
    rewrite (split_space_aux_word "" token more Htoken). exact Hpresent.
Qed.

Lemma bearer_header_token_witness :
  spaceFree "Basic" = true ∧ spaceFree "abc.def.ghi" = true ∧ "abc.def.ghi" ≠ ""
  ∧ present (bearerToken (Some ("Basic" +:+ " " +:+ "abc.def.ghi"))) = Some "abc.def.ghi".
Proof.
  split; [reflexivity |]. split; [reflexivity |]. split; [discriminate |].
  apply (bearer_header_token "Basic" "abc.def.ghi" "" eq_refl eq_refl). discriminate.
Defined.

(** ** The role middleware and the test script *)

(** The role middleware in one formula. *)
Lemma requireRole_closed_form (roles : list string) (req : Request) :
  Rbac.requireRole roles req
  = if includes roles (get "role" (effectiveRequester req))
    then Next (with_user (Some (effectiveRequester req)) req)
    else Respond (if strict_eq (get "role" (effectiveRequester req)) (VStr "guest")
                  then Rbac.AuthenticationRequired req
                  else Rbac.InsufficientRole roles req).
Proof.
  unfold Rbac.requireRole, effectiveRequester.
  destruct (user req) as [u|] eqn:Hu; simpl; rewrite ?Hu; simpl.
  - rewrite (with_user_same _ _ Hu).
    destruct (strict_eq (get "role" u) (VStr "guest")) eqn:Hg.
    + apply strict_eq_VStr_r in Hg. rewrite Hg.
      by destruct (includes roles (VStr "guest")).
    + by destruct (includes roles (get "role" u)).
  - change (strict_eq (get "role" guest) (VStr "guest")) with true.
    change (get "role" guest) with (VStr "guest"). simpl.
    by destruct (includes roles (VStr "guest")).
Qed.

(** X2.  The role middleware hands a request on exactly when the required
    roles include the role of the effective requester, which is the
    predicate the RBAC test script checks; the request it hands on carries
    the effective requester as [req.user], so a handler behind it always
    finds one.  A refusal is 401 for the guest and 403 for anyone else.
    All rows of the script's role table and ownership table come out as
    the script expects, and the ownership rows agree with the check the
    chain applies. *)
Theorem requireRole_allows_iff_includes (roles : list string) (req : Request) :
  let requester := effectiveRequester req in
  ((∃ req', Rbac.requireRole roles req = Next req')
     ↔ includes roles (get "role" requester) = true)
  ∧ (∀ req', Rbac.requireRole roles req = Next req' → user req' = Some requester)
  ∧ (∀ res, Rbac.requireRole roles req = Respond res →
       status res = if strict_eq (get "role" requester) (VStr "guest") then 401 else 403)
  ∧ forallb RbacTest.rolePasses RbacTest.testCases = true
  ∧ forallb RbacTest.ownershipPasses RbacTest.ownershipTests = true
  ∧ Forall (fun row => Rbac.testOwnership row.1 RbacTest.testEvent
                       = negb (Rbac.ownershipDenied row.1 RbacTest.testEvent))
           RbacTest.ownershipTests.
Proof.
  cbv zeta. pose proof (requireRole_closed_form roles req) as Hrr.
  split; [| split; [| split; [| split; [| split]]]].
  - rewrite Hrr. destruct (includes roles _); split; try done.
    + intros _. by eexists.
    + by intros [req' ?].
  - intros req' Hnext. apply requireRole_normalizes in Hnext. by subst req'.
  - intros res. rewrite Hrr. destruct (includes roles _); [discriminate |].
    intros [= <-]. destruct (strict_eq _ _).
    + unfold Rbac.AuthenticationRequired. by destruct (Rbac.isApi req).
    + unfold Rbac.InsufficientRole. by destruct (Rbac.isApi req).
  - vm_compute. reflexivity.
  - vm_compute. reflexivity.
  - repeat constructor.
Qed.

(** ** Sessions: from login to the middlewares *)

Section Sessions.
Context `{RT : !Runtime}.

(** X3.  A token that [login] issued, carried as the bearer token of a
    request before it expires, is accepted by all three authentication
    middlewares: the request goes on with the decoded assertion as
    [req.user] (the tolerant middleware also puts it in
    [res.locals.user]), the assertion carries the role and email of the
    user, and the role middleware then lets the request pass exactly when
    the user's role is among the required roles. *)
Theorem session_accepted_before_expiry (email password : Value) (now t : Z)
    (w w' : World) (token : string) (out : Doc) (req : Request) :
  (∀ j, decodeJws (encodeJws j) = Some j) →
  UserService.login email password now w = (Ok (token, out), w') →
  present (bearerToken (authorization req)) = Some token →
  t < expiryOf now →
  ∃ decoded,
    (∀ w0, AuthMiddleware.isAuthenticated req t w0
           = (Ok (Next (with_users (Some decoded) req)), w0))
    ∧ (∀ w0, AuthRoutes.authenticateToken req t w0
             = (Ok (Next (with_user (Some decoded) req)), w0))
    ∧ Rbac.authenticateToken req t = Next (with_user (Some decoded) req)
    ∧ get "role" decoded = jsonImage (get "role" out)
    ∧ get "email" decoded = jsonImage (get "email" out)
    ∧ (∀ roles r, get "role" out = VStr r →
         ((∃ req', Rbac.requireRole roles (with_users (Some decoded) req) = Next req')
            ↔ r ∈ roles)).
Proof.
  intros Hcodec Hlogin Hheader Ht.
  destruct (login_ok _ _ _ _ _ _ _ Hlogin) as (stored & _ & -> & ->).
  assert (Hjwt : Jwt.verify (Jwt.sign (<["id" := get "_id" stored]>
                                        (<["email" := get "email" stored]>
                                        (<["role" := get "role" stored]> ∅)))
                              JWT_SECRET now) JWT_SECRET t
                 = inr (jsonClone (<["exp" := VNum (Jwt.seconds now + 86400)]>
                                   (<["iat" := VNum (Jwt.seconds now)]>
                                   (<["id" := get "_id" stored]>
                                   (<["email" := get "email" stored]>
                                   (<["role" := get "role" stored]> ∅))))))).
  { apply sign_verify; [done |]. by apply seconds_before. }
  eexists.
  assert (Hout : ∀ k, k ≠ "password" →
            get k (UserService.withoutPassword stored) = get k stored).
  { intros k Hk. unfold get, UserService.withoutPassword. by rewrite lookup_delete_ne. }
  split; [| split; [| split; [| split; [| split]]]].
  - intros w0. unfold AuthMiddleware.isAuthenticated. rewrite Hheader.
    unfold try_catch, bind. by rewrite (verifyToken_ok _ _ _ _ Hjwt).
  - intros w0. unfold AuthRoutes.authenticateToken. rewrite Hheader.
    unfold try_catch, bind. by rewrite (verifyToken_ok _ _ _ _ Hjwt).
  - unfold Rbac.authenticateToken. by rewrite Hheader, Hjwt.
  - rewrite get_jsonClone, Hout by done. unfold get at 2. by simplify_map_eq.
  - rewrite get_jsonClone, Hout by done. unfold get at 2. by simplify_map_eq.
  - intros roles r Hr. rewrite requireRole_closed_form.
    change (effectiveRequester (with_users (Some ?d) req)) with d.
    rewrite get_jsonClone. unfold get at 1. simplify_map_eq.
    rewrite Hout in Hr by done. rewrite Hr.
    change (jsonImage (VStr r)) with (VStr r).
    rewrite <- includes_literal.
    destruct (includes roles (VStr r)); split; try done.
    + intros _. by eexists.
    + by intros [req' ?].
Qed.

(** X4.  The same token at or after its expiry, 24 hours after the second
    of issue, no longer identifies anyone: [verifyToken] throws 'Invalid or
    expired token' with status 401, the tolerant middleware goes on with
    the guest, the router's middleware answers 403, and an action whose
    required roles leave out the guest answers 401. *)
Theorem session_lapses_at_expiry (email password : Value) (now t : Z)
    (w w' : World) (token : string) (out : Doc) (req : Request) :
  (∀ j, decodeJws (encodeJws j) = Some j) →
  UserService.login email password now w = (Ok (token, out), w') →
  present (bearerToken (authorization req)) = Some token →
  expiryOf now ≤ t →
  (∀ w0, UserService.verifyToken token t w0
         = (Throw (AppError "Invalid or expired token" 401), w0))
  ∧ (∀ w0, AuthMiddleware.isAuthenticated req t w0
           = (Ok (Next (with_users (Some guest) req)), w0))
  ∧ (∀ w0, AuthRoutes.authenticateToken req t w0
           = (Ok (Respond (json_message 403 "Invalid or expired token")), w0))
  ∧ (∀ roles, "guest" ∉ roles →
       Rbac.requireRole roles (with_users (Some guest) req)
       = Respond (Rbac.AuthenticationRequired req)).
Proof.
  intros Hcodec Hlogin Hheader Ht.
  destruct (login_ok _ _ _ _ _ _ _ Hlogin) as (stored & _ & _ & ->).
  assert (Hjwt : Jwt.verify (Jwt.sign (<["id" := get "_id" stored]>
                                        (<["email" := get "email" stored]>
                                        (<["role" := get "role" stored]> ∅)))
                              JWT_SECRET now) JWT_SECRET t = inl Jwt.Expired).
  { apply sign_verify_expired; [done |]. unfold expiryOf, Jwt.seconds in *.
    apply Z.div_le_lower_bound; lia. }
  split; [| split; [| split]].
  - intros w0. by eapply verifyToken_fails.
  - intros w0. unfold AuthMiddleware.isAuthenticated. rewrite Hheader.
    unfold try_catch, bind. by rewrite (verifyToken_fails _ _ _ _ Hjwt).
  - intros w0. unfold AuthRoutes.authenticateToken. rewrite Hheader.
    unfold try_catch, bind. by rewrite (verifyToken_fails _ _ _ _ Hjwt).
  - intros roles Hout. rewrite requireRole_closed_form.
    change (effectiveRequester (with_users (Some guest) req)) with guest.
    change (get "role" guest) with (VStr "guest").
    apply includes_literal_false in Hout. by rewrite Hout.
Qed.

End Sessions.

Lemma sampleSession_token :
  present (bearerToken (authorization sampleSession)) = Some sampleToken.
Proof.
  assert (Hfree : spaceFree sampleToken = true) by (vm_compute; reflexivity).
  assert (Hne : negb (String.eqb sampleToken "") = true) by (vm_compute; reflexivity).
  apply negb_true_iff, String.eqb_neq in Hne.
  exact (bearerToken_of_header "Bearer" sampleToken eq_refl Hfree Hne).
Qed.

Lemma sampleLogin :
  @UserService.login sampleRuntime (VStr "alice@campus.edu") (VStr "secret") 0 sampleWorld
  = (Ok (sampleToken, UserService.withoutPassword sampleUser),
     set_log (fun l => l ++ [(LInfo, "User logged in successfully")]) sampleWorld).
Proof.
  apply (@login_succeeds sampleRuntime (VStr "alice@campus.edu") "secret"
           "$2b$10$secret" 0 sampleWorld sampleUser eq_refl eq_refl eq_refl).
Qed.

(** The sample account one millisecond before its session ends. *)
Lemma session_accepted_before_expiry_witness :
  @UserService.login sampleRuntime (VStr "alice@campus.edu") (VStr "secret") 0 sampleWorld
  = (Ok (sampleToken, UserService.withoutPassword sampleUser),
     set_log (fun l => l ++ [(LInfo, "User logged in successfully")]) sampleWorld)
  ∧ present (bearerToken (authorization sampleSession)) = Some sampleToken
  ∧ 86399999 < expiryOf 0
  ∧ ∃ decoded,
      @AuthMiddleware.isAuthenticated sampleRuntime sampleSession 86399999 sampleWorld
      = (Ok (Next (with_users (Some decoded) sampleSession)), sampleWorld)
      ∧ get "role" decoded = VStr "organizer".
Proof.
  split; [exact sampleLogin |]. split; [exact sampleSession_token |].
  split; [reflexivity |].
  destruct (@session_accepted_before_expiry sampleRuntime _ _ 0 86399999 _ _ _ _
              sampleSession sampleRuntime_codec sampleLogin sampleSession_token eq_refl)
    as (decoded & Hauth & _ & _ & Hrole & _).
  exists decoded. split; [apply Hauth |]. rewrite Hrole. reflexivity.
Defined.

(** The sample account at the instant its session ends. *)
Lemma session_lapses_at_expiry_witness :
  @UserService.login sampleRuntime (VStr "alice@campus.edu") (VStr "secret") 0 sampleWorld
  = (Ok (sampleToken, UserService.withoutPassword sampleUser),
     set_log (fun l => l ++ [(LInfo, "User logged in successfully")]) sampleWorld)
  ∧ present (bearerToken (authorization sampleSession)) = Some sampleToken
  ∧ expiryOf 0 ≤ 86400000
  ∧ @AuthMiddleware.isAuthenticated sampleRuntime sampleSession 86400000 sampleWorld
    = (Ok (Next (with_users (Some guest) sampleSession)), sampleWorld).
Proof.
  split; [exact sampleLogin |]. split; [exact sampleSession_token |].
  split; [discriminate |].
  destruct (@session_lapses_at_expiry sampleRuntime _ _ 0 86400000 _ _ _ _
              sampleSession sampleRuntime_codec sampleLogin sampleSession_token)
    as (_ & Hauth & _); [discriminate |].
  apply Hauth.
Defined.

(** ** The store: finding, updating and removing by an equality filter *)

Lemma matches_singleton (k : string) (v : Value) (d : Doc) :
  Mongo.matches {[ k := v ]} d = true ↔ bsonValue (get k d) = bsonValue v.
Proof.
  unfold Mongo.matches. rewrite bool_decide_eq_true. by rewrite map_Forall_singleton.
Qed.

Lemma bsonValue_idemp (v : Value) : bsonValue (bsonValue v) = bsonValue v.
Proof. by destruct v. Qed.

Lemma bsonValue_truthy (v : Value) : truthy v = true → bsonValue v = v.
Proof. by destruct v. Qed.

Lemma find_field_none (k : string) (v : Value) (l : list Doc) :
  List.find (Mongo.matches {[ k := v ]}) l = None ↔ bsonValue v ∉ fieldOf k l.
Proof.
  unfold fieldOf. induction l as [|d l IH]; simpl.
  - split; [intros _; apply not_elem_of_nil | done].
  - rewrite not_elem_of_cons.
    destruct (Mongo.matches {[ k := v ]} d) eqn:Hm.
    + apply matches_singleton in Hm. split; [discriminate |]. intros [Hne _]. congruence.
    + rewrite IH. split; [| tauto]. intros Hnot. split; [| done].
      intros Heq. symmetry in Heq. apply matches_singleton in Heq. congruence.
Qed.

Lemma find_app_last (p : Doc → bool) (l : list Doc) (d : Doc) :
  List.find p l = None → p d = true → List.find p (l ++ [d]) = Some d.
Proof.
  induction l as [|x l IH]; simpl; intros Hnone Hd; [by rewrite Hd |].
  destruct (p x); [discriminate |]. by apply IH.
Qed.

Lemma existsb_find (p : Doc → bool) (l : list Doc) :
  existsb p l = bool_decide (is_Some (List.find p l)).
Proof.
  induction l as [|x l IH]; simpl; [done |].
  by destruct (p x).
Qed.

Lemma update_first_none (p : Doc → bool) (f : Doc → Doc) (l : list Doc) :
  List.find p l = None → Mongo.update_first p f l = l.
Proof.
  induction l as [|x l IH]; simpl; [done |].
  destruct (p x); [discriminate |]. intros Hnone. by rewrite IH.
Qed.

Lemma remove_first_none (p : Doc → bool) (l : list Doc) :
  List.find p l = None → Mongo.remove_first p l = l.
Proof.
  induction l as [|x l IH]; simpl; [done |].
  destruct (p x); [discriminate |]. intros Hnone. by rewrite IH.
Qed.

(** Updating the first match splits the list around it. *)
Lemma update_first_some (p : Doc → bool) (f : Doc → Doc) (l : list Doc) (d : Doc) :
  List.find p l = Some d →
  ∃ l1 l2, l = l1 ++ d :: l2 ∧ List.find p l1 = None
           ∧ Mongo.update_first p f l = l1 ++ f d :: l2
           ∧ Mongo.remove_first p l = l1 ++ l2.
Proof.
  induction l as [|x l IH]; simpl; [discriminate |].
  destruct (p x) eqn:Hx.
  - intros [= ->]. by exists [], l.
  - intros Hfind. destruct (IH Hfind) as (l1 & l2 & -> & Hnone & Hup & Hrm).
    exists (x :: l1), l2. simpl. rewrite Hx, Hup, Hrm. done.
Qed.

(** A field the update does not name keeps its value in every document. *)
Lemma update_first_keeps (p : Doc → bool) (upd : Doc) (k : string) (l : list Doc) :
  upd !! k = None →
  get k <$> Mongo.update_first p (fun d => bson upd ∪ d) l = get k <$> l.
Proof.
  intros Hk. induction l as [|x l IH]; [done |].
  cbn [Mongo.update_first]. destruct (p x); rewrite !fmap_cons; [| by rewrite IH].
  f_equal. unfold get, bson. rewrite lookup_union_r; [done |].
  by rewrite lookup_fmap, Hk.
Qed.

Lemma update_first_length (p : Doc → bool) (f : Doc → Doc) (l : list Doc) :
  List.length (Mongo.update_first p f l) = List.length l.
Proof. induction l as [|x l IH]; simpl; [done |]. destruct (p x); simpl; by rewrite ?IH. Qed.


Lemma set_events_same (w : World) (f : list Doc → list Doc) :
  f (events w) = events w → set_events f w = w.
Proof. destruct w; unfold set_events; simpl. by intros ->. Qed.

Lemma set_registrations_same (w : World) (f : list Doc → list Doc) :
  f (registrations w) = registrations w → set_registrations f w = w.
Proof. destruct w; unfold set_registrations; simpl. by intros ->. Qed.

(** ** Accounts: registering, logging in, updating and deleting *)

Section AccountLife.
Context `{RT : !Runtime}.

(** What a successful [register] did. *)
Lemma register_ok_inv (userData : Doc) (now : Z) (w w' : World) (u : Doc) :
  UserService.register userData now w = (Ok u, w') →
  ∃ p account,
    get "password" userData = VStr p
    ∧ List.find (Mongo.matches {[ "email" := get "email" userData ]}) (users w) = None
    ∧ users w' = users w ++ [account]
    ∧ get "email" account = bsonValue (get "email" userData)
    ∧ get "password" account = VStr (bcrypt_hash p)
    ∧ get "role" account = js_or (get "role" userData) (VStr "student")
    ∧ get "_id" account = VId (next_oid w)
    ∧ get "_id" u = VId (next_oid w)
    ∧ get "email" u = get "email" userData
    ∧ get "role" u = js_or (get "role" userData) (VStr "student").
Proof.
  unfold UserService.register, Mongo.findOne, UserService.bcryptHash. run.
  destruct (List.find _ (users w)) eqn:Hfind; simpl; [discriminate |].
  destruct (get "password" userData) as [| | | |p| | |] eqn:Hpw; simpl; try discriminate.
  match goal with
  | |- context [Mongo.insertOne ?c ?d ?w0] =>
      destruct (insertOne_ok c d w0) as (id & w1 & -> & Hcore & _ & _ & _ & Hid)
  end.
  assert (Hnoid : bsonValue (get "_id"
            (<["name" := get "name" userData]>
             (<["email" := get "email" userData]>
             (<["password" := VStr (bcrypt_hash p)]>
             (<["role" := js_or (get "role" userData) (VStr "student")]>
             (<["studentId" := if strict_eq (get "role" userData) (VStr "student")
                               then get "studentId" userData else VNull]>
             (<["createdAt" := VDate now]>
             (<["updatedAt" := VDate now]> (∅ : Doc))))))))) = VNull) by done.
  rewrite Hnoid in Hid. simpl in Hid. subst id.
  injection Hcore as Hu _ _ _ _ _.
  intros [= <- <-]. exists p. eexists. simpl. rewrite Hu.
  split; [done |]. split; [done |]. split; [reflexivity |].
  destruct (js_or_student (get "role" userData)) as [Htruthy _].
  split; [by erewrite get_bson; [| by simplify_map_eq] |].
  split; [by erewrite get_bson; [| by simplify_map_eq] |].
  split.
  { erewrite get_bson; [| by simplify_map_eq]. by apply bsonValue_truthy. }
  split; [by erewrite get_bson; [| by simplify_map_eq] |].
  unfold get, UserService.withoutPassword. by simplify_map_eq.
Qed.

(** X5.  [register] keeps emails unique.  When a stored user already has
    the email (as the store compares values), it throws 'User with this
    email already exists' with status 409 and changes nothing, and the
    registration route answers 409 for an otherwise valid request; and
    whatever [register] does, users that had pairwise different emails
    still have. *)
Theorem register_keeps_emails_unique (userData : Doc) (now : Z) (w : World)
    (req : Request) :
  uniqueEmails w →
  uniqueEmails (UserService.register userData now w).2
  ∧ (bsonValue (get "email" userData) ∈ fieldOf "email" (users w) →
       UserService.register userData now w
       = (Throw (AppError "User with this email already exists" 409), w))
  ∧ (bsonValue (get "email" (body req)) ∈ fieldOf "email" (users w) →
     truthy (get "name" (body req)) = true →
     truthy (get "email" (body req)) = true →
     truthy (get "password" (body req)) = true →
     get "role" (body req) = VStr "organizer" →
       AuthRoutes.postRegister req now w
       = (Ok (json_message 409 "User with this email already exists"), w)).
Proof.
  intros Huniq.
  assert (Hdup : ∀ data, bsonValue (get "email" data) ∈ fieldOf "email" (users w) →
    UserService.register data now w
    = (Throw (AppError "User with this email already exists" 409), w)).
  { intros data Hin.
    destruct (List.find (Mongo.matches {[ "email" := get "email" data ]}) (users w))
      eqn:Hfind; [| by apply find_field_none in Hfind].
    unfold UserService.register, Mongo.findOne. run. by rewrite Hfind. }
  split; [| split].
  - destruct (UserService.register userData now w) as [[u|e] w'] eqn:Hreg; simpl.
    + destruct (register_ok_inv _ _ _ _ _ Hreg)
        as (p & account & _ & Hfind & Husers & Hemail & _).
      unfold uniqueEmails, fieldOf. rewrite Husers, fmap_app. simpl.
      apply list.NoDup_app. split; [exact Huniq |].
      split; [| apply NoDup_singleton].
      intros v Hv Hlast. apply list_elem_of_singleton in Hlast. subst v.
      rewrite Hemail, bsonValue_idemp in Hv.
      by apply find_field_none in Hfind.
    + destruct (register_cases userData now w)
        as [Heq | [(w1 & Heq & Hdom) | (u & account & w1 & Heq & _)]];
        rewrite Heq in Hreg; try discriminate.
      * by injection Hreg as _ <-.
      * injection Hreg as _ <-. unfold uniqueEmails.
        injection Hdom as -> _ _ _. exact Huniq.
  - apply Hdup.
  - intros Hin Hname Hemail Hpw Hrole.
    rewrite postRegister_cases. cbv zeta. rewrite Hname, Hemail, Hpw, Hrole. simpl.
    rewrite Hdup; [done |].
    assert (Heq : get "email" (AuthRoutes.userDataOf (body req)) = get "email" (body req)).
    { unfold AuthRoutes.userDataOf, get at 1. by simplify_map_eq. }
    by rewrite Heq.
Qed.

End AccountLife.

(** Registering the sample account's email once more. *)
Lemma register_keeps_emails_unique_witness :
  uniqueEmails sampleWorld
  ∧ @UserService.register sampleRuntime
      (<["email" := VStr "alice@campus.edu"]> {[ "password" := VStr "other" ]}) 3 sampleWorld
    = (Throw (AppError "User with this email already exists" 409), sampleWorld).
Proof.
  assert (Huniq : uniqueEmails sampleWorld).
  { unfold uniqueEmails. vm_compute. apply NoDup_singleton. }
  split; [exact Huniq |].
  apply (@register_keeps_emails_unique sampleRuntime _ 3 sampleWorld anonymousUpdate Huniq).
  vm_compute. apply list_elem_of_here.
Defined.

Section Credentials.
Context `{RT : !Runtime}.

(** [register] succeeds when no stored user has the email and the
    password is a string. *)
Lemma register_succeeds (userData : Doc) (now : Z) (w : World) (p : string) :
  List.find (Mongo.matches {[ "email" := get "email" userData ]}) (users w) = None →
  get "password" userData = VStr p →
  ∃ u w', UserService.register userData now w = (Ok u, w').
Proof.
  intros Hfind Hpw.
  unfold UserService.register, Mongo.findOne, UserService.bcryptHash. run.
  rewrite Hfind, Hpw. simpl.
  match goal with
  | |- context [Mongo.insertOne ?c ?d ?w0] =>
      destruct (insertOne_ok c d w0) as (id & w1 & -> & _)
  end.
  by eexists _, _.
Qed.

(** X6.  Who registered can log in: after a successful [register], a
    [login] with the same email and password succeeds at any later instant
    (the hashing library accepting the hashes it made), and the user it
    answers is the registered one, under the same id, without the
    password. *)
Theorem register_then_login (userData : Doc) (now later : Z) (w w' : World) (u : Doc) :
  (∀ p, bcrypt_compare p (bcrypt_hash p) = true) →
  UserService.register userData now w = (Ok u, w') →
  ∃ token out,
    UserService.login (get "email" userData) (get "password" userData) later w'
    = (Ok (token, out),
       set_log (fun l => l ++ [(LInfo, "User logged in successfully")]) w')
    ∧ get "_id" out = get "_id" u
    ∧ get "email" out = bsonValue (get "email" userData)
    ∧ get "role" out = get "role" u
    ∧ hidesPassword out.
Proof.
  intros Hbcrypt Hreg.
  destruct (register_ok_inv _ _ _ _ _ Hreg)
    as (p & account & Hpw & Hfind & Husers & Hemail & Hhash & Hrole & Hid & Huid & _ & Hurole).
  assert (Hfound : List.find (Mongo.matches {[ "email" := get "email" userData ]}) (users w')
                   = Some account).
  { rewrite Husers. apply find_app_last; [done |].
    apply matches_singleton. by rewrite Hemail, bsonValue_idemp. }
  rewrite Hpw.
  eexists _, _. split.
  { apply (login_succeeds _ p (bcrypt_hash p) later w' account Hfound Hhash (Hbcrypt p)). }
  assert (Hout : ∀ k, k ≠ "password" →
            get k (UserService.withoutPassword account) = get k account).
  { intros k Hk. unfold get, UserService.withoutPassword. by rewrite lookup_delete_ne. }
  rewrite !Hout by done. rewrite Hid, Huid, Hemail, Hrole, Hurole.
  repeat split; try done. apply withoutPassword_hides.
Qed.

End Credentials.

(** Registering through the service and logging in, at the sample runtime. *)
Lemma register_then_login_witness :
  (∀ p, @bcrypt_compare sampleRuntime p (@bcrypt_hash sampleRuntime p) = true)
  ∧ ∃ u w',
      @UserService.register sampleRuntime
        (<["email" := VStr "erin@campus.edu"]> {[ "password" := VStr "pw" ]}) 3 emptyWorld
      = (Ok u, w')
      ∧ ∃ token out w'',
          @UserService.login sampleRuntime (VStr "erin@campus.edu") (VStr "pw") 4 w'
          = (Ok (token, out), w'')
          ∧ get "email" out = VStr "erin@campus.edu".
Proof.
  assert (Hbcrypt : ∀ p, @bcrypt_compare sampleRuntime p (@bcrypt_hash sampleRuntime p) = true).
  { intros p. simpl. apply String.eqb_refl. }
  split; [exact Hbcrypt |].
  assert (Hpw : get "password"
                  (<["email" := VStr "erin@campus.edu"]> {[ "password" := VStr "pw" ]} : Doc)
                = VStr "pw") by reflexivity.
  destruct (@register_succeeds sampleRuntime
              (<["email" := VStr "erin@campus.edu"]> {[ "password" := VStr "pw" ]} : Doc)
              3 emptyWorld "pw" eq_refl Hpw)
    as (u & w' & Hreg).
  exists u, w'. split; [exact Hreg |].
  destruct (@register_then_login sampleRuntime _ 3 4 _ _ _ Hbcrypt Hreg)
    as (token & out & Hlogin & _ & Hemail & _).
  eexists token, out, _. split; [exact Hlogin |]. rewrite Hemail. reflexivity.
Defined.

Section AccountChanges.
Context `{RT : !Runtime}.

Lemma find_app_none (p : Doc → bool) (l1 l2 : list Doc) :
  List.find p (l1 ++ l2) = None ↔ List.find p l1 = None ∧ List.find p l2 = None.
Proof.
  induction l1 as [|x l1 IH]; simpl; [split; [done | by intros [_ ?]] |].
  destruct (p x); [split; [discriminate | by intros [? _]] | done].
Qed.

(** In a list with pairwise different ids, nothing but the first match has
    the id of the first match. *)
Lemma unique_id_elsewhere (v : Value) (l1 l2 : list Doc) (d : Doc) :
  uniqueIds (l1 ++ d :: l2) →
  Mongo.matches {[ "_id" := v ]} d = true →
  List.find (Mongo.matches {[ "_id" := v ]}) (l1 ++ l2) = None.
Proof.
  unfold uniqueIds, fieldOf. rewrite fmap_app, fmap_cons.
  intros Huniq Hd. apply matches_singleton in Hd.
  apply list.NoDup_app in Huniq as (_ & Hdisj & Hright).
  apply list.NoDup_cons in Hright as [Hnot _].
  apply find_app_none. split; apply find_field_none; unfold fieldOf; rewrite <- Hd.
  - intros Hin. apply (Hdisj _ Hin). apply list_elem_of_here.
  - exact Hnot.
Qed.

(** X9.  A successful [deleteUser] removed exactly one user, the first one
    with the id, and nothing else in the store; and when the ids of the
    users were pairwise different, the id is gone: [getUserById] then
    throws 'User not found' with status 404. *)
Theorem deleteUser_removes_one (userId : Value) (w w' : World) (n : Z) :
  UserService.deleteUser userId w = (Ok n, w') →
  n = 1
  ∧ (∃ l1 d l2,
        users w = l1 ++ d :: l2 ∧ users w' = l1 ++ l2
        ∧ bsonValue (get "_id" d) = bsonValue (ObjectId_new userId))
  ∧ events w' = events w ∧ registrations w' = registrations w ∧ feedback w' = feedback w
  ∧ (uniqueIds (users w) →
       (UserService.getUserById userId w').1 = Throw (AppError "User not found" 404)).
Proof.
  unfold UserService.deleteUser, Mongo.deleteOne. run.
  destruct (ObjectId_isValid_value userId) eqn:Hvalid; simpl; [| discriminate].
  rewrite existsb_find.
  destruct (List.find _ (users w)) as [d|] eqn:Hfind; simpl; [| discriminate].
  intros [= <- <-]. simpl.
  destruct (update_first_some _ (fun d => d) _ _ Hfind) as (l1 & l2 & Hl & Hnone & _ & Hrm).
  pose proof (find_some _ _ Hfind) as [_ Hd].
  split; [done |]. split.
  { exists l1, d, l2. split; [done |]. split; [done |]. by apply matches_singleton. }
  do 3 (split; [done |]).
  intros Huniq. unfold UserService.getUserById, Mongo.findOne. run.
  rewrite Hvalid. simpl. rewrite Hrm.
  rewrite Hl in Huniq. by rewrite (unique_id_elsewhere _ _ _ _ Huniq Hd).
Qed.

End AccountChanges.

(** Deleting the sample account. *)
Lemma deleteUser_removes_one_witness :
  UserService.deleteUser (VStr "000000000000000000000007") sampleWorld
  = (Ok 1, set_log (fun l => l ++ [(LInfo, "User deleted successfully")])
             (set_users (fun _ => []) sampleWorld))
  ∧ users (set_log (fun l => l ++ [(LInfo, "User deleted successfully")])
             (set_users (fun _ => []) sampleWorld)) = [].
Proof.
  assert (Hrun : UserService.deleteUser (VStr "000000000000000000000007") sampleWorld
    = (Ok 1, set_log (fun l => l ++ [(LInfo, "User deleted successfully")])
               (set_users (fun _ => []) sampleWorld)))
    by (vm_compute; reflexivity).
  split; [exact Hrun |].
  destruct (deleteUser_removes_one _ _ _ _ Hrun) as (_ & (l1 & d & l2 & _ & Husers & _) & _).
  reflexivity.
Defined.

Section LoginFailures.
Context `{RT : !Runtime}.

(** X7.  A failed login does not tell why.  For an email that the store
    compares by equality: when no stored user has it, and when the stored
    user's hash does not match the password, [login] throws the same
    'Invalid credentials' with status 401 and changes nothing, and the
    login route answers both with the same 401 response. *)
Theorem login_failures_alike (email : Value) (password : string) (now : Z) (w : World)
    (req : Request) :
  Mongo.equalityOn "email" email (users w) = true →
  (List.find (Mongo.matches {[ "email" := email ]}) (users w) = None
   ∨ ∃ stored hash,
       List.find (Mongo.matches {[ "email" := email ]}) (users w) = Some stored
       ∧ get "password" stored = VStr hash
       ∧ bcrypt_compare password hash = false) →
  UserService.login email (VStr password) now w
  = (Throw (AppError "Invalid credentials" 401), w)
  ∧ (get "email" (body req) = email → truthy email = true →
     get "password" (body req) = VStr password → password ≠ "" →
     AuthRoutes.postLogin req now w
     = (Ok (json_message 401 "Invalid credentials"), w)).
Proof.
  intros _ Hcase.
  assert (Hlogin : UserService.login email (VStr password) now w
                   = (Throw (AppError "Invalid credentials" 401), w)).
  { unfold UserService.login, Mongo.findOne, UserService.bcryptCompare. run.
    destruct Hcase as [-> | (stored & hash & -> & Hpw & Hno)]; [done |].
    by rewrite Hpw, Hno. }
  split; [exact Hlogin |].
  intros Hemail Htruthy Hpw Hne.
  rewrite postLogin_cases. cbv zeta. rewrite Hemail, Hpw, Htruthy, Hlogin. simpl.
  apply String.eqb_neq in Hne. by rewrite Hne.
Qed.

End LoginFailures.

(** A wrong password for the sample account, and an email nobody has: the
    same refusal. *)
Lemma login_failures_alike_witness :
  @UserService.login sampleRuntime (VStr "alice@campus.edu") (VStr "guess") 0 sampleWorld
  = (Throw (AppError "Invalid credentials" 401), sampleWorld)
  ∧ @UserService.login sampleRuntime (VStr "nobody@campus.edu") (VStr "guess") 0 sampleWorld
    = (Throw (AppError "Invalid credentials" 401), sampleWorld).
Proof.
  split.
  - apply (@login_failures_alike sampleRuntime (VStr "alice@campus.edu") "guess" 0 sampleWorld
             anonymousUpdate eq_refl).
    right. exists sampleUser, "$2b$10$secret". split; [reflexivity |]. split; reflexivity.
  - apply (@login_failures_alike sampleRuntime (VStr "nobody@campus.edu") "guess" 0 sampleWorld
             anonymousUpdate eq_refl).
    left. reflexivity.
Defined.

Section AccountUpdates.
Context `{RT : !Runtime}.


End AccountUpdates.


(** ** Events: reading through the cache, updating, deleting *)

Section Events.
Context `{RT : !Runtime}.


(** [getEventById], case by case. *)
Lemma getEventById_cases (eventId : Value) (w : World) :
  EventService.getEventById eventId w
  = if negb (ObjectId_isValid_value eventId)
    then (Throw (AppError "Invalid event ID" 400), w)
    else match cache w !! ("event_" +:+ idString eventId) with
         | Some event => (Ok event, w)
         | None =>
             match List.find (Mongo.matches {[ "_id" := ObjectId_new eventId ]}) (events w) with
             | Some event =>
                 (Ok event,
                  set_cache (fun c => <["event_" +:+ idString eventId := jsonClone event]> c) w)
             | None => (Throw (AppError "Event not found" 404), w)
             end
         end.
Proof.
  unfold EventService.getEventById, Mongo.findOne, Cache.get, Cache.set. run.
  destruct (ObjectId_isValid_value eventId); simpl; [| done].
  destruct (cache w !! _); simpl; [done |].
  by destruct (List.find _ (events w)).
Qed.

(** X10.  [getEventById] reads through the cache.  A first read of a
    stored event answers the stored document and caches its JSON image
    under the event's key; from then on, as long as that cache entry
    stands, a read answers the JSON image (an ObjectId as its hexadecimal
    string) without consulting the store, and leaves the world as it is. *)
Theorem getEventById_reads_through_cache (eventId : Value) (w : World) (event : Doc) :
  ObjectId_isValid_value eventId = true →
  cache w !! ("event_" +:+ idString eventId) = None →
  List.find (Mongo.matches {[ "_id" := ObjectId_new eventId ]}) (events w) = Some event →
  ∃ w1,
    EventService.getEventById eventId w = (Ok event, w1)
    ∧ cache w1 !! ("event_" +:+ idString eventId) = Some (jsonClone event)
    ∧ domain w1 = domain w
    ∧ (∀ w2, cache w2 !! ("event_" +:+ idString eventId) = Some (jsonClone event) →
         EventService.getEventById eventId w2 = (Ok (jsonClone event), w2))
    ∧ (∀ n, get "_id" event = VId n →
         get "_id" (jsonClone event) = VStr (toHexString n)).
Proof.
  intros Hvalid Hmiss Hfind. eexists. split.
  { rewrite getEventById_cases, Hvalid, Hmiss, Hfind. reflexivity. }
  split; [simpl; by rewrite lookup_insert_eq |]. split; [done |]. split.
  - intros w2 Hhit. by rewrite getEventById_cases, Hvalid, Hhit.
  - intros n Hid. rewrite get_jsonClone, Hid. done.
Qed.

End Events.

(** Reading the sample event twice. *)
Lemma getEventById_reads_through_cache_witness :
  ∃ w1,
    @EventService.getEventById sampleRuntime (VStr sampleEventId) sampleWorld = (Ok sampleEvent, w1)
    ∧ @EventService.getEventById sampleRuntime (VStr sampleEventId) w1 = (Ok (@jsonClone sampleRuntime sampleEvent), w1).
Proof.
  assert (H1 : ObjectId_isValid_value (VStr sampleEventId) = true) by (vm_compute; reflexivity).
  assert (H2 : cache sampleWorld !! ("event_" +:+ idString (VStr sampleEventId)) = None)
    by (vm_compute; reflexivity).
  assert (H3 : List.find (Mongo.matches {[ "_id" := ObjectId_new (VStr sampleEventId) ]})
                 (events sampleWorld) = Some sampleEvent) by (vm_compute; reflexivity).
  destruct (@getEventById_reads_through_cache sampleRuntime _ _ _ H1 H2 H3) as (w1 & Hrun & Hc & _ & Hnext & _).
  exists w1. split; [exact Hrun | exact (Hnext w1 Hc)].
Defined.

(** ** Events: updating *)

Section EventUpdates.
Context `{RT : !Runtime}.

(** [updateEvent], case by case. *)
Lemma updateEvent_cases (eventId : Value) (eventData : Doc) (now : Z) (w : World) :
  EventService.updateEvent eventId eventData now w
  = if negb (ObjectId_isValid_value eventId)
    then (Throw (AppError "Invalid event ID" 400), w)
    else match List.find (Mongo.matches {[ "_id" := ObjectId_new eventId ]}) (events w) with
         | Some _ =>
             (Ok 1,
              set_log (fun l => l ++ [(LInfo, "Event updated successfully")])
                (set_cache (fun _ => ∅)
                   (set_cache (fun c => delete ("event_" +:+ idString eventId) c)
                      (set_events
                         (Mongo.update_first
                            (Mongo.matches {[ "_id" := ObjectId_new eventId ]})
                            (fun d => bson (<["updatedAt" := VDate now]> eventData) ∪ d))
                         w))))
         | None => (Throw (AppError "Event not found" 404), w)
         end.
Proof.
  unfold EventService.updateEvent, Mongo.updateOne, Cache.del, Cache.flush. run.
  destruct (ObjectId_isValid_value eventId); simpl; [| reflexivity].
  rewrite existsb_find.
  destruct (List.find _ (events w)) eqn:Hfind; simpl; [reflexivity |].
  rewrite set_events_same by (by apply update_first_none). reflexivity.
Qed.

(** What [$set] leaves in a document. *)
Lemma set_fields (upd d : Doc) :
  (∀ k v, upd !! k = Some v → get k (bson upd ∪ d) = bsonValue v)
  ∧ (∀ k, upd !! k = None → get k (bson upd ∪ d) = get k d).
Proof.
  split.
  - intros k v Hk. unfold get, bson. erewrite lookup_union_Some_l; [reflexivity |].
    by rewrite lookup_fmap, Hk.
  - intros k Hk. unfold get, bson. rewrite lookup_union_r; [reflexivity |].
    by rewrite lookup_fmap, Hk.
Qed.


(** The data the update route hands to [updateEvent]. *)
Lemma postUpdateEvent_data (b : Doc) (now : Z) :
  let upd : Doc :=
    <["updatedAt" := VDate now]>
      (<["title" := get "title" b]>
       (<["description" := get "description" b]>
       (<["date" := get "date" b]>
       (<["time" := get "time" b]>
       (<["location" := get "location" b]>
       (<["updatedAt" := VDate now]> ∅)))))) in
  upd !! "title" = Some (get "title" b)
  ∧ upd !! "description" = Some (get "description" b)
  ∧ upd !! "date" = Some (get "date" b)
  ∧ upd !! "time" = Some (get "time" b)
  ∧ upd !! "location" = Some (get "location" b)
  ∧ upd !! "updatedAt" = Some (VDate now)
  ∧ ∀ k, k ∉ ["title"; "description"; "date"; "time"; "location"; "updatedAt"] →
         upd !! k = None.
Proof.
  cbv zeta. do 6 (split; [by simplify_map_eq |]).
  intros k Hk.
  repeat (rewrite lookup_insert_ne by (intros <-; apply Hk; set_solver)). apply lookup_empty.
Qed.

(** The update route of the server, by what the store holds. *)
Lemma postUpdateEvent_cases (req : Request) (now : Z) (w : World) :
  let id := param "eventId" req in
  let upd : Doc :=
    <["updatedAt" := VDate now]>
      (<["title" := get "title" (body req)]>
       (<["description" := get "description" (body req)]>
       (<["date" := get "date" (body req)]>
       (<["time" := get "time" (body req)]>
       (<["location" := get "location" (body req)]>
       (<["updatedAt" := VDate now]> ∅)))))) in
  (ObjectId_isValid id = true →
   ∀ d, List.find (Mongo.matches {[ "_id" := ObjectId_of id ]}) (events w) = Some d →
     (Server.postUpdateEvent req now w).1 = Ok (redirect "/organizer/my-events")
     ∧ ∃ l1 l2,
         events w = l1 ++ d :: l2
         ∧ events (Server.postUpdateEvent req now w).2 = l1 ++ (bson upd ∪ d) :: l2)
  ∧ (ObjectId_isValid id = false
     ∨ List.find (Mongo.matches {[ "_id" := ObjectId_of id ]}) (events w) = None →
     (Server.postUpdateEvent req now w).1 = Ok (render_error 500 "Error updating event")
     ∧ domain (Server.postUpdateEvent req now w).2 = domain w).
Proof.
  cbv zeta. unfold Server.postUpdateEvent, try_catch, bind.
  rewrite updateEvent_cases. cbn [ObjectId_isValid_value ObjectId_new].
  destruct (ObjectId_isValid (param "eventId" req)) eqn:Hvalid; cbn [negb].
  2: { split; [discriminate |]. intros _. split; reflexivity. }
  destruct (List.find _ (events w)) as [d|] eqn:Hfind.
  - split; [| intros [? | ?]; discriminate].
    intros _ found [= <-]. split; [reflexivity |].
    destruct (update_first_some _
                (fun d => bson (<["updatedAt" := VDate now]>
                   (<["title" := get "title" (body req)]>
                    (<["description" := get "description" (body req)]>
                    (<["date" := get "date" (body req)]>
                    (<["time" := get "time" (body req)]>
                    (<["location" := get "location" (body req)]>
                    (<["updatedAt" := VDate now]> ∅))))))) ∪ d) _ _ Hfind)
      as (l1 & l2 & Hl & _ & Hup & _).
    exists l1, l2. split; [exact Hl | exact Hup].
  - split; [intros _ d Hd; discriminate Hd |]. intros _. split; reflexivity.
Qed.

(** X12.  The update route of the server writes the title, description,
    date, time and location of the request body and the [updatedAt] stamp
    into the first event with the id of the request, and nothing else:
    every other field of every event, the organizer and the id among them,
    keeps its value, no event is added or removed, and the users,
    registrations and feedback are untouched.  For a malformed id or an id
    no event has it answers the 500 page and changes no collection. *)
Theorem postUpdateEvent_writes_six_fields (req : Request) (now : Z) (w : World) (k : string) :
  k ∉ ["title"; "description"; "date"; "time"; "location"; "updatedAt"] →
  let id := param "eventId" req in
  let out := Server.postUpdateEvent req now w in
  get k <$> events out.2 = get k <$> events w
  ∧ List.length (events out.2) = List.length (events w)
  ∧ users out.2 = users w ∧ registrations out.2 = registrations w
  ∧ feedback out.2 = feedback w
  ∧ (ObjectId_isValid id = true →
     ∀ d, List.find (Mongo.matches {[ "_id" := ObjectId_of id ]}) (events w) = Some d →
       out.1 = Ok (redirect "/organizer/my-events")
       ∧ ∃ l1 l2 d',
           events w = l1 ++ d :: l2 ∧ events out.2 = l1 ++ d' :: l2
           ∧ get "title" d' = bsonValue (get "title" (body req))
           ∧ get "description" d' = bsonValue (get "description" (body req))
           ∧ get "date" d' = bsonValue (get "date" (body req))
           ∧ get "time" d' = bsonValue (get "time" (body req))
           ∧ get "location" d' = bsonValue (get "location" (body req))
           ∧ get "updatedAt" d' = VDate now
           ∧ get k d' = get k d)
  ∧ (ObjectId_isValid id = false
     ∨ List.find (Mongo.matches {[ "_id" := ObjectId_of id ]}) (events w) = None →
     out.1 = Ok (render_error 500 "Error updating event") ∧ domain out.2 = domain w).
Proof.
  intros Hk. cbv zeta.
  destruct (postUpdateEvent_cases req now w) as [Hfound Hmissing].
  destruct (postUpdateEvent_data (body req) now)
    as (Ht & Hde & Hda & Hti & Hlo & Hup & Hother).
  split; [| split; [| split; [| split; [| split; [| split]]]]].
  - unfold Server.postUpdateEvent, try_catch, bind. rewrite updateEvent_cases.
    destruct (negb _); [reflexivity |].
    destruct (List.find _ (events w)); [| reflexivity].
    cbn [fst snd events set_log set_cache set_events].
    apply update_first_keeps. by apply Hother.
  - unfold Server.postUpdateEvent, try_catch, bind. rewrite updateEvent_cases.
    destruct (negb _); [reflexivity |].
    destruct (List.find _ (events w)); [| reflexivity].
    cbn [fst snd events set_log set_cache set_events]. apply update_first_length.
  - unfold Server.postUpdateEvent, try_catch, bind. rewrite updateEvent_cases.
    destruct (negb _); [reflexivity |]. by destruct (List.find _ (events w)).
  - unfold Server.postUpdateEvent, try_catch, bind. rewrite updateEvent_cases.
    destruct (negb _); [reflexivity |]. by destruct (List.find _ (events w)).
  - unfold Server.postUpdateEvent, try_catch, bind. rewrite updateEvent_cases.
    destruct (negb _); [reflexivity |]. by destruct (List.find _ (events w)).
  - intros Hvalid d Hfind. destruct (Hfound Hvalid d Hfind) as (Hres & l1 & l2 & Hl & Hev).
    split; [exact Hres |]. eexists l1, l2, _. split; [exact Hl |]. split; [exact Hev |].
    match goal with |- context [bson ?u ∪ d] => destruct (set_fields u d) as [Hset Hkeep] end.
    split; [by apply Hset |]. split; [by apply Hset |]. split; [by apply Hset |].
    split; [by apply Hset |]. split; [by apply Hset |].
    split; [exact (Hset "updatedAt" (VDate now) Hup) |].
    apply Hkeep. by apply Hother.
  - exact Hmissing.
Qed.

End EventUpdates.


(** The anonymous update of the sample event gives it the title of the
    request and leaves its organizer alone. *)
Lemma postUpdateEvent_writes_six_fields_witness :
  ∃ d',
    events (Server.postUpdateEvent anonymousUpdate 5 sampleWorld).2 = [d']
    ∧ get "title" d' = VStr "Cancelled"
    ∧ get "updatedAt" d' = VDate 5
    ∧ get "organizer" d' = VStr "alice@campus.edu".
Proof.
  assert (Hk : "organizer" ∉ ["title"; "description"; "date"; "time"; "location"; "updatedAt"]).
  { repeat (apply not_elem_of_cons; split; [discriminate |]). apply not_elem_of_nil. }
  destruct (postUpdateEvent_writes_six_fields anonymousUpdate 5 sampleWorld _ Hk)
    as (_ & _ & _ & _ & _ & Hfound & _).
  assert (H1 : ObjectId_isValid (param "eventId" anonymousUpdate) = true)
    by (vm_compute; reflexivity).
  assert (H2 : List.find (Mongo.matches {[ "_id" := ObjectId_of (param "eventId" anonymousUpdate) ]})
                 (events sampleWorld) = Some sampleEvent) by (vm_compute; reflexivity).
  destruct (Hfound H1 _ H2)
    as (_ & l1 & l2 & d' & Hl & Hev & Htitle & _ & _ & _ & _ & Hstamp & Horg).
  destruct l1 as [|x l1]; [| destruct l1; discriminate Hl].
  injection Hl as <-.
  exists d'. split; [exact Hev |].
  split; [rewrite Htitle; vm_compute; reflexivity |].
  split; [exact Hstamp |]. rewrite Horg. vm_compute. reflexivity.
Defined.

(** ** Events: deleting and creating *)

Section EventLife.
Context `{RT : !Runtime}.

(** [deleteEvent], case by case. *)
Lemma deleteEvent_cases (eventId : Value) (w : World) :
  EventService.deleteEvent eventId w
  = if negb (ObjectId_isValid_value eventId)
    then (Throw (AppError "Invalid event ID" 400), w)
    else match List.find (Mongo.matches {[ "_id" := ObjectId_new eventId ]}) (events w) with
         | Some _ =>
             (Ok 1,
              set_log (fun l => l ++ [(LInfo, "Event deleted successfully")])
                (set_cache (fun _ => ∅)
                   (set_cache (fun c => delete ("event_" +:+ idString eventId) c)
                      (set_events
                         (Mongo.remove_first (Mongo.matches {[ "_id" := ObjectId_new eventId ]}))
                         w))))
         | None => (Throw (AppError "Event not found" 404), w)
         end.
Proof.
  unfold EventService.deleteEvent, Mongo.deleteOne, Cache.del, Cache.flush. run.
  destruct (ObjectId_isValid_value eventId); simpl; [| reflexivity].
  rewrite existsb_find.
  destruct (List.find _ (events w)) eqn:Hfind; simpl; [reflexivity |].
  rewrite set_events_same by (by apply remove_first_none). reflexivity.
Qed.



(** [createEvent] never fails: it appends the stamped event under a fresh
    id when the data carry none. *)
Lemma createEvent_ok (eventData : Doc) (now : Z) (w : World) :
  bsonValue (get "_id" eventData) = VNull →
  let event : Doc :=
    <["_id" := VId (next_oid w)]>
      (<["updatedAt" := VDate now]> (<["createdAt" := VDate now]> eventData)) in
  EventService.createEvent eventData now w
  = (Ok event,
     set_log (fun l => l ++ [(LInfo, "Event created successfully")])
       (set_cache (fun _ => ∅)
          (set_events (fun l => l ++ [bson event])
             (set_next_oid (next_oid w + 1)%N w)))).
Proof.
  intros Hid. cbv zeta. unfold EventService.createEvent, Cache.flush, try_catch, bind.
  unfold Mongo.insertOne.
  assert (Hget : get "_id" (<["updatedAt" := VDate now]> (<["createdAt" := VDate now]> eventData))
                 = get "_id" eventData).
  { unfold get. by rewrite !lookup_insert_ne. }
  rewrite Hget.
  destruct (get "_id" eventData); try discriminate; reflexivity.
Qed.

(** X14.  Creating an event whose data carry no id stores it under the
    next fresh ObjectId, stamped with [createdAt] and [updatedAt], after
    the events already stored, and empties the cache; it cannot fail.
    When no stored event has that id yet, reading the new id back answers
    the stored event and caches its JSON image. *)
Theorem createEvent_then_read (eventData : Doc) (now : Z) (w : World) :
  bsonValue (get "_id" eventData) = VNull →
  VId (next_oid w) ∉ fieldOf "_id" (events w) →
  ∃ event w' w'',
    EventService.createEvent eventData now w = (Ok event, w')
    ∧ get "_id" event = VId (next_oid w)
    ∧ get "createdAt" event = VDate now ∧ get "updatedAt" event = VDate now
    ∧ (∀ k, k ∉ ["_id"; "createdAt"; "updatedAt"] → get k event = get k eventData)
    ∧ events w' = events w ++ [bson event]
    ∧ cache w' = ∅ ∧ next_oid w' = (next_oid w + 1)%N
    ∧ users w' = users w ∧ registrations w' = registrations w ∧ feedback w' = feedback w
    ∧ EventService.getEventById (get "_id" event) w' = (Ok (bson event), w'')
    ∧ cache w'' !! ("event_" +:+ toHexString (next_oid w)) = Some (jsonClone (bson event)).
Proof.
  intros Hid Hfresh. eexists _, _, _.
  split; [exact (createEvent_ok eventData now w Hid) |].
  set (event := <["_id" := VId (next_oid w)]> _).
  assert (Hget : get "_id" event = VId (next_oid w)).
  { unfold get, event. by rewrite lookup_insert_eq. }
  split; [exact Hget |].
  split; [unfold get, event; by rewrite lookup_insert_ne, lookup_insert_ne, lookup_insert_eq |].
  split; [unfold get, event; by rewrite lookup_insert_ne, lookup_insert_eq |].
  split.
  { intros k Hk. unfold get, event.
    rewrite !lookup_insert_ne; [reflexivity | | |]; intros <-; apply Hk; set_solver. }
  cbn [events cache next_oid users registrations feedback
       set_log set_cache set_events set_next_oid].
  do 6 (split; [reflexivity |]).
  rewrite Hget, getEventById_cases.
  cbn [ObjectId_isValid_value negb idString ObjectId_new events cache
       set_log set_cache set_events set_next_oid].
  rewrite lookup_empty.
  assert (Hm : Mongo.matches {[ "_id" := VId (next_oid w) ]} (bson event) = true).
  { apply matches_singleton.
    rewrite (get_bson "_id" event (VId (next_oid w))) by apply lookup_insert_eq.
    reflexivity. }
  rewrite find_app_last;
    [| apply (find_field_none "_id" (VId (next_oid w))); exact Hfresh | exact Hm].
  split; [reflexivity |].
  cbn [cache set_cache]. apply lookup_insert_eq.
Qed.

End EventLife.


(** Creating an event in the sample world and reading it back. *)
Lemma createEvent_then_read_witness :
  ∃ event w' w'',
    EventService.createEvent {[ "title" := VStr "Chess Night" ]} 5 sampleWorld = (Ok event, w')
    ∧ get "_id" event = VId 100
    ∧ @EventService.getEventById sampleRuntime (VId 100) w' = (Ok (bson event), w'').
Proof.
  assert (H1 : bsonValue (get "_id" ({[ "title" := VStr "Chess Night" ]} : Doc)) = VNull)
    by (vm_compute; reflexivity).
  assert (H2 : VId (next_oid sampleWorld) ∉ fieldOf "_id" (events sampleWorld)).
  { vm_compute. intros Hin. apply list_elem_of_In in Hin. simpl in Hin.
    destruct Hin as [Heq | []]. discriminate Heq. }
  destruct (@createEvent_then_read sampleRuntime _ 5 sampleWorld H1 H2)
    as (event & w' & w'' & Hrun & Hid & _ & _ & _ & _ & _ & _ & _ & _ & _ & Hread & _).
  exists event, w', w''. split; [exact Hrun |]. split; [exact Hid |].
  rewrite Hid in Hread. exact Hread.
Defined.

(** ** Refusals and the public routes *)

Section PublicRoutes.
Context `{RT : !Runtime}.

(** The delete route of the server on an event that is stored. *)
Lemma postDeleteEvent_found (req : Request) (w : World) (d : Doc) :
  ObjectId_isValid (param "eventId" req) = true →
  List.find (Mongo.matches {[ "_id" := ObjectId_of (param "eventId" req) ]}) (events w)
  = Some d →
  (Server.postDeleteEvent req w).1 = Ok (redirect "/organizer/my-events")
  ∧ ∃ l1 l2,
      events w = l1 ++ d :: l2 ∧ events (Server.postDeleteEvent req w).2 = l1 ++ l2.
Proof.
  intros Hvalid Hfind. unfold Server.postDeleteEvent, try_catch, bind.
  rewrite deleteEvent_cases. cbn [ObjectId_isValid_value ObjectId_new].
  rewrite Hvalid, Hfind. cbn [negb].
  destruct (update_first_some _ (fun d => d) _ _ Hfind) as (l1 & l2 & Hl & _ & _ & Hrm).
  split; [reflexivity |]. exists l1, l2. split; [exact Hl | exact Hrm].
Qed.

(** C1, as the code has it.  When the documented chain (the role
    middleware, then the ownership check against the event) refuses a
    request, what it answers is the refusal of the decision, with status
    401 or 403.  The update and delete routes of the server are registered
    without the chain: what they do does not depend on the requester, so
    for a request the chain refuses they still act on the stored event of
    the request, the update route writing the fields of the body into it
    and the delete route removing it, as for any request with the same
    parameters and body. *)
Theorem refusal_does_not_stop_public_routes (roles : list string) (req : Request)
    (res : Response) (now : Z) (w : World) (d : Doc) :
  Rbac.accessChain roles (Some d) req = Respond res →
  ObjectId_isValid (param "eventId" req) = true →
  List.find (Mongo.matches {[ "_id" := ObjectId_of (param "eventId" req) ]}) (events w)
  = Some d →
  (res = Rbac.AuthenticationRequired req
   ∨ res = Rbac.InsufficientRole roles req
   ∨ res = Rbac.OwnershipViolation)
  ∧ (status res = 401 ∨ status res = 403)
  ∧ ((Server.postUpdateEvent req now w).1 = Ok (redirect "/organizer/my-events")
     ∧ ∃ l1 l2 d',
         events w = l1 ++ d :: l2
         ∧ events (Server.postUpdateEvent req now w).2 = l1 ++ d' :: l2
         ∧ get "title" d' = bsonValue (get "title" (body req))
         ∧ get "description" d' = bsonValue (get "description" (body req))
         ∧ get "date" d' = bsonValue (get "date" (body req))
         ∧ get "time" d' = bsonValue (get "time" (body req))
         ∧ get "location" d' = bsonValue (get "location" (body req))
         ∧ get "updatedAt" d' = VDate now)
  ∧ ((Server.postDeleteEvent req w).1 = Ok (redirect "/organizer/my-events")
     ∧ ∃ l1 l2,
         events w = l1 ++ d :: l2 ∧ events (Server.postDeleteEvent req w).2 = l1 ++ l2)
  ∧ (∀ allowed,
       params allowed = params req → body allowed = body req →
       Server.postUpdateEvent req now w = Server.postUpdateEvent allowed now w
       ∧ Server.postDeleteEvent req w = Server.postDeleteEvent allowed w).
Proof.
  intros Hdeny Hvalid Hfind.
  split; [exact (accessChain_refusal _ _ _ _ Hdeny) |].
  split.
  { destruct (accessChain_refusal _ _ _ _ Hdeny) as [-> | [-> | ->]].
    - left. unfold Rbac.AuthenticationRequired. by destruct (Rbac.isApi req).
    - right. unfold Rbac.InsufficientRole. by destruct (Rbac.isApi req).
    - by right. }
  split.
  { destruct (postUpdateEvent_cases req now w) as [Hfound _].
    destruct (Hfound Hvalid d Hfind) as (Hres & l1 & l2 & Hl & Hev).
    split; [exact Hres |]. eexists l1, l2, _. split; [exact Hl |]. split; [exact Hev |].
    destruct (postUpdateEvent_data (body req) now) as (Ht & Hde & Hda & Hti & Hlo & Hup & _).
    match goal with |- context [bson ?u ∪ d] => destruct (set_fields u d) as [Hset _] end.
    split; [by apply Hset |]. split; [by apply Hset |]. split; [by apply Hset |].
    split; [by apply Hset |]. split; [by apply Hset |].
    exact (Hset "updatedAt" (VDate now) Hup). }
  split; [exact (postDeleteEvent_found req w d Hvalid Hfind) |].
  intros allowed Hp Hb. by apply public_routes_ignore_requester.
Qed.

End PublicRoutes.

(** A request without credentials for the sample event: the chain in
    front of the update action refuses it with 401, and the routes rename
    and remove the event all the same. *)
Lemma refusal_does_not_stop_public_routes_witness :
  Rbac.accessChain ["organizer"; "admin"] (Some sampleEvent) anonymousUpdate
  = Respond (Rbac.AuthenticationRequired anonymousUpdate)
  ∧ (∃ d', events (Server.postUpdateEvent anonymousUpdate 5 sampleWorld).2 = [d']
           ∧ get "title" d' = VStr "Cancelled")
  ∧ events (Server.postDeleteEvent anonymousUpdate sampleWorld).2 = [].
Proof.
  assert (Hdeny : Rbac.accessChain ["organizer"; "admin"] (Some sampleEvent) anonymousUpdate
                  = Respond (Rbac.AuthenticationRequired anonymousUpdate)) by reflexivity.
  assert (H1 : ObjectId_isValid (param "eventId" anonymousUpdate) = true)
    by (vm_compute; reflexivity).
  assert (H2 : List.find (Mongo.matches {[ "_id" := ObjectId_of (param "eventId" anonymousUpdate) ]})
                 (events sampleWorld) = Some sampleEvent) by (vm_compute; reflexivity).
  destruct (refusal_does_not_stop_public_routes _ _ _ 5 sampleWorld _ Hdeny H1 H2)
    as (_ & _ & (_ & l1 & l2 & d' & Hl & Hev & Htitle & _) & (_ & k1 & k2 & Hk & Hdel) & _).
  split; [exact Hdeny |].
  destruct l1 as [|x l1]; [| destruct l1; discriminate Hl]. injection Hl as <-.
  destruct k1 as [|y k1]; [| destruct k1; discriminate Hk]. injection Hk as <-.
  split; [| exact Hdel].
  exists d'. split; [exact Hev |]. rewrite Htitle. vm_compute. reflexivity.
Defined.

(** ** Registrations and feedback *)

Section Registrations.
Context `{RT : !Runtime}.

(** [registerForEvent], by what the duplicate check finds. *)
Lemma registerForEvent_cases (registrationData : Doc) (now : Z) (w : World) :
  match List.find (Mongo.matches (<["eventId" := get "eventId" registrationData]>
                                  {[ "studentEmail" := get "studentEmail" registrationData ]}))
          (registrations w) with
  | Some _ =>
      EventService.registerForEvent registrationData now w
      = (Throw (AppError "You have already registered for this event" 400), w)
  | None =>
      ∃ insertedId w',
        EventService.registerForEvent registrationData now w
        = (Ok (<["_id" := insertedId]> (<["registeredAt" := VDate now]> registrationData)), w')
        ∧ registrations w'
          = registrations w
            ++ [bson (<["_id" := insertedId]> (<["registeredAt" := VDate now]> registrationData))]
        ∧ users w' = users w ∧ events w' = events w ∧ feedback w' = feedback w
  end.
Proof.
  destruct (List.find _ (registrations w)) as [d|] eqn:Hfind.
  - unfold EventService.registerForEvent, Mongo.findOne. run. by rewrite Hfind.
  - unfold EventService.registerForEvent, Mongo.findOne. run. rewrite Hfind. simpl.
    destruct (insertOne_ok Mongo.registrationsCollection
                (<["registeredAt" := VDate now]> registrationData) w)
      as (id & w1 & -> & Hcore1 & _).
    destruct (sendConfirmation_effect registrationData
                (Mongo.over Mongo.registrationsCollection
                   (fun l => l ++ [bson (<["_id" := id]>
                                           (<["registeredAt" := VDate now]> registrationData))])
                   w1))
      as (w2 & f & -> & Hcore2 & _).
    exists id, (set_log (fun l => l ++ [(LInfo, "Event registration created")]) w2).
    split; [reflexivity |].
    injection Hcore1 as Hu He Hr Hf _ _.
    injection Hcore2 as Hu2 He2 Hr2 Hf2 _ _. simpl in *.
    rewrite Hr2, Hu2, He2, Hf2, Hu, He, Hr, Hf.
    split; [reflexivity |]. split; [reflexivity |]. split; reflexivity.
Qed.


Lemma getEventFeedback_eq (eventId : Value) (w : World) :
  EventService.getEventFeedback eventId w
  = (Ok (List.filter (Mongo.matches {[ "eventId" := eventId ]}) (feedback w)), w).
Proof. reflexivity. Qed.

Lemma filter_app_one (p : Doc → bool) (l : list Doc) (d : Doc) :
  List.filter p (l ++ [d]) = List.filter p l ++ (if p d then [d] else []).
Proof. rewrite List.filter_app. simpl. by destruct (p d). Qed.


End Registrations.


Section Feedback.
Context `{RT : !Runtime}.

(** [submitFeedback] of data without an [_id]: stored under the next fresh
    id. *)
Lemma submitFeedback_fresh (feedbackData : Doc) (now : Z) (w : World) :
  bsonValue (get "_id" feedbackData) = VNull →
  ∃ w',
    EventService.submitFeedback feedbackData now w
    = (Ok (<["_id" := VId (next_oid w)]> (<["submittedAt" := VDate now]> feedbackData)), w')
    ∧ feedback w'
      = feedback w
        ++ [bson (<["_id" := VId (next_oid w)]>
                    (<["submittedAt" := VDate now]> feedbackData))]
    ∧ users w' = users w ∧ events w' = events w ∧ registrations w' = registrations w
    ∧ cache w' = cache w ∧ next_oid w' = (next_oid w + 1)%N.
Proof.
  intros Hnoid. unfold EventService.submitFeedback, try_catch, bind.
  destruct (insertOne_ok Mongo.feedbackCollection
              (<["submittedAt" := VDate now]> feedbackData) w)
    as (id & w1 & -> & Hcore1 & _ & _ & _ & Hid).
  assert (Hget : get "_id" (<["submittedAt" := VDate now]> feedbackData)
                 = get "_id" feedbackData).
  { unfold get. by rewrite lookup_insert_ne. }
  rewrite Hget, bool_decide_eq_true_2 in Hid, Hcore1 by exact Hnoid. subst id.
  injection Hcore1 as Hu He Hr Hf Hc Hn.
  eexists. split; [reflexivity |]. simpl.
  rewrite Hu, He, Hr, Hf, Hc, Hn. do 5 (split; [reflexivity |]). reflexivity.
Qed.

(** X16.  Feedback is stored without any check for an earlier entry.  For
    feedback data without an [_id] whose [eventId] the store compares by
    equality, [submitFeedback] does not fail, and submitting the same data
    twice leaves two entries under two fresh ids, both in the listing of
    the event after everything that was listed before.  Users, events and
    registrations stay as they were. *)
Theorem feedback_twice_listed_twice (feedbackData : Doc) (now1 now2 : Z) (w : World) :
  bsonValue (get "_id" feedbackData) = VNull →
  Mongo.equalityOn "eventId" (get "eventId" feedbackData) (feedback w) = true →
  let eventId := get "eventId" feedbackData in
  ∃ first second w1 w2 before,
    EventService.submitFeedback feedbackData now1 w = (Ok first, w1)
    ∧ EventService.submitFeedback feedbackData now2 w1 = (Ok second, w2)
    ∧ EventService.getEventFeedback eventId w = (Ok before, w)
    ∧ EventService.getEventFeedback eventId w2
      = (Ok (before ++ [bson first; bson second]), w2)
    ∧ get "submittedAt" first = VDate now1 ∧ get "submittedAt" second = VDate now2
    ∧ get "_id" first = VId (next_oid w) ∧ get "_id" second = VId (next_oid w + 1)
    ∧ users w2 = users w ∧ events w2 = events w ∧ registrations w2 = registrations w.
Proof.
  intros Hnoid _. cbv zeta.
  destruct (submitFeedback_fresh feedbackData now1 w Hnoid)
    as (w1 & Hrun1 & Hfb1 & Hu1 & He1 & Hr1 & _ & Hn1).
  destruct (submitFeedback_fresh feedbackData now2 w1 Hnoid)
    as (w2 & Hrun2 & Hfb2 & Hu2 & He2 & Hr2 & _).
  rewrite Hn1 in Hrun2, Hfb2.
  eexists _, _, w1, w2, _.
  split; [exact Hrun1 |]. split; [exact Hrun2 |]. split; [reflexivity |].
  assert (Hm : ∀ id now,
    Mongo.matches {[ "eventId" := get "eventId" feedbackData ]}
      (bson (<["_id" := id]> (<["submittedAt" := VDate now]> feedbackData))) = true).
  { intros id now. apply matches_singleton.
    unfold get, bson. rewrite lookup_fmap, !lookup_insert_ne by done.
    destruct (feedbackData !! "eventId") as [v|]; simpl; [| reflexivity].
    apply bsonValue_idemp. }
  split.
  { rewrite getEventFeedback_eq, Hfb2, Hfb1, !filter_app_one, !Hm, <- app_assoc. reflexivity. }
  split; [unfold get; by rewrite lookup_insert_ne, lookup_insert_eq |].
  split; [unfold get; by rewrite lookup_insert_ne, lookup_insert_eq |].
  split; [unfold get; by rewrite lookup_insert_eq |].
  split; [unfold get; by rewrite lookup_insert_eq |].
  rewrite Hu2, He2, Hr2, Hu1, He1, Hr1. split; [reflexivity |]. split; reflexivity.
Qed.

End Feedback.

(** The same rating of the sample event, submitted twice. *)
Lemma feedback_twice_listed_twice_witness :
  ∃ first second w1 w2,
    EventService.submitFeedback
      (<["eventId" := VStr sampleEventId]> {[ "rating" := VNum 5 ]}) 1 sampleWorld
    = (Ok first, w1)
    ∧ EventService.submitFeedback
        (<["eventId" := VStr sampleEventId]> {[ "rating" := VNum 5 ]}) 2 w1
      = (Ok second, w2)
    ∧ get "_id" first = VId 100 ∧ get "_id" second = VId 101
    ∧ EventService.getEventFeedback (VStr sampleEventId) w2
      = (Ok [bson first; bson second], w2).
Proof.
  set (data := (<["eventId" := VStr sampleEventId]> {[ "rating" := VNum 5 ]} : Doc)).
  assert (Hnoid : bsonValue (get "_id" data) = VNull) by (vm_compute; reflexivity).
  assert (Heq : Mongo.equalityOn "eventId" (get "eventId" data) (feedback sampleWorld) = true)
    by (vm_compute; reflexivity).
  assert (Hid : get "eventId" data = VStr sampleEventId) by (vm_compute; reflexivity).
  destruct (feedback_twice_listed_twice data 1 2 sampleWorld Hnoid Heq)
    as (first & second & w1 & w2 & before & Hrun1 & Hrun2 & Hb & Ha & _ & _ & Hid1 & Hid2 & _).
  assert (Hnone : before = []) by (by injection Hb as <-).
  rewrite Hnone, Hid in Ha.
  exists first, second, w1, w2.
  split; [exact Hrun1 |]. split; [exact Hrun2 |]. split; [exact Hid1 |].
  split; [exact Hid2 |]. exact Ha.
Defined.

(** ** The routes of the server *)

Section Routes.
Context `{RT : !Runtime}.

Lemma dom_bson (d : Doc) : dom (bson d) = dom d.
Proof. unfold bson. apply dom_fmap_L. Qed.

(** X17.  The registration route stores at most one document, and only
    the fields it names.  It answers with one of four responses: the
    redirect, in which case exactly one registration was appended, made of
    [studentEmail], [eventId], [studentName], [studentId], [registeredAt]
    and [_id] and of nothing else the request body carries; the 400 page
    for a past event, the 400 page for a duplicate, or the 500 page, in
    which cases the registrations are what they were.  Users, events and
    feedback are never touched. *)
Theorem postRegister_outcomes (req : Request) (now : Z) (w : World) :
  let out := Server.postRegister req now w in
  let b := body req in
  users out.2 = users w ∧ events out.2 = events w ∧ feedback out.2 = feedback w
  ∧ ((out.1 = Ok (redirect "/events?registered=true")
      ∧ ∃ stored,
          registrations out.2 = registrations w ++ [stored]
          ∧ dom stored
            = ({[ "_id"; "studentEmail"; "eventId"; "studentName"; "studentId";
                  "registeredAt" ]} : gset string)
          ∧ get "studentEmail" stored = bsonValue (get "email" b)
          ∧ get "eventId" stored = bsonValue (get "eventId" b)
          ∧ get "studentName" stored = bsonValue (get "name" b)
          ∧ get "studentId" stored = bsonValue (get "studentId" b)
          ∧ get "registeredAt" stored = VDate now)
     ∨ ((out.1 = Ok (render_error 400 "Cannot register for past events")
         ∨ out.1 = Ok (render_error 400 "Duplicate Registration")
         ∨ out.1 = Ok (render_error 500 "Error registering for event"))
        ∧ registrations out.2 = registrations w)).
Proof.
  cbv zeta. unfold Server.postRegister, try_catch, bind.
  destruct (getEventById_effect (get "eventId" (body req)) w) as (f & Hf).
  destruct (EventService.getEventById _ w) as [[event|e] w1]; cbn [snd] in Hf; subst w1.
  2: { unfold Server.console_error, logger, bind, modify, ret. cbn [fst snd].
       destruct (String.eqb _ _); cbn [fst snd users events feedback registrations
                                        set_log set_cache];
         (split; [reflexivity |]; split; [reflexivity |]; split; [reflexivity |]);
         right; (split; [| reflexivity]); auto. }
  destruct (Server.datePassed event now).
  { unfold ret. cbn [fst snd users events feedback registrations set_cache].
    split; [reflexivity |]. split; [reflexivity |]. split; [reflexivity |].
    right. split; [| reflexivity]. auto. }
  set (rd := <["studentEmail" := get "email" (body req)]> _).
  pose proof (registerForEvent_cases rd now (set_cache f w)) as Hcases.
  destruct (List.find _ (registrations (set_cache f w))) as [d|].
  { rewrite Hcases.
    unfold Server.console_error, logger, bind, modify, ret.
    cbn [fst snd exn_message String.eqb users events feedback registrations set_log set_cache].
    rewrite ?String.eqb_refl.
    cbn [fst snd users events feedback registrations set_log set_cache].
    split; [reflexivity |]. split; [reflexivity |]. split; [reflexivity |].
    right. split; [| reflexivity]. auto. }
  destruct Hcases as (id & w' & -> & Hregs & Hu & He & Hfb).
  unfold ret. cbn [fst snd]. rewrite Hu, He, Hfb, Hregs.
  cbn [users events feedback registrations set_cache].
  split; [reflexivity |]. split; [reflexivity |]. split; [reflexivity |].
  left. split; [reflexivity |]. eexists. split; [reflexivity |].
  split.
  { rewrite dom_bson. unfold rd. rewrite !dom_insert_L, dom_empty_L. set_solver. }
  assert (Hget : ∀ k v, (<["_id" := id]> (<["registeredAt" := VDate now]> rd) : Doc) !! k = Some v →
                        get k (bson (<["_id" := id]> (<["registeredAt" := VDate now]> rd)))
                        = bsonValue v).
  { intros k v Hk. by apply get_bson. }
  split; [apply Hget; unfold rd; by simplify_map_eq |].
  split; [apply Hget; unfold rd; by simplify_map_eq |].
  split; [apply Hget; unfold rd; by simplify_map_eq |].
  split; [apply Hget; unfold rd; by simplify_map_eq |].
  apply (Hget "registeredAt" (VDate now)). by simplify_map_eq.
Qed.

(** X18.  The cancellation route deletes by registration id alone.  A
    malformed id is answered with the 400 page and an id no registration
    has with the 404 page, the world unchanged; otherwise the first
    registration with that id, and only it, is removed and the route
    redirects.  The outcome does not depend on who asks: the route never
    looks at the requester, so any requester cancels any registration.
    Users, events, feedback and the cache are never touched. *)
Theorem postCancelRegistration_outcomes (req : Request) (w : World) :
  let id := param "registrationId" req in
  let out := Server.postCancelRegistration req w in
  (ObjectId_isValid id = false →
     out = (Ok (render_error 400 "Invalid registration ID"), w))
  ∧ (ObjectId_isValid id = true →
     List.find (Mongo.matches {[ "_id" := ObjectId_of id ]}) (registrations w) = None →
     out = (Ok (render_error 404 "Registration not found"), w))
  ∧ (ObjectId_isValid id = true →
     ∀ d, List.find (Mongo.matches {[ "_id" := ObjectId_of id ]}) (registrations w) = Some d →
       out.1 = Ok (redirect "/student/registrations?cancelled=true")
       ∧ (∃ l1 l2, registrations w = l1 ++ d :: l2 ∧ registrations out.2 = l1 ++ l2)
       ∧ users out.2 = users w ∧ events out.2 = events w ∧ feedback out.2 = feedback w
       ∧ cache out.2 = cache w)
  ∧ (∀ u a, Server.postCancelRegistration
              (mkRequest (path req) a (params req) (body req) u u) w = out).
Proof.
  cbv zeta. unfold Server.postCancelRegistration, Mongo.deleteOne, try_catch, bind, ret.
  cbn [Mongo.docs Mongo.over].
  split; [| split; [| split]]; [| | | intros u a; reflexivity].
  - intros ->. reflexivity.
  - intros -> Hfind. cbn [negb fst snd]. rewrite existsb_find, Hfind.
    change (bool_decide (is_Some (@None Doc))) with false. cbn [Mongo.count_if Z.eqb].
    rewrite set_registrations_same by (by apply remove_first_none). reflexivity.
  - intros -> d Hfind. cbn [negb fst snd]. rewrite existsb_find, Hfind.
    destruct (update_first_some _ (fun d => d) _ _ Hfind) as (l1 & l2 & Hl & _ & _ & Hrm).
    change (bool_decide (is_Some (Some d))) with true.
    cbn [negb fst snd Mongo.count_if Z.eqb users events feedback cache registrations
         set_registrations].
    split; [reflexivity |].
    split; [exists l1, l2; split; [exact Hl | exact Hrm] |].
    do 3 (split; [reflexivity |]). reflexivity.
Qed.

End Routes.

Section Payments.
Context `{RT : !Runtime}.

(** X19.  [updateRegistrationPaymentStatus], on an identifier that is a
    string or an ObjectId, writes [paymentStatus], [paymentMethod] and
    [updatedAt] and nothing else: every other field of every registration
    keeps its value and no registration is added or removed.  A malformed
    id is refused with 400 and an id no registration
    has with 404, the world unchanged; otherwise the first registration
    with the id carries the given status and method afterwards.  The
    other collections are never touched. *)
Theorem payment_status_touches_three_fields (registrationId paymentStatus paymentMethod : Value)
    (now : Z) (w : World) :
  idText registrationId = true →
  let out := EventService.updateRegistrationPaymentStatus registrationId paymentStatus
               paymentMethod now w in
  let filter : Doc := {[ "_id" := ObjectId_new registrationId ]} in
  (∀ k, k ∉ ["paymentStatus"; "paymentMethod"; "updatedAt"] →
        get k <$> registrations out.2 = get k <$> registrations w)
  ∧ List.length (registrations out.2) = List.length (registrations w)
  ∧ users out.2 = users w ∧ events out.2 = events w ∧ feedback out.2 = feedback w
  ∧ (ObjectId_isValid_value registrationId = false →
       out = (Throw (AppError "Invalid registration ID" 400), w))
  ∧ (ObjectId_isValid_value registrationId = true →
     List.find (Mongo.matches filter) (registrations w) = None →
       out = (Throw (AppError "Registration not found" 404), w))
  ∧ (ObjectId_isValid_value registrationId = true →
     ∀ d, List.find (Mongo.matches filter) (registrations w) = Some d →
       out.1 = Ok 1
       ∧ ∃ l1 l2 d',
           registrations w = l1 ++ d :: l2 ∧ registrations out.2 = l1 ++ d' :: l2
           ∧ get "paymentStatus" d' = bsonValue paymentStatus
           ∧ get "paymentMethod" d' = bsonValue paymentMethod
           ∧ get "updatedAt" d' = VDate now).
Proof.
  intros _. cbv zeta. unfold EventService.updateRegistrationPaymentStatus, Mongo.updateOne. run.
  set (upd := <["paymentStatus" := paymentStatus]> _).
  destruct (ObjectId_isValid_value registrationId) eqn:Hvalid; simpl.
  2: { split; [reflexivity |]. do 4 (split; [reflexivity |]).
       split; [reflexivity |]. split; intros; discriminate. }
  rewrite existsb_find.
  destruct (List.find _ (registrations w)) as [d|] eqn:Hfind; simpl.
  - split.
    { intros k Hk. apply update_first_keeps. subst upd.
      rewrite !lookup_insert_ne; [apply lookup_empty | | |]; intros <-; apply Hk; set_solver. }
    split; [apply update_first_length |].
    do 3 (split; [reflexivity |]). split; [discriminate |]. split; [discriminate |].
    intros _ found [= <-]. split; [reflexivity |].
    destruct (update_first_some _ (fun d => bson upd ∪ d) _ _ Hfind)
      as (l1 & l2 & Hl & _ & Hup & _).
    assert (Hset : ∀ k v, upd !! k = Some v → get k (bson upd ∪ d) = bsonValue v).
    { intros k v Hk. unfold get, bson. erewrite lookup_union_Some_l; [reflexivity |].
      by rewrite lookup_fmap, Hk. }
    exists l1, l2, (bson upd ∪ d).
    split; [exact Hl |]. split; [exact Hup |].
    split; [apply Hset; subst upd; by simplify_map_eq |].
    split; [apply Hset; subst upd; by simplify_map_eq |].
    apply (Hset "updatedAt" (VDate now)). subst upd. by simplify_map_eq.
  - rewrite update_first_none by done.
    rewrite set_registrations_same by (by apply update_first_none).
    split; [reflexivity |]. do 4 (split; [reflexivity |]).
    split; [discriminate |]. split; [reflexivity |]. intros; discriminate.
Qed.

End Payments.

(** Marking a stored registration as paid. *)
Lemma payment_status_touches_three_fields_witness :
  ∃ d',
    registrations
      (EventService.updateRegistrationPaymentStatus (VStr "000000000000000000000009")
         (VStr "paid") (VStr "card") 9
         (set_registrations (fun _ => [<["_id" := VId 9]> sampleRegistration]) sampleWorld)).2
    = [d']
    ∧ get "paymentStatus" d' = VStr "paid"
    ∧ get "paymentMethod" d' = VStr "card"
    ∧ get "studentEmail" d' = VStr "carol@campus.edu".
Proof.
  set (w := set_registrations (fun _ => [<["_id" := VId 9]> sampleRegistration]) sampleWorld).
  destruct (payment_status_touches_three_fields (VStr "000000000000000000000009")
              (VStr "paid") (VStr "card") 9 w eq_refl)
    as (Hkeep & _ & _ & _ & _ & _ & _ & Hok).
  assert (H1 : ObjectId_isValid_value (VStr "000000000000000000000009") = true)
    by (vm_compute; reflexivity).
  assert (H2 : List.find (Mongo.matches {[ "_id" := ObjectId_new (VStr "000000000000000000000009") ]})
                 (registrations w) = Some (<["_id" := VId 9]> sampleRegistration))
    by (vm_compute; reflexivity).
  destruct (Hok H1 _ H2) as (_ & l1 & l2 & d' & Hl & Hup & Hst & Hme & _).
  destruct l1 as [|x l1]; [| destruct l1; discriminate Hl]. injection Hl as <-.
  exists d'. split; [exact Hup |]. split; [exact Hst |]. split; [exact Hme |].
  assert (Hk : "studentEmail" ∉ ["paymentStatus"; "paymentMethod"; "updatedAt"]).
  { repeat (apply not_elem_of_cons; split; [discriminate |]). apply not_elem_of_nil. }
  specialize (Hkeep "studentEmail" Hk). rewrite Hup in Hkeep.
  injection Hkeep as ->. vm_compute. reflexivity.
Defined.

Section RouteAnswers.
Context `{RT : !Runtime}.

(** X20.  The event-details route answers 200 with the JSON image of
    seven fields of what [getEventById] answers, [_id] under the name [id]
    and [title], [description], [date], [time], [location] and [organizer]
    under their own: a field the event does not have is left out, an
    ObjectId goes out as its hexadecimal string, and no other field of the
    event is exposed.  Whenever [getEventById] throws it answers 500 with
    [{error: 'Error fetching event details'}]; in particular an id that no
    event has, and that is not cached, gets the 500 answer and not a 404.
    The collections are never touched. *)
Theorem getEventDetails_outcomes (req : Request) (w : World) :
  let eventId := VStr (param "eventId" req) in
  let out := Server.getEventDetails req w in
  domain out.2 = domain w
  ∧ ((∃ event fields,
        (EventService.getEventById eventId w).1 = Ok event
        ∧ out.1 = Ok (mkResponse 200 (Json fields None))
        ∧ dom fields
          ⊆ ({[ "id"; "title"; "description"; "date"; "time"; "location"; "organizer" ]}
             : gset string)
        ∧ fields !! "id" = jsonValue (get "_id" event)
        ∧ ∀ k, k ∈ ["title"; "description"; "date"; "time"; "location"; "organizer"] →
               fields !! k = jsonValue (get k event))
     ∨ ((∃ e, (EventService.getEventById eventId w).1 = Throw e)
        ∧ out.1 = Ok (mkResponse 500
                        (Json {[ "error" := VStr "Error fetching event details" ]} None))))
  ∧ (cache w !! ("event_" +:+ param "eventId" req) = None →
     List.find (Mongo.matches {[ "_id" := ObjectId_new eventId ]}) (events w) = None →
     out.1 = Ok (mkResponse 500
                   (Json {[ "error" := VStr "Error fetching event details" ]} None))).
Proof.
  cbv zeta. unfold Server.getEventDetails, try_catch, bind.
  split; [| split].
  - destruct (getEventById_effect (VStr (param "eventId" req)) w) as (f & Hf).
    destruct (EventService.getEventById _ w) as [[event|e] w1]; cbn [snd] in Hf; subst w1;
      reflexivity.
  - destruct (EventService.getEventById _ w) as [[event|e] w1].
    + left. eexists event, _. split; [reflexivity |]. split; [reflexivity |].
      split.
      { etrans; [apply dom_omap_subseteq |].
        rewrite !dom_insert_L, dom_empty_L. set_solver. }
      split; [rewrite jsonClone_lookup; by simplify_map_eq |].
      intros k Hk. rewrite jsonClone_lookup.
      rewrite !elem_of_cons, elem_of_nil in Hk.
      destruct Hk as [-> | [-> | [-> | [-> | [-> | [-> | []]]]]]]; by simplify_map_eq.
    + right. split; [by exists e | reflexivity].
  - intros Hmiss Hfind. rewrite getEventById_cases.
    cbn [ObjectId_isValid_value idString].
    destruct (ObjectId_isValid (param "eventId" req)); cbn [negb]; [| reflexivity].
    rewrite Hmiss, Hfind. reflexivity.
Qed.

(** X21.  The create-event route cannot fail and does not look at the
    requester: it always redirects to '/organizer' after storing one new
    event under a fresh [_id].  The event has exactly ten fields: [title],
    [description], [date], [time] and [location] as the body has them,
    [organizer], which is the body's when that is truthy and
    'guest@example.com' otherwise, [createdBy], which is always
    'guest@example.com', and [createdAt] and [updatedAt], both the instant
    of the call. *)
Theorem postCreateEvent_stores_guest_event (req : Request) (now : Z) (w : World) :
  let b := body req in
  ∃ w' stored,
    Server.postCreateEvent req now w = (Ok (redirect "/organizer"), w')
    ∧ events w' = events w ++ [stored]
    ∧ dom stored
      = ({[ "_id"; "title"; "description"; "date"; "time"; "location"; "organizer";
            "createdBy"; "createdAt"; "updatedAt" ]} : gset string)
    ∧ get "_id" stored = VId (next_oid w)
    ∧ get "title" stored = bsonValue (get "title" b)
    ∧ get "description" stored = bsonValue (get "description" b)
    ∧ get "date" stored = bsonValue (get "date" b)
    ∧ get "time" stored = bsonValue (get "time" b)
    ∧ get "location" stored = bsonValue (get "location" b)
    ∧ get "organizer" stored
      = (if truthy (get "organizer" b) then get "organizer" b else VStr "guest@example.com")
    ∧ get "createdBy" stored = VStr "guest@example.com"
    ∧ get "createdAt" stored = VDate now
    ∧ get "updatedAt" stored = VDate now
    ∧ users w' = users w ∧ registrations w' = registrations w ∧ feedback w' = feedback w
    ∧ (∀ u a, Server.postCreateEvent (mkRequest (path req) a (params req) (body req) u u) now w
              = Server.postCreateEvent req now w).
Proof.
  cbv zeta. unfold Server.postCreateEvent, try_catch, bind.
  set (data := <["title" := get "title" (body req)]> _).
  assert (Hid : bsonValue (get "_id" data) = VNull).
  { unfold get, data. by simplify_map_eq. }
  rewrite (createEvent_ok data now w Hid). cbv zeta.
  set (event := <["_id" := VId (next_oid w)]> _).
  eexists _, (bson event). split; [reflexivity |].
  cbn [events users registrations feedback set_log set_cache set_events set_next_oid].
  split; [reflexivity |].
  split.
  { rewrite dom_bson. unfold event, data. rewrite !dom_insert_L, dom_empty_L. set_solver. }
  assert (Hget : ∀ k v, event !! k = Some v → get k (bson event) = bsonValue v).
  { intros k v Hk. by apply get_bson. }
  split; [apply (Hget "_id" (VId (next_oid w))); unfold event; by simplify_map_eq |].
  split; [apply Hget; unfold event, data; by simplify_map_eq |].
  split; [apply Hget; unfold event, data; by simplify_map_eq |].
  split; [apply Hget; unfold event, data; by simplify_map_eq |].
  split; [apply Hget; unfold event, data; by simplify_map_eq |].
  split; [apply Hget; unfold event, data; by simplify_map_eq |].
  split.
  { rewrite (Hget "organizer" (js_or (get "organizer" (body req)) (VStr "guest@example.com")))
      by (unfold event, data; by simplify_map_eq).
    unfold js_or. destruct (truthy (get "organizer" (body req))) eqn:Ht; [| reflexivity].
    by apply bsonValue_truthy. }
  split; [apply (Hget "createdBy" (VStr "guest@example.com"));
          unfold event, data; by simplify_map_eq |].
  split; [apply (Hget "createdAt" (VDate now)); unfold event, data; by simplify_map_eq |].
  split; [apply (Hget "updatedAt" (VDate now)); unfold event, data; by simplify_map_eq |].
  do 3 (split; [reflexivity |]).
  intros u a. reflexivity.
Qed.

End RouteAnswers.

(** ** The error middleware *)

Section Errors.
Context `{RT : !Runtime}.

(** The JSON body of an error response. *)
Lemma handleErrors_eq (production : bool) (err : ErrorHandler.Thrown) (now : Z) (w : World) :
  ErrorHandler.handleErrors production err now w
  = (Ok (mkResponse (ErrorHandler.classify err).1
           (Json (<["success" := VBool false]>
                  (<["message" :=
                       VStr (if production && negb (ErrorHandler.isOperational err)
                             then "Something went wrong"
                             else (ErrorHandler.classify err).2)]>
                  (<["timestamp" := VStr (toISOString now)]> ∅)))
                 None)),
     set_log (fun l => l ++ [(LError, ErrorHandler.message err)]) w).
Proof.
  unfold ErrorHandler.handleErrors, logger, bind, modify, ret.
  by destruct (ErrorHandler.classify err).
Qed.

(** X22.  What the error middleware sends for an error that is not an
    [AppError].  Unless the error is named 'ValidationError' and the
    server runs outside production, the response does not depend on the
    error's own message: it is one of six fixed texts under one of the
    statuses 400, 401 and 500, and the own message goes to the log only.
    In production an error that is not operational is always answered
    with 'Something went wrong'. *)
Theorem handleErrors_hides_plain_messages (production : bool) (err : ErrorHandler.Thrown)
    (now : Z) (w : World) :
  ErrorHandler.isAppError err = false →
  String.eqb (ErrorHandler.name err) "ValidationError" = false
  ∨ (production = true ∧ ErrorHandler.isOperational err = false) →
  let out := ErrorHandler.handleErrors production err now w in
  (∀ text,
     (ErrorHandler.handleErrors production
        (ErrorHandler.mkThrown false (ErrorHandler.name err) text (ErrorHandler.statusCode err)
           (ErrorHandler.code err) (ErrorHandler.isOperational err)) now w).1 = out.1)
  ∧ (∃ st text,
       out.1 = Ok (mkResponse st
                     (Json (<["success" := VBool false]>
                            (<["message" := VStr text]>
                            (<["timestamp" := VStr (toISOString now)]> ∅))) None))
       ∧ st ∈ [400; 401; 500]
       ∧ text ∈ ["Invalid ID format"; "Duplicate field value entered"; "Invalid token";
                 "Token expired"; "Internal Server Error"; "Something went wrong"]
       ∧ (production = true → ErrorHandler.isOperational err = false →
          text = "Something went wrong"))
  ∧ log out.2 = log w ++ [(LError, ErrorHandler.message err)]
  ∧ core out.2 = core w.
Proof.
  intros Happ Hcase. cbv zeta. rewrite !handleErrors_eq. cbn [fst snd].
  destruct err as [isApp name message statusCode code isOp]. simpl in Happ. subst isApp.
  unfold ErrorHandler.classify.
  cbn [ErrorHandler.isAppError ErrorHandler.name ErrorHandler.message ErrorHandler.statusCode
       ErrorHandler.code ErrorHandler.isOperational] in *.
  split; [| split; [| split; reflexivity]].
  - intros text. rewrite handleErrors_eq. unfold ErrorHandler.classify.
    cbn [fst snd ErrorHandler.isAppError ErrorHandler.name ErrorHandler.message
         ErrorHandler.statusCode ErrorHandler.code ErrorHandler.isOperational].
    destruct Hcase as [Hname | [-> ->]].
    + rewrite Hname. reflexivity.
    + cbn [andb negb]. destruct (String.eqb name "ValidationError"); reflexivity.
  - destruct Hcase as [Hname | [-> ->]].
    + rewrite Hname.
      destruct (production && negb isOp) eqn:Hmask;
      destruct (String.eqb name "CastError"); [| |
      | destruct (strict_eq code (VNum 11000)); [|
        destruct (String.eqb name "JsonWebTokenError"); [|
        destruct (String.eqb name "TokenExpiredError")]]].
      all: try (destruct (strict_eq code (VNum 11000)); [|
                destruct (String.eqb name "JsonWebTokenError"); [|
                destruct (String.eqb name "TokenExpiredError")]]).
      all: cbn [fst snd]; eexists _, _; (split; [reflexivity |]);
        (split; [set_solver |]); (split; [set_solver |]);
        intros -> ->; try reflexivity; discriminate Hmask.
    + cbn [andb negb].
      destruct (String.eqb name "ValidationError"); [|
      destruct (String.eqb name "CastError"); [|
      destruct (strict_eq code (VNum 11000)); [|
      destruct (String.eqb name "JsonWebTokenError"); [|
      destruct (String.eqb name "TokenExpiredError")]]]].
      all: cbn [fst snd]; eexists _, _; (split; [reflexivity |]);
        (split; [set_solver |]); (split; [set_solver |]); reflexivity.
Qed.

(** A [try] whose [catch] always answers, answers. *)
Lemma try_catch_answers {A} (m : M A) (h : Exn → M A) (w : World) :
  (∀ e w1, ∃ a w2, h e w1 = (Ok a, w2)) → ∃ a w', try_catch m h w = (Ok a, w').
Proof.
  intros Hh. unfold try_catch. destruct (m w) as [[a|e] w1]; [by eexists _, _ |]. apply Hh.
Qed.

Lemma catchAsync_ok (production : bool) (fn : M Response) (now : Z) (w : World) :
  (∃ res w', fn w = (Ok res, w')) → ErrorHandler.catchAsync production fn now w = fn w.
Proof.
  intros (res & w' & Hfn). unfold ErrorHandler.catchAsync, try_catch. by rewrite Hfn.
Qed.

Lemma console_error_ok (e : Exn) (w : World) :
  Server.console_error e w = (Ok tt, set_log (fun l => l ++ [(LError, exn_message e)]) w).
Proof. reflexivity. Qed.

(** X24.  The routes of the server answer every failure themselves: each
    wraps its body in a [try] whose [catch] sends an error page, so none
    of them ever throws, and under [catchAsync] each behaves exactly as
    without it; the JSON error middleware is never reached from them. *)
Theorem server_routes_never_throw (production : bool) (req : Request) (now : Z) (w : World) :
  Forall (fun route : M Response =>
            (∃ res w', route w = (Ok res, w'))
            ∧ ErrorHandler.catchAsync production route now w = route w)
    [ Server.postUpdateEvent req now; Server.postDeleteEvent req;
      Server.getEventDetails req; Server.postRegister req now;
      Server.postCreateEvent req now; Server.postCancelRegistration req ].
Proof.
  assert (Hall : Forall (fun route : M Response => ∃ res w', route w = (Ok res, w'))
    [ Server.postUpdateEvent req now; Server.postDeleteEvent req;
      Server.getEventDetails req; Server.postRegister req now;
      Server.postCreateEvent req now; Server.postCancelRegistration req ]).
  { repeat apply Forall_cons_2; [| | | | | | apply Forall_nil_2];
      apply try_catch_answers; intros e w1; unfold bind; rewrite console_error_ok;
      try (by eexists _, _).
    destruct (String.eqb _ _); by eexists _, _. }
  eapply List.Forall_impl; [| exact Hall].
  intros route Hroute. split; [exact Hroute |]. by apply catchAsync_ok.
Qed.

End Errors.

(** Two token errors with different messages get the same answer. *)
Lemma handleErrors_hides_plain_messages_witness :
  (@ErrorHandler.handleErrors sampleRuntime false
     (ErrorHandler.otherError "JsonWebTokenError" "jwt malformed" VUndef) 0 sampleWorld).1
  = (@ErrorHandler.handleErrors sampleRuntime false
       (ErrorHandler.otherError "JsonWebTokenError" "invalid signature" VUndef) 0 sampleWorld).1.
Proof.
  destruct (@handleErrors_hides_plain_messages sampleRuntime false
              (ErrorHandler.otherError "JsonWebTokenError" "jwt malformed" VUndef) 0 sampleWorld
              eq_refl (or_introl eq_refl)) as (Hsame & _).
  symmetry. exact (Hsame "invalid signature").
Defined.

Section CatchAsync.
Context `{RT : !Runtime}.

(** X23.  [catchAsync] hands what the handler throws to the error
    middleware, and never throws itself.  A handler that answers is left
    alone.  An [AppError] of a service is answered with its own status and
    message, in production as well.  Any other error is answered by its
    name and code as the middleware classifies it, with 'Something went
    wrong' for a message in production: a plain [Error] without a code
    gets 500 and, outside production, 'Internal Server Error', an error
    named 'ValidationError' gets 400 and, outside production, its own
    message.  A request that no route matches is answered with 404 and
    'Cannot find <url> on this server'. *)
Theorem catchAsync_reports_errors (production : bool) (fn : M Response) (req : Request)
    (now : Z) (w : World) :
  let body (st : Z) (text : string) :=
    mkResponse st (Json (<["success" := VBool false]>
                         (<["message" := VStr text]>
                         (<["timestamp" := VStr (toISOString now)]> ∅))) None) in
  match fn w with
  | (Ok res, w') => ErrorHandler.catchAsync production fn now w = (Ok res, w')
  | (Throw (AppError text st), w') =>
      (ErrorHandler.catchAsync production fn now w).1 = Ok (body st text)
  | (Throw (JsError name text code), w') =>
      let class := ErrorHandler.classify (ErrorHandler.otherError name text code) in
      (ErrorHandler.catchAsync production fn now w).1
      = Ok (body class.1 (if production then "Something went wrong" else class.2))
      ∧ (name = "Error" → code = VUndef → class = (500, "Internal Server Error"))
      ∧ (name = "ValidationError" → class = (400, text))
  end
  ∧ (∃ res w', ErrorHandler.catchAsync production fn now w = (Ok res, w'))
  ∧ (ErrorHandler.handle404 production req now w).1
    = Ok (body 404 ("Cannot find " +:+ path req +:+ " on this server")).
Proof.
  cbv zeta. split; [| split].
  - unfold ErrorHandler.catchAsync, try_catch.
    destruct (fn w) as [[res|[text st|name text code]] w1]; [reflexivity | |].
    + rewrite handleErrors_eq. cbn [fst].
      unfold ErrorHandler.thrownOf, ErrorHandler.newAppError, ErrorHandler.classify.
      cbn [ErrorHandler.isAppError ErrorHandler.isOperational ErrorHandler.statusCode
           ErrorHandler.message fst snd negb].
      by rewrite andb_false_r.
    + rewrite handleErrors_eq. cbn [fst].
      unfold ErrorHandler.thrownOf, ErrorHandler.otherError.
      cbn [ErrorHandler.isOperational negb]. rewrite andb_true_r.
      split; [reflexivity |]. split.
      * intros -> ->. reflexivity.
      * intros ->. reflexivity.
  - apply try_catch_answers. intros e w1. rewrite handleErrors_eq. by eexists _, _.
  - unfold ErrorHandler.handle404. rewrite handleErrors_eq. cbn [fst].
    unfold ErrorHandler.NotFoundError, ErrorHandler.classify.
    cbn [ErrorHandler.isAppError ErrorHandler.isOperational ErrorHandler.statusCode
         ErrorHandler.message fst snd negb].
    by rewrite andb_false_r.
Qed.

End CatchAsync.

(** ** The in-memory cache and its timers *)

Section Timers.
Context `{RT : !Runtime}.

Lemma timerDelay_positive (ms : Z) : 1 ≤ MemoryCache.timerDelay ms.
Proof.
  unfold MemoryCache.timerDelay.
  destruct (1 <=? ms) eqn:H1; simpl; [| lia].
  destruct (ms <=? MemoryCache.TIMEOUT_MAX); lia.
Qed.

Lemma runTimers_lookup (t : Z) (c : MemoryCache.InMemoryCache) (key : string) :
  MemoryCache.store (MemoryCache.runTimers t c) !! key
  = if MemoryCache.pending t (MemoryCache.timers c !! key)
    then MemoryCache.store c !! key else None.
Proof.
  unfold MemoryCache.runTimers. cbn [MemoryCache.store].
  destruct (MemoryCache.pending t (MemoryCache.timers c !! key)) eqn:Hp.
  - destruct (MemoryCache.store c !! key) as [v|] eqn:Hs.
    + apply map_lookup_filter_Some_2; [done |]. cbn [fst]. rewrite Hp. exact I.
    + apply map_lookup_filter_None_2. by left.
  - apply map_lookup_filter_None_2. right. intros v _. cbn [fst]. rewrite Hp. intros [].
Qed.

Lemma runTimers_timer (t : Z) (c : MemoryCache.InMemoryCache) (key : string) :
  MemoryCache.timers (MemoryCache.runTimers t c) !! key
  = match MemoryCache.timers c !! key with
    | Some due => if t <? due then Some due else None
    | None => None
    end.
Proof.
  unfold MemoryCache.runTimers. cbn [MemoryCache.timers].
  destruct (MemoryCache.timers c !! key) as [due|] eqn:Ht.
  - destruct (t <? due) eqn:Hp.
    + apply map_lookup_filter_Some_2; [done |]. cbn [snd MemoryCache.pending].
      rewrite Hp. exact I.
    + apply map_lookup_filter_None_2. right. intros due' Hdue'.
      assert (due' = due) as -> by congruence.
      cbn [snd MemoryCache.pending]. rewrite Hp. intros [].
  - apply map_lookup_filter_None_2. by left.
Qed.

(** X25.  An entry set through a connected manager is served, as its JSON
    image, at every instant before its timer is due, and is gone at every
    instant from then on; an earlier timer of the key has no effect any
    more.  The timer is due [expiration * 1000] ms after the call when
    that delay lies between 1 and 2147483647, and 1 ms after the call
    otherwise: an expiration above about 24.8 days, or a non-positive
    one, makes the entry expire at once.  Other keys are not affected by
    the call. *)
Theorem cached_until_due (key : string) (value : Doc) (expiration now : Z)
    (m : MemoryCache.CacheManager) :
  MemoryCache.isConnected m = true →
  let due := now + MemoryCache.timerDelay (expiration * 1000) in
  let m1 := (MemoryCache.managerSet key value expiration now m).2 in
  (MemoryCache.managerSet key value expiration now m).1 = true
  ∧ (∀ t, t < due →
       (MemoryCache.managerGet key (MemoryCache.managerRunTimers t m1)).1
       = Some (jsonClone value))
  ∧ (∀ t, due ≤ t →
       (MemoryCache.managerGet key (MemoryCache.managerRunTimers t m1)).1 = None)
  ∧ now < due
  ∧ (1 ≤ expiration * 1000 ≤ MemoryCache.TIMEOUT_MAX → due = now + expiration * 1000)
  ∧ (expiration * 1000 < 1 ∨ MemoryCache.TIMEOUT_MAX < expiration * 1000 → due = now + 1)
  ∧ (∀ k, k ≠ key →
       MemoryCache.store (MemoryCache.client m1) !! k
       = MemoryCache.store (MemoryCache.client m) !! k
       ∧ MemoryCache.timers (MemoryCache.client m1) !! k
         = MemoryCache.timers (MemoryCache.client m) !! k).
Proof.
  intros Hconn. cbv zeta.
  unfold MemoryCache.managerSet, MemoryCache.managerGet, MemoryCache.managerRunTimers,
    MemoryCache.get.
  rewrite Hconn.
  cbn [negb fst snd MemoryCache.set MemoryCache.client MemoryCache.isConnected].
  rewrite ?Hconn. cbn [negb fst].
  split; [reflexivity |].
  split.
  { intros t Ht. rewrite runTimers_lookup. cbn [MemoryCache.timers MemoryCache.store].
    rewrite !lookup_insert_eq. cbn [MemoryCache.pending].
    assert (Hlt : (t <? now + MemoryCache.timerDelay (expiration * 1000)) = true)
      by (apply Z.ltb_lt; lia).
    by rewrite Hlt. }
  split.
  { intros t Ht. rewrite runTimers_lookup. cbn [MemoryCache.timers MemoryCache.store].
    rewrite !lookup_insert_eq. cbn [MemoryCache.pending].
    assert (Hlt : (t <? now + MemoryCache.timerDelay (expiration * 1000)) = false)
      by (apply Z.ltb_ge; lia).
    by rewrite Hlt. }
  split; [pose proof (timerDelay_positive (expiration * 1000)); lia |].
  split.
  { intros [H1 H2]. unfold MemoryCache.timerDelay.
    assert (Ha : (1 <=? expiration * 1000) = true) by (apply Z.leb_le; lia).
    assert (Hb : (expiration * 1000 <=? MemoryCache.TIMEOUT_MAX) = true) by (apply Z.leb_le; lia).
    by rewrite Ha, Hb. }
  split.
  { intros Hout. unfold MemoryCache.timerDelay.
    destruct Hout as [Hlow | Hhigh].
    - assert (Ha : (1 <=? expiration * 1000) = false) by (apply Z.leb_gt; lia).
      by rewrite Ha.
    - assert (Hb : (expiration * 1000 <=? MemoryCache.TIMEOUT_MAX) = false)
        by (apply Z.leb_gt; lia).
      rewrite Hb. by rewrite andb_false_r. }
  intros k Hk. cbn [MemoryCache.store MemoryCache.timers].
  rewrite !lookup_insert_ne by (intros Heq; by apply Hk). split; reflexivity.
Qed.

(** X26.  Every cached key has a pending timer and every timer belongs to
    a cached key: the keys of the timers are the keys of the values in the
    empty cache, and [set], [del], [flush], a firing timer and a run of
    the due timers keep it so.  A cache in that state holds no entry past
    its due time once the due timers have run. *)
Theorem timers_match_entries (c : MemoryCache.InMemoryCache) (key : string) (value : Doc)
    (expiration now t : Z) :
  dom (MemoryCache.timers c) = dom (MemoryCache.store c) →
  let same (c' : MemoryCache.InMemoryCache) :=
    dom (MemoryCache.timers c') = dom (MemoryCache.store c') in
  same MemoryCache.empty
  ∧ same (MemoryCache.set key value expiration now c).2
  ∧ same (MemoryCache.del key c).2
  ∧ same (MemoryCache.flush c).2
  ∧ same (MemoryCache.expire key c)
  ∧ same (MemoryCache.runTimers t c)
  ∧ (∀ k v, MemoryCache.store (MemoryCache.runTimers t c) !! k = Some v →
       ∃ due, MemoryCache.timers c !! k = Some due ∧ t < due).
Proof.
  intros Hsame. cbv zeta.
  cbn [MemoryCache.set MemoryCache.del MemoryCache.flush MemoryCache.expire MemoryCache.empty
       snd MemoryCache.store MemoryCache.timers].
  split; [by rewrite !dom_empty_L |].
  split; [by rewrite !dom_insert_L, Hsame |].
  split; [by rewrite !dom_delete_L, Hsame |].
  split; [by rewrite !dom_empty_L |].
  split; [by rewrite !dom_delete_L, Hsame |].
  assert (Hkey : ∀ k, is_Some (MemoryCache.timers c !! k) ↔ is_Some (MemoryCache.store c !! k)).
  { intros k. rewrite <- !elem_of_dom. by rewrite Hsame. }
  split.
  - apply set_eq. intros k. rewrite !elem_of_dom, runTimers_lookup, runTimers_timer.
    specialize (Hkey k).
    destruct (MemoryCache.timers c !! k) as [due|] eqn:Ht; cbn [MemoryCache.pending].
    + destruct (t <? due); [| by rewrite !is_Some_alt].
      split; intros _; [by apply Hkey | done].
    + split; [by intros [? ?] |].
      intros Hs. apply Hkey in Hs. by destruct Hs.
  - intros k v. rewrite runTimers_lookup. specialize (Hkey k).
    destruct (MemoryCache.timers c !! k) as [due|] eqn:Ht; cbn [MemoryCache.pending].
    + destruct (t <? due) eqn:Hp; [| discriminate].
      intros _. exists due. split; [reflexivity |]. by apply Z.ltb_lt.
    + intros Hs. assert (Hnone : is_Some (@None Z)) by (apply Hkey; by eexists).
      by destruct Hnone.
Qed.

(** X27.  A disconnected manager is inert: [set], [get], [del] and
    [flush] answer false, null, false and false, leave the cache as it
    is and log one warning each.  [disconnect] empties the cache, so
    after [disconnect] and [connect] every key is a miss. *)
Theorem disconnected_cache_is_inert (m : MemoryCache.CacheManager) (key : string)
    (value : Doc) (expiration now : Z) :
  MemoryCache.isConnected m = false →
  (MemoryCache.managerSet key value expiration now m
   = (false, MemoryCache.warn "Cache not connected, skipping cache set" m)
   ∧ MemoryCache.managerGet key m
     = (None, MemoryCache.warn "Cache not connected, skipping cache get" m)
   ∧ MemoryCache.managerDel key m
     = (false, MemoryCache.warn "Cache not connected, skipping cache delete" m)
   ∧ MemoryCache.managerFlush m
     = (false, MemoryCache.warn "Cache not connected, skipping cache flush" m))
  ∧ (∀ msg, MemoryCache.client (MemoryCache.warn msg m) = MemoryCache.client m
            ∧ MemoryCache.isConnected (MemoryCache.warn msg m) = false)
  ∧ (∀ m0 k, (MemoryCache.managerGet k (MemoryCache.connect (MemoryCache.disconnect m0))).1
             = None
             ∧ MemoryCache.size
                 (MemoryCache.client (MemoryCache.connect (MemoryCache.disconnect m0))) = 0%nat).
Proof.
  intros Hconn.
  unfold MemoryCache.managerSet, MemoryCache.managerGet, MemoryCache.managerDel,
    MemoryCache.managerFlush.
  rewrite Hconn. cbn [negb].
  split; [split; [reflexivity | split; [reflexivity | split; reflexivity]] |].
  split; [intros msg; split; [reflexivity | exact Hconn] |].
  intros m0 k. split; reflexivity.
Qed.

(** X28.  The cache the services are modelled on is the connected
    manager between two firings of timers: when the manager's values are
    the world's cache, [get] answers the same, and [set], [del] and
    [flush] leave the manager's values equal to the world's cache again,
    whatever expiration is asked for. *)
Theorem service_cache_is_manager_store (m : MemoryCache.CacheManager) (w : World)
    (key : string) (value : Doc) (expiration now : Z) :
  MemoryCache.isConnected m = true →
  MemoryCache.store (MemoryCache.client m) = cache w →
  let agree (m' : MemoryCache.CacheManager) (w' : World) :=
    MemoryCache.isConnected m' = true ∧ MemoryCache.store (MemoryCache.client m') = cache w' in
  Cache.get key w = (Ok (MemoryCache.managerGet key m).1, w)
  ∧ (MemoryCache.managerGet key m).2 = m
  ∧ agree (MemoryCache.managerSet key value expiration now m).2 (Cache.set key value w).2
  ∧ agree (MemoryCache.managerDel key m).2 (Cache.del key w).2
  ∧ agree (MemoryCache.managerFlush m).2 (Cache.flush w).2
  ∧ domain (Cache.set key value w).2 = domain w
  ∧ domain (Cache.del key w).2 = domain w
  ∧ domain (Cache.flush w).2 = domain w.
Proof.
  intros Hconn Hstore. cbv zeta.
  unfold MemoryCache.managerSet, MemoryCache.managerGet, MemoryCache.managerDel,
    MemoryCache.managerFlush, MemoryCache.get, Cache.get, Cache.set, Cache.del, Cache.flush,
    gets, modify.
  rewrite Hconn.
  cbn [negb fst snd MemoryCache.set MemoryCache.del MemoryCache.flush MemoryCache.empty
       MemoryCache.client MemoryCache.isConnected MemoryCache.store cache set_cache].
  rewrite Hstore.
  split; [reflexivity |]. split; [reflexivity |].
  rewrite ?Hconn.
  split; [split; reflexivity |].
  split; [split; reflexivity |].
  split; [split; reflexivity |].
  split; [reflexivity |]. split; reflexivity.
Qed.

End Timers.

(** A five-second entry in a fresh manager. *)
Lemma cached_until_due_witness :
  (MemoryCache.managerGet "event_1"
     (MemoryCache.managerRunTimers 4999
        (@MemoryCache.managerSet sampleRuntime "event_1" sampleEvent 5 0
           MemoryCache.newManager).2)).1
  = Some (@jsonClone sampleRuntime sampleEvent)
  ∧ (MemoryCache.managerGet "event_1"
       (MemoryCache.managerRunTimers 5000
          (@MemoryCache.managerSet sampleRuntime "event_1" sampleEvent 5 0
             MemoryCache.newManager).2)).1
    = None.
Proof.
  destruct (@cached_until_due sampleRuntime "event_1" sampleEvent 5 0 MemoryCache.newManager
              eq_refl) as (_ & Hbefore & Hafter & _).
  split; [apply Hbefore | apply Hafter]; vm_compute; [reflexivity | discriminate].
Defined.

(** The empty cache, after one [set]. *)
Lemma timers_match_entries_witness :
  dom (MemoryCache.timers (MemoryCache.set "a" sampleEvent 1 0 MemoryCache.empty).2)
  = dom (MemoryCache.store (MemoryCache.set "a" sampleEvent 1 0 MemoryCache.empty).2).
Proof.
  assert (H0 : dom (MemoryCache.timers MemoryCache.empty) = dom (MemoryCache.store MemoryCache.empty))
    by (cbn [MemoryCache.empty MemoryCache.timers MemoryCache.store]; by rewrite !dom_empty_L).
  destruct (timers_match_entries MemoryCache.empty "a" sampleEvent 1 0 0 H0) as (_ & Hset & _).
  exact Hset.
Defined.

(** A manager after [disconnect]. *)
Lemma disconnected_cache_is_inert_witness :
  (MemoryCache.managerGet "a" (MemoryCache.disconnect MemoryCache.newManager)).1 = None.
Proof.
  destruct (@disconnected_cache_is_inert sampleRuntime (MemoryCache.disconnect MemoryCache.newManager)
              "a" sampleEvent 1 0 eq_refl) as ((_ & Hget & _) & _).
  rewrite Hget. reflexivity.
Defined.

(** The fresh manager and the sample world. *)
Lemma service_cache_is_manager_store_witness :
  MemoryCache.store
    (MemoryCache.client
       (@MemoryCache.managerSet sampleRuntime "a" sampleEvent 1 0 MemoryCache.newManager).2)
  = cache (@Cache.set sampleRuntime "a" sampleEvent sampleWorld).2.
Proof.
  destruct (@service_cache_is_manager_store sampleRuntime MemoryCache.newManager sampleWorld
              "a" sampleEvent 1 0 eq_refl eq_refl) as (_ & _ & (_ & Hset) & _).
  exact Hset.
Defined.

(** ** The confirmation mail *)

Section Confirmation.
Context `{RT : !Runtime}.

(** [getEventById] answers by the cache and the events alone. *)
Lemma getEventById_agrees (eventId : Value) (w1 w2 : World) :
  cache w1 = cache w2 → events w1 = events w2 →
  (EventService.getEventById eventId w1).1 = (EventService.getEventById eventId w2).1.
Proof.
  intros Hc He. rewrite !getEventById_cases, Hc, He.
  destruct (negb (ObjectId_isValid_value eventId)); [reflexivity |].
  destruct (cache w2 !! _); [reflexivity |].
  destruct (List.find _ (events w2)); reflexivity.
Qed.

Lemma getEventById_mail (eventId : Value) (w : World) :
  outbox (EventService.getEventById eventId w).2 = outbox w
  ∧ transporter (EventService.getEventById eventId w).2 = transporter w.
Proof.
  destruct (getEventById_effect eventId w) as (f & ->). split; reflexivity.
Qed.

Lemma sendRegistrationConfirmation_outbox (to : Value) (event : Doc) (w : World) :
  outbox (EmailService.sendRegistrationConfirmation to event w).2
  = match transporter w with
    | Transporter delivers =>
        if delivers (mkEmail to "Registration Confirmed" event)
        then outbox w ++ [mkEmail to "Registration Confirmed" event]
        else outbox w
    | NoTransporter => outbox w
    end.
Proof.
  unfold EmailService.sendRegistrationConfirmation, EmailService.sendEmailNotification.
  run. destruct (transporter w) as [|delivers] eqn:Ht; simpl; [reflexivity |].
  destruct (delivers _); reflexivity.
Qed.

Lemma sendConfirmation_outbox (registrationData : Doc) (w : World) :
  outbox (EventService.sendConfirmation registrationData w).2
  = match (EventService.getEventById (get "eventId" registrationData) w).1, transporter w with
    | Ok event, Transporter delivers =>
        if delivers (mkEmail (get "studentEmail" registrationData) "Registration Confirmed" event)
        then outbox w
             ++ [mkEmail (get "studentEmail" registrationData) "Registration Confirmed" event]
        else outbox w
    | _, _ => outbox w
    end.
Proof.
  unfold EventService.sendConfirmation, try_catch, bind.
  destruct (getEventById_mail (get "eventId" registrationData) w) as (Ho & Ht).
  destruct (EventService.getEventById _ w) as [[event|e] w1]; cbn [fst snd] in *.
  - pose proof (sendRegistrationConfirmation_outbox
                  (get "studentEmail" registrationData) event w1) as Hsend.
    rewrite Ho, Ht in Hsend.
    destruct (EmailService.sendRegistrationConfirmation _ event w1) as [[[]|e] w2];
      cbn [snd] in *; [exact Hsend |].
    unfold logger, modify. cbn [snd outbox set_log]. exact Hsend.
  - unfold logger, modify. cbn [snd outbox set_log]. rewrite Ho.
    by destruct (transporter w).
Qed.

End Confirmation.

Section ConfirmationMail.
Context `{RT : !Runtime}.

(** X29.  The confirmation mail of a registration, for registration data
    without an [_id] whose [eventId] and [studentEmail] the store compares
    by equality.  A duplicate sends nothing.  A new registration is stored
    whether or not its event can be read, and sends at most one mail: exactly one, to the student's
    address and about the event as [getEventById] answers it, when the
    event can be read and the transport delivers it; none when there is
    no transporter, when the event cannot be read, or when the transport
    fails. *)
Theorem registration_confirmation_mail (registrationData : Doc) (now : Z) (w : World) :
  Mongo.equalityOn "eventId" (get "eventId" registrationData) (registrations w) = true →
  Mongo.equalityOn "studentEmail" (get "studentEmail" registrationData) (registrations w)
  = true →
  bsonValue (get "_id" registrationData) = VNull →
  let out := EventService.registerForEvent registrationData now w in
  let eventId := get "eventId" registrationData in
  let mail event :=
    mkEmail (get "studentEmail" registrationData) "Registration Confirmed" event in
  let existing :=
    List.find (Mongo.matches (<["eventId" := eventId]>
                              {[ "studentEmail" := get "studentEmail" registrationData ]}))
      (registrations w) in
  (is_Some existing → outbox out.2 = outbox w)
  ∧ (existing = None →
     (∃ registration, out.1 = Ok registration)
     ∧ (transporter w = NoTransporter → outbox out.2 = outbox w)
     ∧ (∀ e, (EventService.getEventById eventId w).1 = Throw e → outbox out.2 = outbox w)
     ∧ (∀ event delivers,
          (EventService.getEventById eventId w).1 = Ok event →
          transporter w = Transporter delivers →
          outbox out.2 = if delivers (mail event) then outbox w ++ [mail event] else outbox w)).
Proof.
  intros _ _ _. cbv zeta.
  pose proof (registerForEvent_cases registrationData now w) as Hcases.
  split.
  { intros [d Hd]. rewrite Hd in Hcases. by rewrite Hcases. }
  intros Hnone. rewrite Hnone in Hcases. destruct Hcases as (id & w' & Hrun & _).
  split; [exists (<["_id" := id]> (<["registeredAt" := VDate now]> registrationData));
          by rewrite Hrun |].
  clear Hrun.
  assert (Hout : outbox (EventService.registerForEvent registrationData now w).2
    = match (EventService.getEventById (get "eventId" registrationData) w).1, transporter w with
      | Ok event, Transporter delivers =>
          if delivers (mkEmail (get "studentEmail" registrationData)
                         "Registration Confirmed" event)
          then outbox w
               ++ [mkEmail (get "studentEmail" registrationData) "Registration Confirmed" event]
          else outbox w
      | _, _ => outbox w
      end).
  { unfold EventService.registerForEvent, Mongo.findOne. run. rewrite Hnone. simpl.
    destruct (insertOne_ok Mongo.registrationsCollection
                (<["registeredAt" := VDate now]> registrationData) w)
      as (id1 & w1 & -> & Hcore1 & _ & Hob1 & Htr1 & _).
    injection Hcore1 as _ He _ _ Hc _.
    set (w2 := Mongo.over Mongo.registrationsCollection _ w1).
    assert (Hagree : (EventService.getEventById (get "eventId" registrationData) w2).1
                     = (EventService.getEventById (get "eventId" registrationData) w).1).
    { apply getEventById_agrees; [exact Hc | exact He]. }
    pose proof (sendConfirmation_outbox registrationData w2) as Hsend.
    rewrite Hagree in Hsend.
    change (transporter w2) with (transporter w1) in Hsend.
    change (outbox w2) with (outbox w1) in Hsend.
    rewrite Htr1, Hob1 in Hsend.
    destruct (sendConfirmation_effect registrationData w2) as (w3 & f & Hconf & _).
    rewrite Hconf in Hsend |- *. cbn [snd outbox set_log] in Hsend |- *. exact Hsend. }
  rewrite Hout. split; [| split].
  - intros ->. by destruct (EventService.getEventById _ w).1.
  - intros e ->. reflexivity.
  - intros event delivers -> ->. reflexivity.
Qed.

End ConfirmationMail.

(** Carol's registration for the sample event with a transport that
    delivers: one mail, to her address, about the event. *)
Lemma registration_confirmation_mail_witness :
  outbox (@EventService.registerForEvent sampleRuntime sampleRegistration 7
            (set_transporter (Transporter (fun _ => true)) sampleWorld)).2
  = [mkEmail (VStr "carol@campus.edu") "Registration Confirmed" sampleEvent].
Proof.
  set (w := set_transporter (Transporter (fun _ => true)) sampleWorld).
  destruct (@registration_confirmation_mail sampleRuntime sampleRegistration 7 w
              eq_refl eq_refl eq_refl) as (_ & Hnew).
  destruct (Hnew eq_refl) as (_ & _ & _ & Hmail).
  assert (Hread : (@EventService.getEventById sampleRuntime (get "eventId" sampleRegistration) w).1
                  = Ok sampleEvent) by (vm_compute; reflexivity).
  rewrite (Hmail sampleEvent (fun _ => true) Hread eq_refl).
  vm_compute. reflexivity.
Defined.

(** ** The date check of the registration route *)

Section DateGate.
Context `{RT : !Runtime}.

(** X30.  The registration route, for an event that [getEventById] can
    read and a body whose [eventId] and [email] the store compares by
    equality.  When the event's date lies before the start of today the
    route answers 'Cannot register for past events' and stores and sends
    nothing.  Otherwise, that is for an event of today or later and also
    for an event whose date does not parse, the date does not stand in
    the way: the route redirects and stores one registration when none
    with the same event and email exists, and answers 'Duplicate
    Registration', storing nothing, when one does. *)
Theorem postRegister_date_gate (req : Request) (now : Z) (w : World) (event : Doc) :
  Mongo.equalityOn "eventId" (get "eventId" (body req)) (registrations w) = true →
  Mongo.equalityOn "studentEmail" (get "email" (body req)) (registrations w) = true →
  (EventService.getEventById (get "eventId" (body req)) w).1 = Ok event →
  let out := Server.postRegister req now w in
  let existing :=
    List.find (Mongo.matches (<["eventId" := get "eventId" (body req)]>
                              {[ "studentEmail" := get "email" (body req) ]}))
      (registrations w) in
  (∀ d, Date_parse (get "date" event) = Some d → d < startOfDay now →
     out.1 = Ok (render_error 400 "Cannot register for past events")
     ∧ domain out.2 = domain w ∧ outbox out.2 = outbox w)
  ∧ (Date_parse (get "date" event) = None
     ∨ (∃ d, Date_parse (get "date" event) = Some d ∧ startOfDay now ≤ d) →
     (existing = None →
        out.1 = Ok (redirect "/events?registered=true")
        ∧ List.length (registrations out.2) = S (List.length (registrations w)))
     ∧ (is_Some existing →
        out.1 = Ok (render_error 400 "Duplicate Registration")
        ∧ registrations out.2 = registrations w)).
Proof.
  intros _ _ Hread. cbv zeta. unfold Server.postRegister, try_catch, bind.
  destruct (getEventById_effect (get "eventId" (body req)) w) as (f & Hf).
  destruct (EventService.getEventById _ w) as [[ev|e] w1];
    cbn [fst snd] in Hread, Hf; [| discriminate Hread].
  injection Hread as ->. subst w1. unfold Server.datePassed. split.
  - intros d -> Hlt. assert (Hb : (d <? startOfDay now) = true) by (apply Z.ltb_lt; lia).
    rewrite Hb. unfold ret. cbn [fst snd]. split; [reflexivity |]. split; reflexivity.
  - intros Hnot.
    assert (Hgo : match Date_parse (get "date" event) with
                  | Some eventDate => eventDate <? startOfDay now
                  | None => false
                  end = false).
    { destruct Hnot as [-> | (d & -> & Hle)]; [reflexivity |]. apply Z.ltb_ge. lia. }
    rewrite Hgo.
    set (rd := <["studentEmail" := get "email" (body req)]> _).
    assert (He : get "eventId" rd = get "eventId" (body req)).
    { unfold get at 1, rd. by simplify_map_eq. }
    assert (Hm : get "studentEmail" rd = get "email" (body req)).
    { unfold get at 1, rd. by simplify_map_eq. }
    pose proof (registerForEvent_cases rd now (set_cache f w)) as Hcases.
    rewrite He, Hm in Hcases. cbn [registrations set_cache] in Hcases.
    split.
    + intros Hnone. rewrite Hnone in Hcases.
      destruct Hcases as (id & w' & -> & Hregs & _).
      unfold ret. cbn [fst snd]. split; [reflexivity |].
      rewrite Hregs. cbn [registrations set_cache]. rewrite length_app. simpl. lia.
    + intros [d Hd]. rewrite Hd in Hcases. rewrite Hcases.
      unfold Server.console_error, logger, bind, modify, ret.
      cbn [fst snd exn_message String.eqb registrations set_log set_cache].
      rewrite ?String.eqb_refl. cbn [fst snd registrations set_log set_cache].
      split; reflexivity.
Qed.

End DateGate.

(** Carol registers through the route on the first day of 2030: for the
    sample event of May 2030 the route redirects and stores her
    registration; for an event of January 2020 it answers 'Cannot register
    for past events' and stores nothing. *)
Lemma postRegister_date_gate_witness :
  let now := 1893456000000 in
  let past : Doc := <["_id" := VId 2]> (<["date" := VStr "2020-01-01"]> sampleEvent) in
  let w := set_events (fun l => l ++ [past]) sampleWorld in
  let request (eventId : string) :=
    mkRequest "/register" None ∅
      (<["eventId" := VStr eventId]> {[ "email" := VStr "carol@campus.edu" ]}) None None in
  ((@Server.postRegister sampleRuntime (request "000000000000000000000001") now w).1
   = Ok (redirect "/events?registered=true")
   ∧ List.length
       (registrations
          (@Server.postRegister sampleRuntime (request "000000000000000000000001") now w).2)
     = 1%nat)
  ∧ ((@Server.postRegister sampleRuntime (request "000000000000000000000002") now w).1
     = Ok (render_error 400 "Cannot register for past events")
     ∧ registrations
         (@Server.postRegister sampleRuntime (request "000000000000000000000002") now w).2
       = []).
Proof.
  cbv zeta.
  set (past := (<["_id" := VId 2]> (<["date" := VStr "2020-01-01"]> sampleEvent) : Doc)).
  set (w := set_events (fun l => l ++ [past]) sampleWorld).
  split.
  - set (req := mkRequest "/register" None ∅
                  (<["eventId" := VStr "000000000000000000000001"]>
                     {[ "email" := VStr "carol@campus.edu" ]}) None None).
    assert (Hread : (@EventService.getEventById sampleRuntime (get "eventId" (body req)) w).1
                    = Ok sampleEvent) by (vm_compute; reflexivity).
    destruct (@postRegister_date_gate sampleRuntime req 1893456000000 w sampleEvent
                eq_refl eq_refl Hread) as (_ & Hgo).
    destruct Hgo as (Hnew & _).
    { right. exists 1903824000000. split; [vm_compute; reflexivity |]. vm_compute. discriminate. }
    destruct (Hnew eq_refl) as (Hres & Hlen). split; [exact Hres | exact Hlen].
  - set (req := mkRequest "/register" None ∅
                  (<["eventId" := VStr "000000000000000000000002"]>
                     {[ "email" := VStr "carol@campus.edu" ]}) None None).
    assert (Hread : (@EventService.getEventById sampleRuntime (get "eventId" (body req)) w).1
                    = Ok past) by (vm_compute; reflexivity).
    destruct (@postRegister_date_gate sampleRuntime req 1893456000000 w past
                eq_refl eq_refl Hread) as (Hpast & _).
    destruct (Hpast 1577836800000) as (Hres & Hdom & _).
    { vm_compute. reflexivity. }
    { vm_compute. reflexivity. }
    split; [exact Hres |].
    pose proof (f_equal (fun p => snd (fst p)) Hdom) as Hregs.
    cbn [domain fst snd] in Hregs. exact Hregs.
Defined.

